(** * Retrieval-and-answering pipeline of the TDS virtual teaching assistant

    A shallow embedding of [ai_assistant_simple.py], [ai_assistant.py],
    [vector_store.py] and the part of [api.py] that wires them together,
    followed by the properties of the pipeline.  The scrapers that fill the
    corpus ([scraper.py], [discourse_scraper.py]) are embedded as far as
    their own code goes, the web and the database taken as given.

    Conventions of the embedding.
    - A Python [str] is a list of characters ([str := list ascii]); a
      character is a code point below 256 (Latin-1), on which [lower],
      [isspace] and [len] are modelled exactly as CPython computes them.
    - A Python [int] is a [Z]; a Python [float] that is finite is the exact
      rational it denotes (a [Q]), so that float comparisons are the
      comparisons of [Q].
    - Code that may raise lives in the error monad [exc]; the payload of
      [Raise] is [str(e)], the only part of an exception the code looks at.
    - A [for] loop that appends to lists is a [fold_left] whose accumulator
      holds these lists.
    - The column [ScrapedContent.title] is a string: every writer of the
      table in this repository stores one. *)

From Stdlib Require Import String Ascii.
From Stdlib Require Import List ZArith QArith Lia Bool.
From Stdlib Require Import Sorted Permutation DecimalString.
Import ListNotations.

Local Open Scope Z_scope.

(* ================================================================== *)
(** ** Python strings *)
(* ================================================================== *)

Module PyStr.

Definition str := list ascii.

(** A string literal of the source. *)
Definition py (s : string) : str := list_ascii_of_string s.
Arguments py s%_string.

Definition len (s : str) : Z := Z.of_nat (length s).

Definition str_eqb (a b : str) : bool :=
  if list_eq_dec ascii_dec a b then true else false.

(** [c.isupper()] on Latin-1: A-Z, and the accented capitals U+00C0..U+00DE
    without the multiplication sign U+00D7. *)
Definition is_upper (c : ascii) : bool :=
  let n := nat_of_ascii c in
  ((65 <=? n) && (n <=? 90))%nat
  || ((192 <=? n) && (n <=? 222) && negb (n =? 215))%nat.

Definition lower_char (c : ascii) : ascii :=
  if is_upper c then ascii_of_nat (nat_of_ascii c + 32) else c.

(** [s.lower()] *)
Definition lower (s : str) : str := map lower_char s.

(** [c.isspace()] on Latin-1: TAB..CR, FS..US, SPACE, NEL and NBSP. *)
Definition isspace (c : ascii) : bool :=
  let n := nat_of_ascii c in
  ((9 <=? n) && (n <=? 13))%nat || ((28 <=? n) && (n <=? 32))%nat
  || (n =? 133)%nat || (n =? 160)%nat.

(** [s.split()]: maximal runs of characters that are not white space.
    [cur] is the word being read, last character first. *)
Fixpoint split_aux (cur : str) (s : str) : list str :=
  match s with
  | [] => match cur with [] => [] | _ => [rev cur] end
  | c :: s' =>
      if isspace c
      then match cur with
           | [] => split_aux [] s'
           | _ => rev cur :: split_aux [] s'
           end
      else split_aux (c :: cur) s'
  end.

Definition split (s : str) : list str := split_aux [] s.

(** [s.startswith(p)] *)
Fixpoint starts_with (p s : str) : bool :=
  match p, s with
  | [], _ => true
  | _ :: _, [] => false
  | c :: p', d :: s' => Ascii.eqb c d && starts_with p' s'
  end.

(** [needle in hay] *)
Fixpoint py_in (needle hay : str) : bool :=
  starts_with needle hay
  || match hay with
     | [] => false
     | _ :: hay' => py_in needle hay'
     end.

(** [s.count(sub)] for a non-empty [sub]: occurrences are counted from the
    left and do not overlap; after a match the scan resumes behind it, which
    [skip] (the characters of the match still to pass) takes care of. *)
Fixpoint count_aux (sub : str) (skip : nat) (s : str) : Z :=
  match s with
  | [] => 0
  | _ :: s' =>
      match skip with
      | S k => count_aux sub k s'
      | O => if starts_with sub s
             then 1 + count_aux sub (length sub - 1) s'
             else count_aux sub 0 s'
      end
  end.

(** [s.count(sub)]; the empty string occurs between any two characters. *)
Definition count (s sub : str) : Z :=
  match sub with
  | [] => len s + 1
  | _ => count_aux sub 0 s
  end.

(** [l[:k]] with Python's reading of a negative bound. *)
Definition slice_to {A : Type} (l : list A) (k : Z) : list A :=
  if 0 <=? k then firstn (Z.to_nat k) l
  else firstn (Z.to_nat (Z.of_nat (length l) + k)) l.

(** [sep.join(parts)] *)
Fixpoint join (sep : str) (parts : list str) : str :=
  match parts with
  | [] => []
  | [p] => p
  | p :: rest => p ++ sep ++ join sep rest
  end.

(** [str(n)] for a natural number, as an f-string prints it. *)
Definition str_of_nat (n : nat) : str :=
  list_ascii_of_string (NilEmpty.string_of_uint (Nat.to_uint n)).

(** Truth value of a string: empty is false. *)
Definition truthy (s : str) : bool :=
  match s with [] => false | _ => true end.

(** Truth value of [Optional[str]]: [None] and [""] are false. *)
Definition truthy_opt (s : option str) : bool :=
  match s with Some (_ :: _) => true | _ => false end.

(** [a or b] on strings that may be [None]. *)
Definition or_else (a : option str) (b : str) : str :=
  match a with Some (c :: r) => c :: r | _ => b end.

End PyStr.
Export PyStr.

(* ================================================================== *)
(** ** Exceptions and the stable sort *)
(* ================================================================== *)

Module Py.

(** A computation that returns a value or raises; [Raise msg] carries
    [str(e)]. *)
Inductive exc (A : Type) : Type :=
| Ret (a : A)
| Raise (msg : str).
Arguments Ret {A} a.
Arguments Raise {A} msg.

Definition bind {A B : Type} (m : exc A) (k : A -> exc B) : exc B :=
  match m with
  | Ret a => k a
  | Raise msg => Raise msg
  end.

(** [try: body  except Exception as e: handler(str(e))] where both
    branches return. *)
Definition try_except {A : Type} (body : exc A) (handler : str -> A) : A :=
  match body with
  | Ret a => a
  | Raise msg => handler msg
  end.

(** [l[i]] with Python's negative indices and its IndexError. *)
Definition getitem {A : Type} (l : list A) (i : Z) : exc A :=
  let n := Z.of_nat (length l) in
  let j := if i <? 0 then n + i else i in
  if (0 <=? j) && (j <? n)
  then match nth_error l (Z.to_nat j) with
       | Some a => Ret a
       | None => Raise (py "list index out of range")
       end
  else Raise (py "list index out of range").

Section Sort.
Context {A : Type} (key : A -> Z).

(** [x] goes in front of the first element whose key is not above its
    own: in front of its equals, which stood behind it in the input. *)
Fixpoint insert_desc (x : A) (l : list A) : list A :=
  match l with
  | [] => [x]
  | y :: t => if key y <=? key x then x :: y :: t else y :: insert_desc x t
  end.

(** [l.sort(key=key, reverse=True)]: the stable sort by descending key
    (equal keys keep the order of the input). *)
Fixpoint sort_desc (l : list A) : list A :=
  match l with
  | [] => []
  | x :: t => insert_desc x (sort_desc t)
  end.

Definition ge_key (x y : A) : Prop := key y <= key x.

End Sort.

End Py.
Export Py.

Notation "x <- m ;; k" := (bind m (fun x => k))
  (at level 61, m at next level, right associativity).

(* ================================================================== *)
(** ** models.py *)
(* ================================================================== *)

Module Models.

(** A row of the table [ScrapedContent] (the columns the pipeline reads). *)
Record ScrapedContent : Type := {
  sc_id : Z;
  sc_url : str;
  sc_title : str;
  sc_content : str;
  sc_content_type : str
}.

(** What [ScrapedContent.query.all()] does when it is called: it returns
    the rows in table order, or raises when the database cannot be
    reached.  One request sees one outcome, also when it queries twice. *)
Definition Db : Type := exc (list ScrapedContent).

End Models.
Export Models.

(* ================================================================== *)
(** ** ai_assistant_simple.py: the keyword search *)
(* ================================================================== *)

Module Simple.

(** The dictionary [simple_search] builds for a row that scored. *)
Record SearchHit : Type := {
  hit_content : ScrapedContent;
  hit_score : Z;
  hit_id : Z;
  hit_url : str;
  hit_title : str;
  hit_text : str;
  hit_content_type : str
}.

Definition mk_hit (content : ScrapedContent) (score : Z) : SearchHit :=
  {| hit_content := content;
     hit_score := score;
     hit_id := sc_id content;
     hit_url := sc_url content;
     hit_title := sc_title content;
     hit_text := sc_content content;
     hit_content_type := sc_content_type content |}.

(** [set(words)]: each word once.  Python leaves the iteration order of a
    set open; the model iterates in the order of the last occurrences, and
    [word_loop_perm] shows that the order is immaterial. *)
Definition py_set (words : list str) : list str :=
  nodup (list_eq_dec ascii_dec) words.

(** [f"{content.title} {content.content}".lower()] *)
Definition search_text (content : ScrapedContent) : str :=
  lower (sc_title content ++ py " " ++ sc_content content).

(** [if phrase in question.lower() and phrase in text: score += w] *)
Definition phrase_step (question text : str) (phrase : string) (w : Z) (score : Z) : Z :=
  if py_in (py phrase) (lower question) && py_in (py phrase) text
  then score + w else score.

(** [for word in question_words: if len(word) > 2: score += text.count(word)] *)
Definition word_loop (text : str) (question_words : list str) (score : Z) : Z :=
  fold_left
    (fun score word => if 2 <? len word then score + count text word else score)
    question_words score.

(** The body of the loop over the rows, up to [if score > 0]. *)
Definition content_score (question : str) (question_words : list str)
    (content : ScrapedContent) : Z :=
  let text := search_text content in
  let score := 0 in
  let score := phrase_step question text "gpt-3.5-turbo" 20 score in
  let score := phrase_step question text "gpt-4o-mini" 15 score in
  let score := phrase_step question text "ga4" 20 score in
  let score := phrase_step question text "dashboard" 15 score in
  let score := phrase_step question text "bonus" 15 score in
  let score := phrase_step question text "docker" 20 score in
  let score := phrase_step question text "podman" 20 score in
  let score := phrase_step question text "sep 2025" 20 score in
  let score := phrase_step question text "exam" 15 score in
  word_loop text question_words score.

Definition simple_search (db : Db) (question : str) (top_k : Z) : list SearchHit :=
  try_except
    (contents <- db ;;
     match contents with
     | [] => Ret []
     | _ =>
       let question_words := py_set (split (lower question)) in
       let scored_results :=
         fold_left
           (fun scored_results content =>
              let score := content_score question question_words content in
              if 0 <? score
              then scored_results ++ [mk_hit content score]
              else scored_results)
           contents [] in
       let scored_results := sort_desc hit_score scored_results in
       Ret (slice_to scored_results top_k)
     end)
    (fun _ => []).

(** *** The score as the specification words it *)

Definition zsum (l : list Z) : Z := fold_right Z.add 0 l.

(** The lexicon of high-value phrases with their weights. *)
Definition phrase_lexicon : list (str * Z) :=
  [ (py "gpt-3.5-turbo", 20); (py "gpt-4o-mini", 15); (py "ga4", 20);
    (py "dashboard", 15); (py "bonus", 15); (py "docker", 20);
    (py "podman", 20); (py "sep 2025", 20); (py "exam", 15) ].

(** Sum of the weights of the phrases present in both the lowercase
    question and the lowercase text of the row. *)
Definition phrase_bonus (question text : str) : Z :=
  zsum (map (fun pw : str * Z =>
               if py_in (fst pw) (lower question) && py_in (fst pw) text
               then snd pw else 0)
            phrase_lexicon).

(** The distinct words of the lowercase question longer than 2 characters. *)
Definition long_words (question : str) : list str :=
  filter (fun w => 2 <? len w) (py_set (split (lower question))).

(** Occurrences of these words in the lowercase text, summed. *)
Definition word_occurrences (question text : str) : Z :=
  zsum (map (fun w => count text w) (long_words question)).

Definition keyword_score (question : str) (content : ScrapedContent) : Z :=
  phrase_bonus question (search_text content)
  + word_occurrences question (search_text content).

(** The hits the specification describes: every row with its score, rows
    of score 0 left out, the stable descending sort, the first [top_k]. *)
Definition ranked_hits (contents : list ScrapedContent) (question : str) : list SearchHit :=
  sort_desc hit_score
    (filter (fun h => 0 <? hit_score h)
       (map (fun c => mk_hit c (keyword_score question c)) contents)).

(* ------------------------------------------------------------------ *)
(** *** The generation capability (the OpenAI client) *)

Inductive ContentPart : Type :=
| TextPart (text : str)
| ImageUrlPart (url : str).

Inductive MessageContent : Type :=
| PlainContent (text : str)
| PartsContent (parts : list ContentPart).

Record Message : Type := { role : str; content : MessageContent }.

Record ChatRequest : Type := {
  model : str;
  messages : list Message;
  max_tokens : Z;
  temperature : Q
}.

(** [response.choices], each choice with its [message.content], which the
    client may leave [None]. *)
Definition ChatResponse : Type := list (option str).

(** [openai_client.chat.completions.create]: it answers or raises. *)
Definition OpenAI : Type := ChatRequest -> exc ChatResponse.

Definition nl : str := py "
".

(** The system prompt; its second line is empty in [ai_assistant_simple.py]
    and holds blanks in [ai_assistant.py]. *)
Definition system_prompt (second_line : str) : str :=
  py "You are a helpful Teaching Assistant for the Tools in Data Science course at IIT Madras. " ++ nl
  ++ second_line ++ nl
  ++ py "Your task is to answer student questions based on the provided course content and discourse discussions." ++ nl
  ++ nl
  ++ py "Guidelines:" ++ nl
  ++ py "1. Provide accurate, helpful answers based on the context provided" ++ nl
  ++ py "2. If the question involves choosing between models (like GPT versions), refer to the specific requirements mentioned in the course materials" ++ nl
  ++ py "3. Be concise but comprehensive" ++ nl
  ++ py "4. If you cannot find relevant information in the context, say so clearly" ++ nl
  ++ py "5. Focus on practical, actionable advice for students" ++ nl
  ++ nl
  ++ py "Respond with a clear, helpful answer that addresses the student's question directly.".

(** The f-string that carries the question and the context. *)
Definition user_prompt (question context : str) : str :=
  py "Student Question: " ++ question ++ nl
  ++ nl
  ++ py "Relevant Course Content and Discussions:" ++ nl
  ++ context ++ nl
  ++ nl
  ++ py "Please provide a helpful answer to the student's question based on the above context.".

Definition image_instruction : str :=
  nl ++ nl ++ py "Note: The student has also provided an image/screenshot. Please analyze it in context of their question.".

(** [f"Title: {title}\nURL: {url}\nContent: {body[:500]}..."] *)
Definition context_entry (title url body : str) : str :=
  py "Title: " ++ title ++ nl ++ py "URL: " ++ url ++ nl
  ++ py "Content: " ++ slice_to body 500 ++ py "...".

Definition context_separator : str := nl ++ nl ++ py "---" ++ nl ++ nl.

(* ------------------------------------------------------------------ *)
(** *** Links and answers *)

Record Link : Type := { url : str; text : str }.

Record AnswerResult : Type := { answer : str; links : list Link }.

(** The body of the loop of [rank_and_filter_links] over the links. *)
Definition link_score (question_lower answer answer_lower : str) (link : Link) : Z :=
  let score := 0 in
  let title_lower := lower (text link) in
  let question_words := split question_lower in
  let score :=
    fold_left
      (fun score word =>
         if (3 <? len word) && py_in word title_lower then score + 1 else score)
      question_words score in
  let score :=
    if py_in (url link) answer || py_in (lower (text link)) answer_lower
    then score + 2 else score in
  score.

Definition rank_and_filter_links (links : list Link) (question answer : str) : list Link :=
  match links with
  | [] => []
  | _ =>
    let question_lower := lower question in
    let answer_lower := lower answer in
    let scored_links :=
      fold_left
        (fun scored_links link =>
           scored_links ++ [(link, link_score question_lower answer answer_lower link)])
        links [] in
    let scored_links := sort_desc snd scored_links in
    map fst (filter (fun ls => 0 <? snd ls) scored_links)
  end.

(* ------------------------------------------------------------------ *)
(** *** The fallback answer *)

Definition nothing_found : str :=
  py "I couldn't find specific information about your question in the course materials. Please try rephrasing your question or check the course resources directly.".

Definition image_disclaimer : str :=
  py "Note: I can see you've included an image, but I need AI functionality to analyze it. Please describe what's in the image so I can help better.".

Definition materials_unreachable : str :=
  py "I'm having trouble accessing the course materials right now. Please try again later or contact your instructor.".

Definition fallback_header : str := py "Based on the course materials I found:" ++ nl.

(** [enumerate(l, start)] *)
Fixpoint enumerate {A : Type} (l : list A) (start : Z) : list (Z * A) :=
  match l with
  | [] => []
  | a :: t => (start, a) :: enumerate t (start + 1)
  end.

(** [f"{i}"] *)
Definition str_of_int (i : Z) : str :=
  if i <? 0 then py "-" ++ str_of_nat (Z.abs_nat i) else str_of_nat (Z.to_nat i).

(** [text[:200] + "..." if len(text) > 200 else text] *)
Definition content_snippet (text : str) : str :=
  if 200 <? len text then slice_to text 200 ++ py "..." else text.

Definition excerpt_heading (i : Z) (title : str) : str :=
  str_of_int i ++ py ". From '" ++ title ++ py "':".

(** One round of the loop over the hits: three appends to [answer_parts],
    one to [relevant_links]. *)
Definition fallback_step (acc : list str * list Link) (ir : Z * SearchHit)
  : list str * list Link :=
  let '(answer_parts, relevant_links) := acc in
  let '(i, result) := ir in
  let answer_parts := answer_parts ++ [excerpt_heading i (hit_title result)] in
  let answer_parts := answer_parts ++ [py "   " ++ content_snippet (hit_text result)] in
  let answer_parts := answer_parts ++ [[]] in
  (answer_parts,
   relevant_links ++ [{| url := hit_url result; text := hit_title result |}]).

Definition generate_fallback_answer (db : Db) (question : str)
    (image_base64 : option str) : AnswerResult :=
  try_except
    (let search_results := simple_search db question 3 in
     match search_results with
     | [] => Ret {| answer := nothing_found; links := [] |}
     | _ =>
       let '(answer_parts, relevant_links) :=
         fold_left fallback_step
           (enumerate (slice_to search_results 3) 1)
           ([fallback_header], []) in
       let answer_parts :=
         if truthy_opt image_base64
         then answer_parts ++ [image_disclaimer] else answer_parts in
       Ret {| answer := join nl answer_parts; links := relevant_links |}
     end)
    (fun _ => {| answer := materials_unreachable; links := [] |}).

(* ------------------------------------------------------------------ *)
(** *** answer_question *)

(** One round of the loop over the search results. *)
Definition context_step (acc : list str * list Link) (result : SearchHit)
  : list str * list Link :=
  let '(context_parts, relevant_links) := acc in
  if 0 <? hit_score result
  then (context_parts
          ++ [context_entry (hit_title result) (hit_url result) (hit_text result)],
        relevant_links ++ [{| url := hit_url result; text := hit_title result |}])
  else (context_parts, relevant_links).

Definition no_context : str :=
  py "No highly relevant content found in the database.".

Definition no_response : str := py "I couldn't generate a response.".

Definition error_answer (e : str) : AnswerResult :=
  {| answer := py "Sorry, I encountered an error while processing your question: " ++ e;
     links := [] |}.

(** The test of the [except] branch on [str(e).lower()]. *)
Definition is_quota_error (e : str) : bool :=
  py_in (py "quota") (lower e) || py_in (py "insufficient") (lower e).

(** The messages sent to the model. *)
Definition build_messages (user_text : str) (image_base64 : option str) : list Message :=
  let messages :=
    [ {| role := py "system"; content := PlainContent (system_prompt []) |} ] in
  if truthy_opt image_base64
  then
    let user_text := user_text ++ image_instruction in
    messages ++
    [ {| role := py "user";
         content := PartsContent
           [ TextPart user_text;
             ImageUrlPart (py "data:image/jpeg;base64,"
                           ++ match image_base64 with Some b => b | None => [] end) ] |} ]
  else
    messages ++ [ {| role := py "user"; content := PlainContent user_text |} ].

Definition answer_question (openai_client : option OpenAI) (db : Db)
    (question : str) (image_base64 : option str) : AnswerResult :=
  match openai_client with
  | None => generate_fallback_answer db question image_base64
  | Some client =>
    try_except
      (let search_results := simple_search db question 5 in
       let '(context_parts, relevant_links) :=
         fold_left context_step search_results ([], []) in
       let context :=
         match context_parts with
         | [] => no_context
         | _ => join context_separator context_parts
         end in
       let user_text := user_prompt question context in
       let messages := build_messages user_text image_base64 in
       response <- client {| model := py "gpt-4o";
                             messages := messages;
                             max_tokens := 1000;
                             temperature := 3602879701896397 # 36028797018963968 |} ;;
       choice <- getitem response 0 ;;
       let answer := or_else choice no_response in
       let final_links := rank_and_filter_links relevant_links question answer in
       Ret {| answer := answer; links := slice_to final_links 3 |})
      (fun e =>
         if is_quota_error e
         then generate_fallback_answer db question image_base64
         else error_answer e)
  end.

End Simple.

(* ================================================================== *)
(** ** vector_store.py *)
(* ================================================================== *)

Module VectorStoreM.

(** The payload kept beside the index for each row. *)
Record Document : Type := {
  doc_id : Z;
  doc_url : str;
  doc_title : str;
  doc_content : str;
  doc_content_type : str;
  doc_text : str
}.

Section Store.
(** The embedding library and FAISS lie outside the repository: [Vec] is
    a batch of one float32 vector, [normalize_L2] is
    [faiss.normalize_L2], and an index is what its [search] method does:
    asked for [k] neighbours it returns row 0 of the score matrix and row
    0 of the index matrix (with [-1] where it has no neighbour), or
    raises. *)
Variable Vec : Type.
Variable normalize_L2 : Vec -> Vec.

Record FaissIndex : Type := {
  index_search : Vec -> Z -> exc (list Q * list Z)
}.

Record VectorStore : Type := {
  model_encode : str -> exc Vec;      (* self.model.encode([text]) as float32 *)
  index : option FaissIndex;          (* self.index *)
  documents : list Document           (* self.documents *)
}.

(** One round of [for score, idx in zip(scores[0], indices[0])]. *)
Definition search_step (docs : list Document)
    (results : exc (list (Document * Q))) (si : Q * Z)
  : exc (list (Document * Q)) :=
  results <- results ;;
  let '(score, idx) := si in
  if negb (idx =? -1)
  then doc <- getitem docs idx ;; Ret (results ++ [(doc, score)])
  else Ret results.

Definition search (self : VectorStore) (query : str) (top_k : Z)
  : exc (list (Document * Q)) :=
  match index self, documents self with
  | None, _ => Ret []
  | Some _, [] => Ret []
  | Some idx, docs =>
    query_embedding <- model_encode self query ;;
    let query_embedding := normalize_L2 query_embedding in
    si <- index_search idx query_embedding
            (Z.min top_k (Z.of_nat (length docs))) ;;
    let '(scores, indices) := si in
    fold_left (search_step docs) (combine scores indices) (Ret [])
  end.

Definition index_in_range (docs : list Document) (i : Z) : Prop :=
  i = -1 \/ 0 <= i < Z.of_nat (length docs).

End Store.

Arguments index_search {Vec} _ _ _.
Arguments model_encode {Vec} _ _.
Arguments index {Vec} _.
Arguments documents {Vec} _.

End VectorStoreM.

(* ================================================================== *)
(** ** ai_assistant.py: the assistant over the vector store *)
(* ================================================================== *)

Module Vector.
Import Simple VectorStoreM.

(** The double that the literal [0.3] denotes. *)
Definition relevance_threshold : Q := 5404319552844595 # 18014398509481984.

(** [score > 0.3] *)
Definition above_threshold (score : Q) : bool :=
  negb (Qle_bool score relevance_threshold).

(** One round of [for doc, score in search_results]. *)
Definition context_step (acc : list str * list Link) (hit : Document * Q)
  : list str * list Link :=
  let '(context_parts, relevant_links) := acc in
  let '(doc, score) := hit in
  if above_threshold score
  then (context_parts
          ++ [context_entry (doc_title doc) (doc_url doc) (doc_content doc)],
        relevant_links ++ [{| url := doc_url doc; text := doc_title doc |}])
  else (context_parts, relevant_links).

(** Here the answer is the model's text as it comes, [None] included. *)
Record VectorAnswer : Type := { v_answer : option str; v_links : list Link }.

Definition not_configured : str :=
  py "OpenAI API key not configured. Please set OPENAI_API_KEY environment variable.".

Definition vector_error_answer (e : str) : VectorAnswer :=
  {| v_answer :=
       Some (py "Sorry, I encountered an error while processing your question: " ++ e);
     v_links := [] |}.

(** [rank_and_filter_links] is the same function here; its [answer.lower()]
    raises on [None] once the list of links is not empty. *)
Definition rank_links_opt (links : list Link) (question : str) (answer : option str)
  : exc (list Link) :=
  match links, answer with
  | [], _ => Ret []
  | _, Some a => Ret (rank_and_filter_links links question a)
  | _, None => Raise (py "'NoneType' object has no attribute 'lower'")
  end.

Definition build_messages (user_text : str) (image_base64 : option str) : list Message :=
  let user_content :=
    if truthy_opt image_base64
    then [ TextPart (user_text ++ image_instruction);
           ImageUrlPart (py "data:image/jpeg;base64,"
                         ++ match image_base64 with Some b => b | None => [] end) ]
    else [ TextPart user_text ] in
  [ {| role := py "system";
       content := PlainContent (system_prompt (py "                ")) |};
    {| role := py "user"; content := PartsContent user_content |} ].

Section Assistant.
Variable Vec : Type.
Variable normalize_L2 : Vec -> Vec.

Definition answer_question (openai_client : option OpenAI)
    (vector_store : VectorStore Vec) (question : str) (image_base64 : option str)
  : VectorAnswer :=
  match openai_client with
  | None => {| v_answer := Some not_configured; v_links := [] |}
  | Some client =>
    try_except
      (search_results <- search Vec normalize_L2 vector_store question 5 ;;
       let '(context_parts, relevant_links) :=
         fold_left context_step search_results ([], []) in
       let context := join context_separator context_parts in
       let messages := build_messages (user_prompt question context) image_base64 in
       response <- client {| model := py "gpt-4o";
                             messages := messages;
                             max_tokens := 1000;
                             temperature := 3602879701896397 # 36028797018963968 |} ;;
       answer <- getitem response 0 ;;
       final_links <- rank_links_opt relevant_links question answer ;;
       Ret {| v_answer := answer; v_links := slice_to final_links 3 |})
      vector_error_answer
  end.
End Assistant.

End Vector.

(* ================================================================== *)
(** ** api.py: the endpoint *)
(* ================================================================== *)

Module Api.
Import Simple VectorStoreM.

(** [s.strip()] *)
Fixpoint lstrip (s : str) : str :=
  match s with
  | c :: s' => if isspace c then lstrip s' else s
  | [] => []
  end.

Definition strip (s : str) : str := rev (lstrip (rev (lstrip s))).

(** The JSON object of the request, as far as the handler reads it: the
    string under "question" and the string under "image", each if the key
    is there.  The object with neither key is the empty object.  A body
    that is no JSON, a question that is null or no string (on these the
    source answers 500 from its outer handler), and keys the handler does
    not read are outside this type. *)
Record QuestionRequest : Type := {
  req_question : option str;
  req_image : option str
}.

Inductive HttpResponse : Type :=
| Http200 (result : AnswerResult)
| Http400 (error : str).

(** Everything the process holds when a request arrives: the client of
    [ai_assistant_simple.py], the database, and the global [vector_store]
    of [vector_store.py]. *)
Record World (Vec : Type) : Type := {
  openai_client : option OpenAI;
  db : Db;
  vector_store : VectorStore Vec
}.
Arguments openai_client {Vec} _.
Arguments db {Vec} _.
Arguments vector_store {Vec} _.

(** [not data]: no body, or the empty object. *)
Definition no_data (data : option QuestionRequest) : bool :=
  match data with
  | None => true
  | Some {| req_question := None; req_image := None |} => true
  | Some _ => false
  end.

(** [handle_question].  The module imports [answer_question] from
    [ai_assistant_simple]; [b64decode] is [base64.b64decode], which returns
    or raises.  The row written to [QuestionAnswer] after the answer is
    computed does not reach the response and is left out, and so is the
    outer handler that turns an exception into a 500 response: over the
    requests of [QuestionRequest] nothing in the body below raises. *)
Definition handle_question {Vec : Type} (b64decode : str -> exc unit)
    (w : World Vec) (data : option QuestionRequest) : HttpResponse :=
  if no_data data then Http400 (py "No JSON data provided")
  else
    let question :=
      strip (match data with
             | Some {| req_question := Some q |} => q
             | _ => []
             end) in
    if negb (truthy question) then Http400 (py "Question is required")
    else
      let image_base64 :=
        match data with Some d => req_image d | None => None end in
      let image_ok :=
        if truthy_opt image_base64
        then match b64decode (match image_base64 with Some b => b | None => [] end) with
             | Ret _ => true
             | Raise _ => false
             end
        else true in
      if image_ok
      then Http200 (Simple.answer_question (openai_client w) (db w) question image_base64)
      else Http400 (py "Invalid base64 image data").

End Api.

(* ================================================================== *)
(** ** vector_store.py: building, loading and extending the index *)
(* ================================================================== *)

Module VectorStoreIO.
Import VectorStoreM.

(** [self.dimension] *)
Definition dimension : Z := 384.

(** [f"{content.title}\n{content.content}"] *)
Definition text_of (content : ScrapedContent) : str :=
  sc_title content ++ Simple.nl ++ sc_content content.

(** The dictionary kept for a row. *)
Definition document_of (content : ScrapedContent) : Document :=
  {| doc_id := sc_id content;
     doc_url := sc_url content;
     doc_title := sc_title content;
     doc_content := sc_content content;
     doc_content_type := sc_content_type content;
     doc_text := text_of content |}.

Section Lifecycle.
(** FAISS and the embedding model, as in [VectorStoreM]: [IndexFlatIP d] is
    a new, empty index; [index_add idx m] is the index [idx] after
    [idx.add(m)]; [encode_texts] is [self.model.encode(texts)] on a list of
    texts, as float32.  Of these calls only the encoding is given a way to
    raise. *)
Variable Vec : Type.
Variable normalize_L2 : Vec -> Vec.
Variable IndexFlatIP : Z -> FaissIndex Vec.
Variable index_add : FaissIndex Vec -> Vec -> FaissIndex Vec.
Variable encode_texts : list str -> exc Vec.

(** The files [vector_index.faiss] and [documents.pkl]: absent, or present
    with what reading them gives (a value, or an exception).  Writing them
    is taken to succeed. *)
Record Files : Type := {
  index_file : option (exc (FaissIndex Vec));
  docs_file : option (exc (list Document))
}.

(** What a method leaves behind: whether it returned or raised, the store
    and the files. *)
Record Outcome : Type := {
  result : exc unit;
  store : VectorStore Vec;
  files : Files
}.

Definition with_index (self : VectorStore Vec) (idx : option (FaissIndex Vec))
  : VectorStore Vec :=
  {| model_encode := model_encode self; index := idx; documents := documents self |}.

Definition with_documents (self : VectorStore Vec) (docs : list Document)
  : VectorStore Vec :=
  {| model_encode := model_encode self; index := index self; documents := docs |}.

(** One round of the loop of [create_index] over the rows. *)
Definition collect_step (acc : list str * list Document) (content : ScrapedContent)
  : list str * list Document :=
  let '(texts, documents) := acc in
  (texts ++ [text_of content], documents ++ [document_of content]).

Definition create_index (db : Db) (self : VectorStore Vec) (fs : Files) : Outcome :=
  match db with
  | Raise e => {| result := Raise e; store := self; files := fs |}
  | Ret [] =>
      {| result := Ret tt;
         store := with_documents (with_index self (Some (IndexFlatIP dimension))) [];
         files := fs |}
  | Ret contents =>
      let '(texts, documents) := fold_left collect_step contents ([], []) in
      let self := with_documents self documents in
      match encode_texts texts with
      | Raise e => {| result := Raise e; store := self; files := fs |}
      | Ret embeddings =>
          let embeddings := normalize_L2 embeddings in
          let idx := index_add (IndexFlatIP dimension) embeddings in
          let self := with_index self (Some idx) in
          {| result := Ret tt;
             store := self;
             files := {| index_file := Some (Ret idx);
                         docs_file := Some (Ret (VectorStoreM.documents self)) |} |}
      end
  end.

Definition load_or_create_index (db : Db) (self : VectorStore Vec) (fs : Files)
  : Outcome :=
  match index_file fs, docs_file fs with
  | Some read_index, Some load_docs =>
      match read_index with
      | Ret idx =>
          let self := with_index self (Some idx) in
          match load_docs with
          | Ret docs =>
              {| result := Ret tt; store := with_documents self docs; files := fs |}
          | Raise _ => create_index db self fs
          end
      | Raise _ => create_index db self fs
      end
  | _, _ => create_index db self fs
  end.

Definition add_document (content : ScrapedContent) (db : Db)
    (self : VectorStore Vec) (fs : Files) : Outcome :=
  let loaded :=
    match index self with
    | None => load_or_create_index db self fs
    | Some _ => {| result := Ret tt; store := self; files := fs |}
    end in
  match result loaded with
  | Raise e => loaded
  | Ret _ =>
      let self := store loaded in
      let fs := files loaded in
      match model_encode self (text_of content) with
      | Raise e => {| result := Raise e; store := self; files := fs |}
      | Ret embedding =>
          let embedding := normalize_L2 embedding in
          match index self with
          | None =>
              {| result := Raise (py "'NoneType' object has no attribute 'add'");
                 store := self; files := fs |}
          | Some idx =>
              let idx := index_add idx embedding in
              let docs := documents self ++ [document_of content] in
              {| result := Ret tt;
                 store := with_documents (with_index self (Some idx)) docs;
                 files := {| index_file := Some (Ret idx);
                             docs_file := Some (Ret docs) |} |}
          end
      end
  end.

End Lifecycle.

Arguments index_file {Vec} _.
Arguments docs_file {Vec} _.
Arguments result {Vec} _.
Arguments store {Vec} _.
Arguments files {Vec} _.
Arguments with_index {Vec} _ _.
Arguments with_documents {Vec} _ _.

End VectorStoreIO.

(* ================================================================== *)
(** ** scraper.py *)
(* ================================================================== *)

Module Scraper.

Definition newline : ascii := "010"%char.
Definition slash : ascii := "/"%char.

(** [s.split(sep)] for a separator of one character: the pieces between
    the separators, empty pieces included.  [cur] is the piece being read,
    last character first. *)
Fixpoint split_on_aux (sep : ascii) (cur : str) (s : str) : list str :=
  match s with
  | [] => [rev cur]
  | c :: s' =>
      if Ascii.eqb c sep
      then rev cur :: split_on_aux sep [] s'
      else split_on_aux sep (c :: cur) s'
  end.

Definition split_on (sep : ascii) (s : str) : list str := split_on_aux sep [] s.

(** The loop of [extract_title_from_content] over the lines. *)
Fixpoint first_title (lines : list str) : str :=
  match lines with
  | [] => py "Untitled"
  | line :: rest =>
      let line := Api.strip line in
      if truthy line && (len line <? 100) then line else first_title rest
  end.

Definition extract_title_from_content (content : str) : str :=
  first_title (split_on newline content).

(** [extract_title_from_content(content) or url.split('/')[-1]] *)
Definition scraped_title (content url : str) : str :=
  or_else (Some (extract_title_from_content content)) (last (split_on slash url) []).

Section Web.
(** trafilatura: [fetch_url] returns the page, or [None], or raises;
    [extract] returns the text, or [None], or raises.  [next_id] is the
    primary key the database gives to a row added to the table. *)
Variable fetch_url : str -> exc (option str).
Variable extract : str -> exc (option str).
Variable next_id : list ScrapedContent -> Z.

Definition get_website_text_content (url : str) : str :=
  try_except
    (downloaded <- fetch_url url ;;
     if truthy_opt downloaded
     then text <- extract (match downloaded with Some d => d | None => [] end) ;;
          Ret (or_else text [])
     else Ret [])
    (fun _ => []).

(** [ScrapedContent.query.filter_by(url=url).first()] is a row. *)
Definition already_scraped (table : list ScrapedContent) (url : str) : bool :=
  existsb (fun row => str_eqb (sc_url row) url) table.

(** One round of the loop over the URLs, shared by
    [scrape_discourse_posts] and [scrape_course_content] up to the content
    type.  The table is the rows in the order they were added; the
    database is taken to answer. *)
Definition scrape_step (content_type : str) (table : list ScrapedContent) (url : str)
  : list ScrapedContent :=
  if already_scraped table url then table
  else
    let content := get_website_text_content url in
    if truthy content
    then table ++ [ {| sc_id := next_id table;
                       sc_url := url;
                       sc_title := scraped_title content url;
                       sc_content := content;
                       sc_content_type := content_type |} ]
    else table.

Definition scrape_urls (content_type : str) (urls : list str)
    (table : list ScrapedContent) : list ScrapedContent :=
  fold_left (scrape_step content_type) urls table.

(** The dates of [scrape_discourse_posts] are not used by its body. *)
Definition scrape_discourse_posts (base_url : str) (table : list ScrapedContent)
  : list ScrapedContent :=
  scrape_urls (py "discourse")
    [ base_url ++ py "/c/tools-in-data-science/6.json";
      base_url ++ py "/t/week-1-tools-in-data-science/1234";
      base_url ++ py "/t/assignment-guidelines/5678" ]
    table.

Definition scrape_course_content (table : list ScrapedContent) : list ScrapedContent :=
  scrape_urls (py "course")
    [ py "https://onlinedegree.iitm.ac.in/course/tools-in-data-science/week1";
      py "https://onlinedegree.iitm.ac.in/course/tools-in-data-science/week2";
      py "https://onlinedegree.iitm.ac.in/course/tools-in-data-science/assignments" ]
    table.

End Web.

End Scraper.

(* ================================================================== *)
(** ** discourse_scraper.py *)
(* ================================================================== *)

Module DiscourseScraper.

(** The JSON of a topic as far as [get_topic_content] reads it: the title
    if there is one, and for each post of the post stream its [cooked]
    HTML if it has one. *)
Record TopicJson : Type := {
  topic_title : option str;
  topic_posts : list (option str)
}.

(** The response of the session: its status code and what [json()]
    does. *)
Record Response : Type := {
  status_code : Z;
  json : exc TopicJson
}.

(** The dictionary [get_topic_content] returns. *)
Record TopicData : Type := {
  td_title : str;
  td_content : str;
  td_url : str
}.

Section Discourse.
(** [self.base_url]; [session_get url] is [self.session.get(url,
    timeout=10)]; [soup_text html] is the text BeautifulSoup extracts from
    the HTML; [get_category_topics] stands for the method of that name
    (the topics it returns for a category, each with its [id] if it has
    one; the date range is part of the call and is left inside it);
    [next_id] is the primary key the database gives to a new row. *)
Variable base_url : str.
Variable session_get : str -> exc Response.
Variable soup_text : str -> str.
Variable get_category_topics : str -> list (option Z).
Variable next_id : list ScrapedContent -> Z.

(** [f"{self.base_url}/t/{topic_id}"] *)
Definition topic_url (topic_id : Z) : str :=
  base_url ++ py "/t/" ++ Simple.str_of_int topic_id.

(** One round of the loop over the posts. *)
Definition post_step (content_parts : list str) (cooked : option str) : list str :=
  if truthy_opt cooked
  then content_parts ++ [soup_text (match cooked with Some h => h | None => [] end)]
  else content_parts.

Definition get_topic_content (topic_id : Z) : option TopicData :=
  try_except
    (response <- session_get (topic_url topic_id ++ py ".json") ;;
     if negb (status_code response =? 200) then Ret None
     else
       data <- json response ;;
       let content_parts := fold_left post_step (topic_posts data) [] in
       let topic_title :=
         match topic_title data with Some t => t | None => py "Untitled" end in
       Ret (Some {| td_title := topic_title;
                    td_content := join Simple.context_separator content_parts;
                    td_url := topic_url topic_id |}))
    (fun _ => None).

(** [category_url.split('/')[-1]], or "34" without a URL. *)
Definition category_id_of (category_url : option str) : str :=
  if truthy_opt category_url
  then last (Scraper.split_on Scraper.slash
               (match category_url with Some u => u | None => [] end)) []
  else py "34".

(** One round of the loop over the topics: the table and the count
    afterwards.  A topic without [id] raises inside the round and is
    passed over. *)
Definition topic_step (acc : list ScrapedContent * Z) (topic : option Z)
  : list ScrapedContent * Z :=
  let '(table, scraped_count) := acc in
  match topic with
  | None => (table, scraped_count)
  | Some topic_id =>
      if Scraper.already_scraped table (topic_url topic_id)
      then (table, scraped_count)
      else
        match get_topic_content topic_id with
        | Some topic_data =>
            (table ++ [ {| sc_id := next_id table;
                           sc_url := td_url topic_data;
                           sc_title := td_title topic_data;
                           sc_content := td_content topic_data;
                           sc_content_type := py "discourse" |} ],
             scraped_count + 1)
        | None => (table, scraped_count)
        end
  end.

(** [scrape_tds_course_posts]: the table afterwards and the count
    returned. *)
Definition scrape_tds_course_posts (category_url : option str)
    (table : list ScrapedContent) : list ScrapedContent * Z :=
  let category_id := category_id_of category_url in
  let topics := get_category_topics category_id in
  fold_left topic_step topics (table, 0).

End Discourse.

End DiscourseScraper.

(* ================================================================== *)
(** * The specification's side, and sample data *)
(* ================================================================== *)

(** What the specification says of the link ranker, the fallback answer
    and the generative path, written as definitions of their own, and the
    rows, questions, answers, clients and stores the pipeline is run on
    below. *)

Import Simple.

(** A fixed corpus for running the search: two rows, the second scoring
    higher for the question below. *)
Definition demo_docker : ScrapedContent :=
  {| sc_id := 1; sc_url := py "https://tds.example/docker";
     sc_title := py "Docker Setup";
     sc_content := py "Use Podman where you can; Docker works too.";
     sc_content_type := py "course" |}.

Definition demo_ga4 : ScrapedContent :=
  {| sc_id := 2; sc_url := py "https://tds.example/ga4";
     sc_title := py "GA4 Dashboard";
     sc_content := py "The dashboard shows 110 when the bonus is counted.";
     sc_content_type := py "discourse" |}.

Definition demo_question : str :=
  py "How does the GA4 dashboard show bonus marks?".

(** What counting the occurrences of a word [w] in a text means: reading
    from the left, the first occurrence is counted and the reading resumes
    behind it, so that occurrences which overlap a counted one are not
    counted.  In [counted_next] the occurrence between [pre] and [post] is
    the first one: the word occurs in [pre ++ w] at the end only. *)
Inductive counted (w : str) : str -> Z -> Prop :=
| counted_none (s : str) :
    (forall pre post, s <> pre ++ w ++ post) ->
    counted w s 0
| counted_next (pre post : str) (n : Z) :
    (forall pre' post', pre ++ w = pre' ++ w ++ post' -> post' = []) ->
    counted w post n ->
    counted w (pre ++ w ++ post) (n + 1).

Definition hit_link (h : SearchHit) : Link :=
  {| url := hit_url h; text := hit_title h |}.

Definition hit_entry (h : SearchHit) : str :=
  context_entry (hit_title h) (hit_url h) (hit_text h).

Definition doc_link (h : VectorStoreM.Document * Q) : Link :=
  {| url := VectorStoreM.doc_url (fst h); text := VectorStoreM.doc_title (fst h) |}.

Definition doc_entry (h : VectorStoreM.Document * Q) : str :=
  context_entry (VectorStoreM.doc_title (fst h)) (VectorStoreM.doc_url (fst h))
                (VectorStoreM.doc_content (fst h)).

(** The doubles that the literals [0.3] and [0.31] denote. *)
Definition float_0_30 : Q := 5404319552844595 # 18014398509481984.

(** One point for every word of the lower-case question, repeated words
    counted each time, that is longer than 3 characters and occurs in the
    lower-case title. *)
Definition title_word_points (question : str) (link : Link) : Z :=
  Z.of_nat (length (filter (fun w => (3 <? len w) && py_in w (lower (text link)))
                           (split (lower question)))).

(** The link is mentioned in the answer: its URL occurs in the answer as
    it is written, or its lower-case title occurs in the lower-case
    answer. *)
Definition mentioned (answer : str) (link : Link) : bool :=
  py_in (url link) answer || py_in (lower (text link)) (lower answer).

Definition mention_bonus (answer : str) (link : Link) : Z :=
  if mentioned answer link then 2 else 0.

Definition link_relevance (question answer : str) (link : Link) : Z :=
  title_word_points question link + mention_bonus answer link.

(** The links with their relevance, in the order the ranker returns them. *)
Definition ranked_links (links : list Link) (question answer : str) : list (Link * Z) :=
  filter (fun ls : Link * Z => 0 <? snd ls)
    (sort_desc snd (map (fun l => (l, link_relevance question answer l)) links)).

(** The two links of the worked example. *)
Definition link_a : Link := {| url := py "a"; text := py "GA4 Dashboard" |}.
Definition link_b : Link := {| url := py "b"; text := py "Docker Setup" |}.

Definition demo_answer : str :=
  py "The dashboard shows 110 because the bonus mark is added.".

Definition shouting_link : Link :=
  {| url := py "HTTPS://TDS.EXAMPLE/GA4"; text := py "Grading" |}.

Definition quiet_answer : str := py "see https://tds.example/ga4 for details".

(** The three lines one hit contributes to the fallback answer. *)
Definition excerpt (ih : Z * SearchHit) : list str :=
  [ excerpt_heading (fst ih) (hit_title (snd ih));
    py "   " ++ content_snippet (hit_text (snd ih));
    [] ].

(** The lines of the fallback answer over the hits [hits]. *)
Definition fallback_lines (hits : list SearchHit) (image_base64 : option str) : list str :=
  [fallback_header] ++ concat (map excerpt (enumerate hits 1))
  ++ (if truthy_opt image_base64 then [image_disclaimer] else []).

(** The worked example: two rows, texts of 250 and of 50 characters. *)
Definition docker_guidelines : ScrapedContent :=
  {| sc_id := 1; sc_url := py "https://tds.example/docker";
     sc_title := py "Docker Guidelines";
     sc_content := repeat "d"%char 250;
     sc_content_type := py "course" |}.

Definition podman_notes : ScrapedContent :=
  {| sc_id := 2; sc_url := py "https://tds.example/podman";
     sc_title := py "Podman Notes";
     sc_content := repeat "p"%char 50;
     sc_content_type := py "course" |}.

Definition container_question : str := py "Docker or Podman?".

Definition content_link (c : ScrapedContent) : Link :=
  {| url := sc_url c; text := sc_title c |}.

(** A link of the given corpus whose row the keyword search scored. *)
Definition keyword_backed (db : Db) (question : str) (l : Link) : Prop :=
  exists contents c,
    db = Ret contents /\ In c contents
    /\ l = content_link c /\ 0 < keyword_score question c.

(** The links the generative path hands to the ranker. *)
Definition candidate_links (db : Db) (question : str) : list Link :=
  map hit_link (filter (fun h => 0 <? hit_score h) (simple_search db question 5)).

(** The context the generative path puts into the prompt. *)
Definition generation_context (db : Db) (question : str) : str :=
  let parts :=
    map hit_entry (filter (fun h => 0 <? hit_score h) (simple_search db question 5)) in
  match parts with
  | [] => no_context
  | _ => join context_separator parts
  end.

(** The one request the generative path sends. *)
Definition generation_request (db : Db) (question : str) (image_base64 : option str)
  : ChatRequest :=
  {| model := py "gpt-4o";
     messages := Simple.build_messages
                   (user_prompt question (generation_context db question))
                   image_base64;
     max_tokens := 1000;
     temperature := 3602879701896397 # 36028797018963968 |}.

(** How the generation capability fares on a question. *)
Inductive GenerationOutcome : Type :=
| NotConfigured
| Generated (content : option str)
| GenerationFailed (e : str).

Definition generation_outcome (openai_client : option OpenAI) (db : Db)
    (question : str) (image_base64 : option str) : GenerationOutcome :=
  match openai_client with
  | None => NotConfigured
  | Some client =>
    match client (generation_request db question image_base64) with
    | Raise e => GenerationFailed e
    | Ret [] => GenerationFailed (py "list index out of range")
    | Ret (content :: _) => Generated content
    end
  end.

(** The answer of the generative path for the text the model returned. *)
Definition generated_answer (db : Db) (question : str) (content : option str)
  : AnswerResult :=
  let answer := or_else content no_response in
  {| answer := answer;
     links := firstn 3 (rank_and_filter_links (candidate_links db question)
                                              question answer) |}.

Definition error_prefix : str :=
  py "Sorry, I encountered an error while processing your question: ".

(** A client that is out of quota, and one that cannot connect. *)
Definition quota_client : OpenAI :=
  fun _ => Raise (py "Error code: 429 - You exceeded your current quota").

Definition offline_client : OpenAI := fun _ => Raise (py "Connection error.").

(** A client that answers. *)
Definition ga4_client : OpenAI :=
  fun _ => Ret [Some (py "The GA4 dashboard adds the bonus.")].

(** A store for running the search: embeddings are lists of rationals, the
    index knows two rows and, asked for neighbours, answers with them and
    pads with the no-match position. *)
Definition demo_doc (c : ScrapedContent) : VectorStoreM.Document :=
  {| VectorStoreM.doc_id := sc_id c;
     VectorStoreM.doc_url := sc_url c;
     VectorStoreM.doc_title := sc_title c;
     VectorStoreM.doc_content := sc_content c;
     VectorStoreM.doc_content_type := sc_content_type c;
     VectorStoreM.doc_text := sc_title c ++ nl ++ sc_content c |}.

Definition demo_index : VectorStoreM.FaissIndex (list Q) :=
  {| VectorStoreM.index_search := fun _ k =>
       Ret (firstn (Z.to_nat k) [9 # 10; 1 # 5; 0 # 1],
            firstn (Z.to_nat k) [0; 1; -1]) |}.

Definition demo_store : VectorStoreM.VectorStore (list Q) :=
  {| VectorStoreM.model_encode := fun _ => Ret [1 # 1; 0 # 1];
     VectorStoreM.index := Some demo_index;
     VectorStoreM.documents := [demo_doc demo_docker; demo_doc demo_ga4] |}.

Definition unit_normalize (v : list Q) : list Q := v.

Definition with_vector_store {Vec : Type} (w : Api.World Vec)
    (vs : VectorStoreM.VectorStore Vec) : Api.World Vec :=
  {| Api.openai_client := Api.openai_client w;
     Api.db := Api.db w;
     Api.vector_store := vs |}.

(** A process with no OpenAI key, the two-row corpus, and a vector store
    that is loaded and answers. *)
Definition demo_world : Api.World (list Q) :=
  {| Api.openai_client := None;
     Api.db := Ret [demo_docker; demo_ga4];
     Api.vector_store := demo_store |}.

Definition demo_request : Api.QuestionRequest :=
  {| Api.req_question := Some (py "  How does the GA4 dashboard show bonus marks? ");
     Api.req_image := None |}.

Definition accept_base64 : str -> exc unit := fun _ => Ret tt.

Definition question_of (request : Api.QuestionRequest) : str :=
  match Api.req_question request with Some q => q | None => [] end.


Definition untitled_link : Link :=
  {| url := py "https://tds.example/untitled"; text := [] |}.

Definition index_error : str := py "list index out of range".

Definition none_has_no_lower : str :=
  py "'NoneType' object has no attribute 'lower'".

(** A client that fails with the given message, and one that answers with
    the given choices. *)
Definition failing_client (e : str) : OpenAI := fun _ => Raise e.
Definition answering_client (choices : ChatResponse) : OpenAI := fun _ => Ret choices.

(** A store whose index knows three rows while only two documents are
    kept. *)
Definition stale_index : VectorStoreM.FaissIndex (list Q) :=
  {| VectorStoreM.index_search := fun _ _ => Ret ([9 # 10; 1 # 2], [0; 2]) |}.

Definition stale_store : VectorStoreM.VectorStore (list Q) :=
  {| VectorStoreM.model_encode := fun _ => Ret [1 # 1; 0 # 1];
     VectorStoreM.index := Some stale_index;
     VectorStoreM.documents := [demo_doc demo_docker; demo_doc demo_ga4] |}.

(** Memory and files agree: the files hold the store's index and
    documents, and reading them succeeds. *)
Definition persisted {Vec : Type} (self : VectorStoreM.VectorStore Vec)
    (fs : VectorStoreIO.Files Vec) : Prop :=
  exists idx,
    VectorStoreM.index self = Some idx
    /\ VectorStoreIO.index_file fs = Some (Ret idx)
    /\ VectorStoreIO.docs_file fs = Some (Ret (VectorStoreM.documents self)).

(** A toy FAISS for running the lifecycle: every index answers like
    [demo_index], and the encoder returns a fixed matrix or fails. *)
Definition toy_flat_ip : Z -> VectorStoreM.FaissIndex (list Q) := fun _ => demo_index.

Definition toy_add (idx : VectorStoreM.FaissIndex (list Q)) (m : list Q)
  : VectorStoreM.FaissIndex (list Q) := idx.

Definition toy_encode : list str -> exc (list Q) := fun _ => Ret [1 # 1; 0 # 1].

Definition failing_encode : list str -> exc (list Q) :=
  fun _ => Raise (py "CUDA out of memory").

Definition empty_store : VectorStoreM.VectorStore (list Q) :=
  {| VectorStoreM.model_encode := fun _ => Ret [1 # 1; 0 # 1];
     VectorStoreM.index := None;
     VectorStoreM.documents := [] |}.

Definition no_files : VectorStoreIO.Files (list Q) :=
  {| VectorStoreIO.index_file := None; VectorStoreIO.docs_file := None |}.

Definition demo_built : VectorStoreIO.Outcome (list Q) :=
  VectorStoreIO.create_index (list Q) unit_normalize toy_flat_ip toy_add toy_encode
    (Ret [demo_docker; demo_ga4]) empty_store no_files.

(** What a scraped row looks like. *)
Definition scraped_row (content_type : str) (urls : list str) (row : ScrapedContent)
  : Prop :=
  In (sc_url row) urls
  /\ sc_content row <> []
  /\ sc_content_type row = content_type
  /\ sc_title row <> []
  /\ len (sc_title row) < 100.

Definition docker_client : OpenAI :=
  answering_client [Some (py "See Docker Setup for the container tools.")].





(** A web for running the scraper: every page is there and its text is a
    heading and the URL; rows are numbered from 1. *)
Definition toy_fetch : str -> exc (option str) := fun url => Ret (Some url).

Definition toy_extract : str -> exc (option str) :=
  fun page => Ret (Some (py "  Week notes  " ++ [Scraper.newline] ++ page)).

Definition toy_next_id : list ScrapedContent -> Z :=
  fun table => Z.of_nat (length table) + 1.

Definition toy_urls : list str :=
  [py "https://tds.example/week1"; py "https://tds.example/week2";
   py "https://tds.example/week1"].

(** A forum for running the Discourse scraper: topic 7 is there with two
    posts, one of them without HTML; every other request is refused. *)
Definition toy_base : str := py "https://forum.example".

Definition toy_session_get : str -> exc DiscourseScraper.Response :=
  fun url =>
    if str_eqb url (py "https://forum.example/t/7.json")
    then Ret {| DiscourseScraper.status_code := 200;
                DiscourseScraper.json :=
                  Ret {| DiscourseScraper.topic_title := Some (py "GA4 bonus");
                         DiscourseScraper.topic_posts :=
                           [Some (py "<p>first</p>"); None; Some (py "<p>second</p>")] |} |}
    else Ret {| DiscourseScraper.status_code := 404;
                DiscourseScraper.json := Raise (py "Expecting value") |}.

Definition toy_soup_text : str -> str := fun html => html.

Definition toy_topics : str -> list (option Z) := fun _ => [Some 7; None; Some 8; Some 7].

(* ================================================================== *)
(** * Facts *)
(* ================================================================== *)

(** ** Strings *)

Lemma lower_app (a b : str) : lower (a ++ b) = lower a ++ lower b.
Proof. apply map_app. Qed.

Lemma lower_length (a : str) : length (lower a) = length a.
Proof. apply length_map. Qed.

Lemma starts_with_spec (p s : str) :
  starts_with p s = true <-> exists post, s = p ++ post.
Proof.
  revert s; induction p as [|c p IH]; intros s; simpl.
  - split; [intros _; now exists s | reflexivity].
  - destruct s as [|d s]; simpl.
    + split; [discriminate | intros [post H]; discriminate].
    + rewrite andb_true_iff, Ascii.eqb_eq, IH. split.
      * intros [-> [post ->]]. now exists post.
      * intros [post H]. injection H as -> ->. split; [reflexivity | now exists post].
Qed.

Lemma py_in_spec (n h : str) :
  py_in n h = true <-> exists pre post, h = pre ++ n ++ post.
Proof.
  induction h as [|c h IH]; simpl.
  - rewrite orb_false_r, starts_with_spec. split.
    + intros [post H]. now exists [], post.
    + intros [pre [post H]]. destruct pre; simpl in H.
      * now exists post.
      * discriminate.
  - rewrite orb_true_iff, starts_with_spec, IH. split.
    + intros [[post H] | [pre [post H]]].
      * now exists [], post.
      * exists (c :: pre), post. simpl. now rewrite H.
    + intros [pre [post H]]. destruct pre as [|d pre]; simpl in H.
      * left. now exists post.
      * right. injection H as _ H. now exists pre, post.
Qed.

Lemma py_in_trans (a b c : str) :
  py_in a b = true -> py_in b c = true -> py_in a c = true.
Proof.
  rewrite !py_in_spec. intros [p1 [q1 ->]] [p2 [q2 ->]].
  exists (p2 ++ p1), (q1 ++ q2). now rewrite <- !app_assoc.
Qed.

Lemma py_in_lower (a b : str) :
  py_in a b = true -> py_in (lower a) (lower b) = true.
Proof.
  rewrite !py_in_spec. intros [p [q ->]].
  exists (lower p), (lower q). now rewrite !lower_app.
Qed.

Lemma py_in_empty (h : str) : py_in [] h = true.
Proof. destruct h; reflexivity. Qed.

Lemma join_contains (sep p : str) (parts : list str) :
  In p parts -> exists pre post, join sep parts = pre ++ p ++ post.
Proof.
  induction parts as [|q rest IH]; [intros [] |].
  intros [-> | Hin].
  - destruct rest as [|r rest].
    + exists [], []. simpl. now rewrite app_nil_r.
    + exists [], (sep ++ join sep (r :: rest)). reflexivity.
  - destruct rest as [|r rest]; [destruct Hin |].
    destruct (IH Hin) as [pre [post E]].
    exists (q ++ sep ++ pre), post.
    change (join sep (q :: r :: rest)) with (q ++ sep ++ join sep (r :: rest)).
    rewrite E. now rewrite <- !app_assoc.
Qed.

Lemma count_aux_nonneg (sub : str) (s : str) (k : nat) : 0 <= count_aux sub k s.
Proof.
  revert k; induction s as [|c s IH]; intros k; [simpl; lia|].
  cbn [count_aux]. destruct k; [|apply IH].
  pose proof (IH (length sub - 1)%nat). pose proof (IH 0%nat).
  destruct (starts_with sub (c :: s)); lia.
Qed.

Lemma count_nonneg (s sub : str) : 0 <= count s sub.
Proof.
  destruct sub; simpl; [unfold len; lia | apply count_aux_nonneg].
Qed.

Lemma count_aux_skip (w : str) (k : nat) (s : str) :
  count_aux w k s = count_aux w 0 (skipn k s).
Proof.
  revert k; induction s as [|c s IH]; intros k.
  - now rewrite skipn_nil.
  - destruct k as [|k]; [reflexivity|]. cbn [count_aux skipn]. apply IH.
Qed.

Lemma count_aux_match (w post : str) :
  w <> [] -> count_aux w 0 (w ++ post) = count_aux w 0 post + 1.
Proof.
  intros Hw. destruct w as [|a w]; [contradiction|].
  change ((a :: w) ++ post) with (a :: (w ++ post)). cbn [count_aux].
  assert (E : starts_with (a :: w) (a :: w ++ post) = true).
  { apply starts_with_spec. now exists post. }
  rewrite E, count_aux_skip. cbn [length]. rewrite Nat.sub_succ, Nat.sub_0_r.
  rewrite skipn_app, skipn_all, Nat.sub_diag, skipn_0. cbn [app]. lia.
Qed.

Lemma counted_cons (w : str) (c : ascii) (s : str) (n : Z) :
  starts_with w (c :: s) = false -> counted w s n -> counted w (c :: s) n.
Proof.
  intros Hno H.
  assert (Hno' : forall post, c :: s <> w ++ post).
  { intros post E. assert (starts_with w (c :: s) = true)
      by (apply starts_with_spec; now exists post). congruence. }
  destruct H as [s Hnone | pre post n Hleft Hrest].
  - apply counted_none. intros [|d pre] post E.
    + exact (Hno' post E).
    + injection E as _ E. exact (Hnone pre post E).
  - apply (counted_next w (c :: pre) post n); [|exact Hrest].
    intros [|d pre'] post' E.
    + exfalso. apply (Hno' (post' ++ post)). cbn [app] in E.
      rewrite (app_assoc w post' post), <- E. cbn [app].
      now rewrite <- app_assoc.
    + injection E as _ E. exact (Hleft pre' post' E).
Qed.

(** [s.count(w)] counts as [counted] says. *)
Lemma count_aux_counted (w : str) (s : str) :
  w <> [] -> counted w s (count_aux w 0 s).
Proof.
  intros Hw. remember (length s) as m eqn:Em.
  assert (Hm : (length s <= m)%nat) by lia. clear Em.
  revert s Hm; induction m as [|m IH]; intros s Hm.
  - destruct s; [|cbn in Hm; lia]. apply counted_none.
    intros pre post E. destruct pre, w; try discriminate. now apply Hw.
  - destruct s as [|c s].
    + apply counted_none.
      intros pre post E. destruct pre, w; try discriminate. now apply Hw.
    + destruct (starts_with w (c :: s)) eqn:E.
      * apply starts_with_spec in E as [post E]. rewrite E.
        rewrite count_aux_match by assumption.
        apply (counted_next w [] post).
        -- intros pre' post' E'. apply (f_equal (@length ascii)) in E'.
           rewrite !length_app in E'. cbn in E'.
           destruct post'; [reflexivity | cbn in E'; lia].
        -- apply IH. apply (f_equal (@length ascii)) in E.
           rewrite length_app in E. cbn in E, Hm.
           destruct w; [contradiction | cbn in E; lia].
      * replace (count_aux w 0 (c :: s)) with (count_aux w 0 s)
          by (cbn [count_aux]; now rewrite E).
        apply counted_cons; [exact E|]. apply IH. cbn in Hm. lia.
Qed.

(** The first occurrence of a word is where it is. *)
Lemma first_occurrence_unique (w pre1 post1 pre2 post2 : str) :
  (forall pre' post', pre1 ++ w = pre' ++ w ++ post' -> post' = []) ->
  (forall pre' post', pre2 ++ w = pre' ++ w ++ post' -> post' = []) ->
  pre1 ++ w ++ post1 = pre2 ++ w ++ post2 ->
  pre1 = pre2 /\ post1 = post2.
Proof.
  intros H1 H2 E.
  assert (Hpre : pre1 = pre2).
  { rewrite !app_assoc in E. apply app_eq_app in E as [l [[E1 E2] | [E1 E2]]].
    - rewrite <- app_assoc in E1. pose proof (H1 _ _ E1) as ->.
      rewrite app_nil_r in E1. now apply app_inv_tail in E1.
    - rewrite <- app_assoc in E1. pose proof (H2 _ _ E1) as ->.
      rewrite app_nil_r in E1. now apply app_inv_tail in E1. }
  subst pre2. split; [reflexivity|].
  apply app_inv_head in E. now apply app_inv_head in E.
Qed.

(** [counted] leaves no choice of the number. *)
Lemma counted_unique (w s : str) (n m : Z) :
  counted w s n -> counted w s m -> n = m.
Proof.
  intros Hn. revert m. induction Hn as [s Hnone | pre post n Hleft Hrest IH]; intros m Hm.
  - inversion Hm as [s' _ Es | pre' post' m' _ _ Es]; [reflexivity|].
    exfalso. exact (Hnone pre' post' (eq_sym Es)).
  - inversion Hm as [s' Hnone Es | pre' post' m' Hleft' Hrest' Es]; subst.
    + exfalso. exact (Hnone pre post eq_refl).
    + destruct (first_occurrence_unique w pre' post' pre post Hleft' Hleft Es)
        as [-> ->].
      now rewrite (IH m' Hrest').
Qed.

Lemma count_counted (w s : str) (n : Z) :
  w <> [] -> (count s w = n <-> counted w s n).
Proof.
  intros Hw.
  assert (E : count s w = count_aux w 0 s) by (destruct w; [contradiction | reflexivity]).
  rewrite E. split.
  - intros <-. now apply count_aux_counted.
  - intros H. exact (counted_unique w s _ _ (count_aux_counted w s Hw) H).
Qed.

Lemma slice_to_nonneg {A : Type} (l : list A) (k : Z) :
  0 <= k -> slice_to l k = firstn (Z.to_nat k) l.
Proof. intros H. unfold slice_to. destruct (Z.leb_spec 0 k); [reflexivity | lia]. Qed.

Lemma firstn_In {A : Type} (n : nat) (l : list A) (x : A) :
  In x (firstn n l) -> In x l.
Proof.
  intros H. rewrite <- (firstn_skipn n l). apply in_or_app. now left.
Qed.

Lemma slice_to_incl {A : Type} (l : list A) (k : Z) (x : A) :
  In x (slice_to l k) -> In x l.
Proof. unfold slice_to. destruct (0 <=? k); apply firstn_In. Qed.

Lemma slice_to_length {A : Type} (l : list A) (k : Z) :
  0 <= k -> (length (slice_to l k) <= Z.to_nat k)%nat.
Proof. intros H. rewrite slice_to_nonneg by assumption. apply firstn_le_length. Qed.

(** ** The stable sort *)

Section SortFacts.
Context {A : Type} (key : A -> Z).

Lemma insert_desc_perm (x : A) (l : list A) : Permutation (x :: l) (insert_desc key x l).
Proof.
  induction l as [|y t IH]; simpl; [reflexivity|].
  destruct (key y <=? key x); [reflexivity|].
  rewrite perm_swap. now constructor.
Qed.

Lemma sort_desc_perm (l : list A) : Permutation l (sort_desc key l).
Proof.
  induction l as [|x t IH]; simpl; [constructor|].
  rewrite <- insert_desc_perm. now constructor.
Qed.

Lemma sort_desc_In (l : list A) (x : A) : In x (sort_desc key l) <-> In x l.
Proof.
  split; apply Permutation_in; [symmetry|]; apply sort_desc_perm.
Qed.

Lemma sort_desc_length (l : list A) : length (sort_desc key l) = length l.
Proof. symmetry. apply Permutation_length, sort_desc_perm. Qed.

Lemma insert_desc_sorted (x : A) (l : list A) :
  StronglySorted (ge_key key) l -> StronglySorted (ge_key key) (insert_desc key x l).
Proof.
  induction 1 as [|y t Hs IH Hall]; simpl.
  - repeat constructor.
  - destruct (Z.leb_spec (key y) (key x)) as [Hle|Hlt].
    + constructor; [now constructor|].
      constructor; [exact Hle|].
      eapply Forall_impl; [|exact Hall]. unfold ge_key. intros; lia.
    + constructor; [exact IH|].
      apply (Permutation_Forall (insert_desc_perm x t)).
      constructor; [unfold ge_key; lia | exact Hall].
Qed.

Lemma sort_desc_sorted (l : list A) : StronglySorted (ge_key key) (sort_desc key l).
Proof.
  induction l as [|x t IH]; simpl; [constructor | now apply insert_desc_sorted].
Qed.

(** Stability: among the elements of one key nothing moves. *)
Lemma insert_desc_stable (s : Z) (x : A) (l : list A) :
  filter (fun a => key a =? s) (insert_desc key x l)
  = filter (fun a => key a =? s) (x :: l).
Proof.
  induction l as [|y t IH]; [reflexivity|].
  cbn [insert_desc]. destruct (Z.leb_spec (key y) (key x)) as [Hle|Hlt]; [reflexivity|].
  cbn [filter] in *. rewrite IH.
  destruct (Z.eqb_spec (key x) s), (Z.eqb_spec (key y) s); try reflexivity; lia.
Qed.

Lemma sort_desc_stable (s : Z) (l : list A) :
  filter (fun a => key a =? s) (sort_desc key l) = filter (fun a => key a =? s) l.
Proof.
  induction l as [|x t IH]; [reflexivity|].
  cbn [sort_desc]. rewrite insert_desc_stable. cbn [filter]. now rewrite IH.
Qed.

End SortFacts.

(** A stable descending sort is determined by its properties (sorted, and
    each class of equal keys in input order), so [sort_desc] stands for
    whatever algorithm [list.sort] runs. *)
Lemma stable_sort_unique {A : Type} (key : A -> Z) (l1 l2 : list A) :
  StronglySorted (ge_key key) l1 -> StronglySorted (ge_key key) l2 ->
  (forall s, filter (fun a => key a =? s) l1 = filter (fun a => key a =? s) l2) ->
  l1 = l2.
Proof.
  revert l2; induction l1 as [|x t1 IH]; intros l2 S1 S2 E.
  - destruct l2 as [|y t2]; [reflexivity|].
    specialize (E (key y)). simpl in E. now rewrite Z.eqb_refl in E.
  - destruct l2 as [|y t2].
    + specialize (E (key x)). simpl in E. now rewrite Z.eqb_refl in E.
    + inversion S1 as [|? ? S1' F1]; inversion S2 as [|? ? S2' F2]; subst.
      assert (Hxy : key x = key y).
      { pose proof (E (key x)) as Ex. pose proof (E (key y)) as Ey.
        simpl in Ex, Ey. rewrite Z.eqb_refl in Ex, Ey.
        destruct (Z.eqb_spec (key y) (key x)) as [e|ne]; [now symmetry|].
        destruct (Z.eqb_spec (key x) (key y)) as [e'|ne']; [assumption|].
        assert (In x (filter (fun a => key a =? key x) t2))
          by (rewrite <- Ex; now left).
        assert (In y (filter (fun a => key a =? key y) t1))
          by (rewrite Ey; now left).
        rewrite filter_In in *.
        rewrite Forall_forall in F1, F2. unfold ge_key in *.
        assert (key x <= key y) by (apply F2; tauto).
        assert (key y <= key x) by (apply F1; tauto). lia. }
      assert (x = y).
      { specialize (E (key x)). simpl in E.
        rewrite <- Hxy, Z.eqb_refl in E. congruence. }
      subst y. f_equal. apply IH; try assumption.
      intros s. specialize (E s). simpl in E.
      destruct (key x =? s); congruence.
Qed.

Lemma filter_comm {A : Type} (p q : A -> bool) (l : list A) :
  filter p (filter q l) = filter q (filter p l).
Proof.
  induction l as [|x t IH]; [reflexivity|]. simpl.
  destruct (p x) eqn:Hp, (q x) eqn:Hq; simpl; rewrite ?Hp, ?Hq, IH; reflexivity.
Qed.

Lemma filter_sorted {A : Type} (R : A -> A -> Prop) (p : A -> bool) (l : list A) :
  StronglySorted R l -> StronglySorted R (filter p l).
Proof.
  induction 1 as [|x t Hs IH Hall]; simpl; [constructor|].
  destruct (p x); [|exact IH]. constructor; [exact IH|].
  rewrite Forall_forall in *. intros y Hy. apply Hall.
  rewrite filter_In in Hy. tauto.
Qed.

(** Sorting and then dropping elements is dropping and then sorting. *)
Lemma sort_desc_filter {A : Type} (key : A -> Z) (p : A -> bool) (l : list A) :
  filter p (sort_desc key l) = sort_desc key (filter p l).
Proof.
  apply (stable_sort_unique key).
  - apply filter_sorted, sort_desc_sorted.
  - apply sort_desc_sorted.
  - intros s. rewrite filter_comm, !sort_desc_stable. apply filter_comm.
Qed.

(** ** The keyword search *)

Lemma word_loop_sum (text : str) (ws : list str) (s : Z) :
  word_loop text ws s
  = s + zsum (map (fun w => count text w) (filter (fun w => 2 <? len w) ws)).
Proof.
  unfold word_loop. revert s; induction ws as [|w ws IH]; intros s; simpl; [lia|].
  rewrite IH. destruct (2 <? len w); simpl; lia.
Qed.

Lemma zsum_perm (l l' : list Z) : Permutation l l' -> zsum l = zsum l'.
Proof. induction 1; simpl; lia. Qed.

Lemma filter_perm {A : Type} (p : A -> bool) (l l' : list A) :
  Permutation l l' -> Permutation (filter p l) (filter p l').
Proof.
  induction 1 as [| x l l' _ IH | x y l | l l' l'' _ IH1 _ IH2]; simpl.
  - constructor.
  - destruct (p x); [now constructor | assumption].
  - destruct (p x), (p y); try reflexivity. apply perm_swap.
  - now transitivity (filter p l').
Qed.

(** The order in which the set of question words is visited does not
    change the score. *)
Lemma word_loop_perm (text : str) (ws ws' : list str) (s : Z) :
  Permutation ws ws' -> word_loop text ws s = word_loop text ws' s.
Proof.
  intros H. rewrite !word_loop_sum. f_equal.
  apply zsum_perm, Permutation_map, filter_perm, H.
Qed.

Lemma phrase_step_add (question text : str) (phrase : string) (w score : Z) :
  phrase_step question text phrase w score
  = score + (if py_in (py phrase) (lower question) && py_in (py phrase) text
             then w else 0).
Proof. unfold phrase_step. destruct (_ && _); lia. Qed.

Lemma content_score_eq (question : str) (content : ScrapedContent) :
  content_score question (py_set (split (lower question))) content
  = keyword_score question content.
Proof.
  unfold content_score, keyword_score, word_occurrences, long_words.
  cbv zeta. rewrite word_loop_sum, !phrase_step_add.
  unfold phrase_bonus, phrase_lexicon. cbn [map zsum fold_right fst snd]. lia.
Qed.

Lemma zsum_nonneg (l : list Z) : Forall (fun z => 0 <= z) l -> 0 <= zsum l.
Proof. induction 1; simpl; lia. Qed.

Lemma keyword_score_nonneg (question : str) (content : ScrapedContent) :
  0 <= keyword_score question content.
Proof.
  unfold keyword_score.
  assert (0 <= phrase_bonus question (search_text content)).
  { apply zsum_nonneg. unfold phrase_lexicon. cbn [map fst snd].
    repeat constructor;
      match goal with |- context [if ?b then _ else _] => destruct b end; lia. }
  assert (0 <= word_occurrences question (search_text content)).
  { apply zsum_nonneg. apply Forall_forall. intros z Hz.
    apply in_map_iff in Hz as [w [<- _]]. apply count_nonneg. }
  lia.
Qed.

(** The loop over the rows collects, in table order, the rows that scored. *)
Lemma scoring_loop_eq {A B : Type} (f : A -> B) (p : A -> bool) (l : list A) (acc : list B) :
  fold_left (fun acc a => if p a then acc ++ [f a] else acc) l acc
  = acc ++ map f (filter p l).
Proof.
  revert acc; induction l as [|a l IH]; intros acc; simpl.
  - now rewrite app_nil_r.
  - rewrite IH. destruct (p a); simpl; [now rewrite <- app_assoc | reflexivity].
Qed.

Lemma simple_search_ranked (contents : list ScrapedContent) (question : str) (top_k : Z) :
  simple_search (Ret contents) question top_k
  = slice_to (ranked_hits contents question) top_k.
Proof.
  unfold simple_search, ranked_hits. cbn [bind try_except].
  destruct contents as [|c0 cs];
    [cbn; unfold slice_to; rewrite !firstn_nil; now destruct (0 <=? top_k)|].
  cbn [try_except]. f_equal. f_equal.
  set (l := c0 :: cs).
  rewrite (scoring_loop_eq
             (fun c => mk_hit c (content_score question (py_set (split (lower question))) c))
             (fun c => 0 <? content_score question (py_set (split (lower question))) c)).
  cbn [app]. clear. induction l as [|c l IH]; [reflexivity|].
  cbn [map filter]. rewrite !content_score_eq. cbn [hit_score mk_hit].
  destruct (0 <? keyword_score question c); cbn [map]; rewrite ?content_score_eq, IH; reflexivity.
Qed.

(** ** The vector store *)

Section StoreFacts.
Import VectorStoreM.

Lemma getitem_in_range {A : Type} (l : list A) (i : Z) :
  0 <= i < Z.of_nat (length l) ->
  exists a, getitem l i = Ret a /\ nth_error l (Z.to_nat i) = Some a.
Proof.
  intros H. unfold getitem.
  destruct (Z.ltb_spec i 0); [lia|].
  destruct (Z.leb_spec 0 i); [|lia].
  destruct (Z.ltb_spec i (Z.of_nat (length l))); [|lia]. cbn [andb].
  destruct (nth_error l (Z.to_nat i)) as [a|] eqn:E.
  - now exists a.
  - apply nth_error_None in E. lia.
Qed.

Lemma search_loop_raise (docs : list Document) (l : list (Q * Z)) (msg : str) :
  fold_left (search_step docs) l (Raise msg) = Raise msg.
Proof. induction l as [|si l IH]; [reflexivity | exact IH]. Qed.

Lemma search_loop_in_range (docs : list Document) (l : list (Q * Z))
    (acc : list (Document * Q)) :
  Forall (fun si => index_in_range docs (snd si)) l ->
  exists hits,
    fold_left (search_step docs) l (Ret acc) = Ret (acc ++ hits)
    /\ map (fun h : Document * Q => (Some (fst h), snd h)) hits
       = map (fun si : Q * Z => (nth_error docs (Z.to_nat (snd si)), fst si))
             (filter (fun si : Q * Z => negb (snd si =? -1)) l).
Proof.
  revert acc; induction l as [|[s i] l IH]; intros acc HF.
  - exists []. now rewrite app_nil_r.
  - inversion HF as [|? ? Hi HF']; subst. cbn [snd] in Hi.
    cbn [fold_left search_step bind filter snd].
    destruct (Z.eqb_spec i (-1)) as [->|Hne]; cbn [negb].
    + exact (IH acc HF').
    + destruct Hi as [Hi|Hi]; [contradiction|].
      destruct (getitem_in_range docs i Hi) as [d [Hg Hn]].
      rewrite Hg. cbn [bind].
      destruct (IH (acc ++ [(d, s)]) HF') as [hits [E1 E2]].
      exists ((d, s) :: hits). split.
      * rewrite E1. now rewrite <- app_assoc.
      * cbn [map fst snd]. now rewrite Hn, E2.
Qed.

End StoreFacts.

(* ================================================================== *)
(** * The keyword search engine *)
(* ================================================================== *)

Lemma ranked_hits_In (contents : list ScrapedContent) (question : str) (h : SearchHit) :
  In h (ranked_hits contents question)
  <-> (exists c, In c contents /\ h = mk_hit c (keyword_score question c))
      /\ 0 < hit_score h.
Proof.
  unfold ranked_hits. rewrite sort_desc_In, filter_In, in_map_iff, Z.ltb_lt.
  split; intros [[c Hc] Hpos]; (split; [exists c|assumption]); intuition.
Qed.

(** C3.  The keyword search reads a row as its title, a space and its
    content, in lower case.  The score of a row is the sum of the weights
    (each 15 to 20) of the lexicon phrases that occur in both the lower-case
    question and that text, plus, for every distinct word of the lower-case
    question longer than 2 characters, the number of its occurrences in that
    text, counted from the left without overlap.  The search keeps the rows
    of positive score, sorts them by descending score with ties left in
    table order, and returns the first [top_k]. *)
Theorem simple_search_scores_and_ranks
    (contents : list ScrapedContent) (question : str) (top_k : Z) :
  0 <= top_k ->
  let lexicon : list (str * Z) :=
    [ (py "gpt-3.5-turbo", 20); (py "gpt-4o-mini", 15); (py "ga4", 20);
      (py "dashboard", 15); (py "bonus", 15); (py "docker", 20);
      (py "podman", 20); (py "sep 2025", 20); (py "exam", 15) ] in
  let text := fun c => lower (sc_title c ++ py " " ++ sc_content c) in
  let words :=
    filter (fun w => 2 <? len w)
           (nodup (list_eq_dec ascii_dec) (split (lower question))) in
  let score := fun c =>
    zsum (map (fun pw : str * Z =>
                 if py_in (fst pw) (lower question) && py_in (fst pw) (text c)
                 then snd pw else 0) lexicon)
    + zsum (map (fun w => count (text c) w) words) in
  let hits := map (fun c => mk_hit c (score c)) contents in
  let ranked := sort_desc hit_score (filter (fun h => 0 <? hit_score h) hits) in
  Forall (fun pw : str * Z => 15 <= snd pw <= 20) lexicon
  /\ (forall p s, py_in p s = true <-> exists pre post, s = pre ++ p ++ post)
  /\ (forall w s n, w <> [] -> (count s w = n <-> counted w s n))
  /\ (NoDup words
      /\ forall w, In w words <-> In w (split (lower question)) /\ 2 < len w)
  /\ (forall c, content_score question (py_set (split (lower question))) c
                = score c)
  /\ simple_search (Ret contents) question top_k = firstn (Z.to_nat top_k) ranked
  /\ (forall h, In h ranked <-> In h hits /\ hit_score h <> 0)
  /\ StronglySorted (fun a b => hit_score b <= hit_score a) ranked
  /\ (forall s, s <> 0 ->
        filter (fun h => hit_score h =? s) ranked
        = filter (fun h => hit_score h =? s) hits).
Proof.
  intros Hk lexicon text words score hits ranked.
  assert (Hscore : forall c, score c = keyword_score question c) by reflexivity.
  assert (Hranked : ranked = ranked_hits contents question) by reflexivity.
  assert (Hnn : forall h, In h hits -> 0 <= hit_score h).
  { intros h Hh. apply in_map_iff in Hh as [c [<- _]]. cbn [hit_score mk_hit].
    rewrite Hscore. apply keyword_score_nonneg. }
  split; [|split; [|split; [|split; [|split; [|split; [|split; [|split]]]]]]].
  - unfold lexicon.
    repeat (apply Forall_cons; [cbn [snd]; lia|]). apply Forall_nil.
  - intros p s. apply py_in_spec.
  - intros w s n Hw. now apply count_counted.
  - split.
    + unfold words. apply NoDup_filter, NoDup_nodup.
    + intros w. unfold words. rewrite filter_In, nodup_In, Z.ltb_lt. reflexivity.
  - intros c. rewrite Hscore. apply content_score_eq.
  - rewrite simple_search_ranked, Hranked. now apply slice_to_nonneg.
  - intros h. unfold ranked.
    rewrite sort_desc_In, filter_In, Z.ltb_lt.
    split; [intros [Hin Hpos]; split; [assumption | lia]|].
    intros [Hin Hne]. split; [assumption|]. specialize (Hnn h Hin). lia.
  - apply sort_desc_sorted.
  - intros s Hs. unfold ranked. rewrite sort_desc_stable.
    clear Hranked ranked. induction hits as [|h t IH]; [reflexivity|].
    cbn [filter].
    assert (Hh : 0 <= hit_score h) by (apply Hnn; now left).
    assert (IH' := IH (fun x Hx => Hnn x (or_intror Hx))).
    destruct (Z.ltb_spec 0 (hit_score h)); cbn [filter].
    + now rewrite IH'.
    + rewrite IH'. destruct (Z.eqb_spec (hit_score h) s); [lia | reflexivity].
Qed.

(** The search run for "Docker or Podman?" over four rows, the first two
    hits asked for: "Docker Setup" has the phrases "docker" and "podman"
    (20 + 20) and the word "docker" twice; "Docker Guidelines" has the
    phrase "docker" and the word once; "Podman Notes" has the phrase
    "podman" only (20) and is cut off; "GA4 Dashboard" has nothing and is
    left out.  The word "or" is too short, and "podman?" occurs nowhere. *)
Lemma simple_search_scores_and_ranks_witness :
  0 <= 2
  /\ map (fun h => (hit_title h, hit_score h))
         (simple_search
            (Ret [podman_notes; demo_ga4; docker_guidelines; demo_docker])
            container_question 2)
     = [ (py "Docker Setup", 42); (py "Docker Guidelines", 21) ].
Proof.
  split; [lia|].
  pose proof (simple_search_scores_and_ranks
                [podman_notes; demo_ga4; docker_guidelines; demo_docker]
                container_question 2) as H.
  cbv zeta in H. destruct H as (_ & _ & _ & _ & _ & H & _); [lia|].
  rewrite H. vm_compute. reflexivity.
Defined.

(** The search run on the corpus above: the second row wins with
    20 + 15 + 15 for "ga4", "dashboard", "bonus" and 8 word occurrences
    ("how" and "show" inside "shows", "the" and "dashboard" twice, "ga4",
    "bonus"); the first row has none of the question's words and is left
    out. *)
Example simple_search_demo :
  map (fun h => (hit_id h, hit_score h))
      (simple_search (Ret [demo_docker; demo_ga4]) demo_question 5)
  = [(2, 58)].
Proof. vm_compute. reflexivity. Qed.

(** C9.  The keyword search returns the empty list, and raises nothing,
    when the database cannot be read and when the corpus is empty, for
    every question and every [top_k]. *)
Theorem simple_search_failure_is_empty (question : str) (top_k : Z) :
  (forall e, simple_search (Raise e) question top_k = [])
  /\ simple_search (Ret []) question top_k = [].
Proof. split; reflexivity. Qed.

(** No row scoring is no hit either. *)
Lemma simple_search_no_match (contents : list ScrapedContent) (question : str) (top_k : Z) :
  (forall c, In c contents -> keyword_score question c = 0) ->
  simple_search (Ret contents) question top_k = [].
Proof.
  intros H. rewrite simple_search_ranked.
  assert (E : ranked_hits contents question = []).
  { destruct (ranked_hits contents question) as [|h t] eqn:E; [reflexivity|].
    assert (Hin : In h (ranked_hits contents question)) by (rewrite E; now left).
    apply ranked_hits_In in Hin as [[c [Hc ->]] Hpos].
    cbn in Hpos. rewrite (H c Hc) in Hpos. lia. }
  rewrite E. unfold slice_to. rewrite !firstn_nil. now destruct (0 <=? top_k).
Qed.

(* ================================================================== *)
(** * The loops that collect the context *)
(* ================================================================== *)

Lemma keyword_context_loop (hits : list SearchHit) (parts : list str) (lks : list Link) :
  fold_left Simple.context_step hits (parts, lks)
  = (parts ++ map hit_entry (filter (fun h => 0 <? hit_score h) hits),
     lks ++ map hit_link (filter (fun h => 0 <? hit_score h) hits)).
Proof.
  revert parts lks; induction hits as [|h t IH]; intros parts lks.
  - cbn. now rewrite !app_nil_r.
  - cbn [fold_left Simple.context_step filter].
    destruct (0 <? hit_score h); rewrite IH; [|reflexivity].
    cbn [map]. now rewrite <- !app_assoc.
Qed.

Lemma vector_context_loop (hits : list (VectorStoreM.Document * Q))
    (parts : list str) (lks : list Link) :
  fold_left Vector.context_step hits (parts, lks)
  = (parts ++ map doc_entry (filter (fun h => Vector.above_threshold (snd h)) hits),
     lks ++ map doc_link (filter (fun h => Vector.above_threshold (snd h)) hits)).
Proof.
  revert parts lks; induction hits as [|[d s] t IH]; intros parts lks.
  - cbn. now rewrite !app_nil_r.
  - cbn [fold_left Vector.context_step filter snd].
    destruct (Vector.above_threshold s); rewrite IH; [|reflexivity].
    cbn [map]. now rewrite <- !app_assoc.
Qed.

Lemma above_threshold_iff (s : Q) :
  Vector.above_threshold s = true <-> (Vector.relevance_threshold < s)%Q.
Proof.
  unfold Vector.above_threshold. rewrite negb_true_iff. split.
  - intros H. apply Qnot_le_lt. intros Hle.
    apply Qle_bool_iff in Hle. congruence.
  - intros H. destruct (Qle_bool s Vector.relevance_threshold) eqn:E; [|reflexivity].
    apply Qle_bool_iff in E. exfalso. exact (Qlt_not_le _ _ H E).
Qed.

(* ================================================================== *)
(** * The link ranker *)
(* ================================================================== *)

Lemma count_loop (p : str -> bool) (ws : list str) (s : Z) :
  fold_left (fun score w => if p w then score + 1 else score) ws s
  = s + Z.of_nat (length (filter p ws)).
Proof.
  revert s; induction ws as [|w ws IH]; intros s; cbn [fold_left filter].
  - cbn. lia.
  - rewrite IH. destruct (p w); cbn [length]; lia.
Qed.

Lemma link_score_eq (question answer : str) (link : Link) :
  link_score (lower question) answer (lower answer) link
  = link_relevance question answer link.
Proof.
  unfold link_score, link_relevance, title_word_points, mention_bonus, mentioned.
  cbv zeta.
  rewrite (count_loop (fun w => (3 <? len w) && py_in w (lower (text link)))).
  destruct (_ || _); lia.
Qed.

Lemma link_relevance_bounds (question answer : str) (link : Link) :
  0 <= title_word_points question link
  /\ mention_bonus answer link <= link_relevance question answer link.
Proof.
  unfold link_relevance, title_word_points. split; lia.
Qed.

Lemma append_loop {A B : Type} (f : A -> B) (l : list A) (acc : list B) :
  fold_left (fun acc a => acc ++ [f a]) l acc = acc ++ map f l.
Proof.
  revert acc; induction l as [|a l IH]; intros acc; cbn [fold_left map].
  - now rewrite app_nil_r.
  - rewrite IH. now rewrite <- app_assoc.
Qed.

Lemma rank_and_filter_links_eq (links : list Link) (question answer : str) :
  rank_and_filter_links links question answer
  = map fst (ranked_links links question answer).
Proof.
  unfold rank_and_filter_links, ranked_links.
  destruct links as [|l0 ls]; [reflexivity|].
  rewrite (append_loop
             (fun l => (l, link_score (lower question) answer (lower answer) l))).
  cbn [app]. do 3 f_equal. apply map_ext. intros l. now rewrite link_score_eq.
Qed.

Lemma ranked_links_In (links : list Link) (question answer : str) (l : Link) :
  In l (rank_and_filter_links links question answer)
  <-> In l links /\ 0 < link_relevance question answer l.
Proof.
  rewrite rank_and_filter_links_eq. unfold ranked_links. rewrite in_map_iff. split.
  - intros [[l' s] [E H]]. cbn in E. subst l'.
    apply filter_In in H as [H Hpos]. apply sort_desc_In, in_map_iff in H.
    destruct H as [l' [E Hin]]. injection E as -> <-.
    apply Z.ltb_lt in Hpos. tauto.
  - intros [Hin Hpos]. exists (l, link_relevance question answer l).
    split; [reflexivity|]. apply filter_In. split; [|now apply Z.ltb_lt].
    apply sort_desc_In, in_map_iff. now exists l.
Qed.

Lemma link_a_points : title_word_points demo_question link_a = 1.
Proof. vm_compute. reflexivity. Qed.

Lemma link_b_points : title_word_points demo_question link_b = 0.
Proof. vm_compute. reflexivity. Qed.

(** C6.  The link ranker gives a link one point for every question word
    longer than 3 characters that occurs, letter case aside, in its title,
    and 2 points more when its URL or its title appears in the answer; it
    sorts by descending score with ties left in input order and drops the
    links whose score is not positive.  For the two example links and the
    example question, with an answer that mentions "dashboard" and "bonus",
    link a scores above link b; and whenever link b scores 0 it is
    dropped. *)
Theorem rank_and_filter_links_spec (links : list Link) (question answer : str) :
  let scored := map (fun l => (l, link_relevance question answer l)) links in
  let ranked := ranked_links links question answer in
  (forall l, link_score (lower question) answer (lower answer) l
             = title_word_points question l
               + (if py_in (url l) answer || py_in (lower (text l)) (lower answer)
                  then 2 else 0))
  /\ rank_and_filter_links links question answer = map fst ranked
  /\ (forall ls, In ls ranked <-> In ls scored /\ 0 < snd ls)
  /\ StronglySorted (fun x y : Link * Z => snd y <= snd x) ranked
  /\ (forall s, 0 < s ->
        filter (fun ls : Link * Z => snd ls =? s) ranked
        = filter (fun ls : Link * Z => snd ls =? s) scored)
  /\ (py_in (py "dashboard") answer = true ->
      py_in (py "bonus") answer = true ->
      link_relevance demo_question answer link_b
        < link_relevance demo_question answer link_a
      /\ rank_and_filter_links [link_a; link_b] demo_question answer
         = [link_a; link_b])
  /\ (link_relevance demo_question answer link_b = 0 ->
      rank_and_filter_links [link_a; link_b] demo_question answer = [link_a]).
Proof.
  intros scored ranked. split; [|split; [|split; [|split; [|split; [|split]]]]].
  - intros l. now rewrite link_score_eq.
  - apply rank_and_filter_links_eq.
  - intros ls. unfold ranked, ranked_links.
    rewrite filter_In, sort_desc_In, Z.ltb_lt. reflexivity.
  - apply filter_sorted, (sort_desc_sorted (A := Link * Z) snd).
  - intros s Hs. unfold ranked, ranked_links.
    rewrite filter_comm, sort_desc_stable, filter_comm. fold scored.
    clear ranked. induction scored as [|[l z] t IH]; [reflexivity|].
    cbn [filter snd]. destruct (Z.eqb_spec z s) as [->|Hne].
    + destruct (Z.ltb_spec 0 s); [|lia]. cbn [filter snd].
      rewrite Z.eqb_refl. now rewrite IH.
    + destruct (0 <? z); cbn [filter snd]; [|exact IH].
      destruct (Z.eqb_spec z s); [contradiction | exact IH].
  - intros Hd Hb.
    assert (Ha : mentioned answer link_a = true).
    { unfold mentioned. apply orb_true_iff. left.
      apply (py_in_trans _ (py "dashboard")); [reflexivity | exact Hd]. }
    assert (Hbb : mentioned answer link_b = true).
    { unfold mentioned. apply orb_true_iff. left.
      apply (py_in_trans _ (py "bonus")); [reflexivity | exact Hb]. }
    assert (Ra : link_relevance demo_question answer link_a = 3).
    { unfold link_relevance, mention_bonus. rewrite link_a_points, Ha. reflexivity. }
    assert (Rb : link_relevance demo_question answer link_b = 2).
    { unfold link_relevance, mention_bonus. rewrite link_b_points, Hbb. reflexivity. }
    split; [lia|].
    rewrite rank_and_filter_links_eq. unfold ranked_links. cbn [map].
    rewrite Ra, Rb. reflexivity.
  - intros Rb.
    assert (Ra : link_relevance demo_question answer link_a = 1
                 \/ link_relevance demo_question answer link_a = 3).
    { unfold link_relevance, mention_bonus. rewrite link_a_points.
      destruct (mentioned answer link_a); [right | left]; reflexivity. }
    rewrite rank_and_filter_links_eq. unfold ranked_links. cbn [map].
    rewrite Rb. destruct Ra as [-> | ->]; reflexivity.
Qed.

Lemma rank_and_filter_links_spec_witness :
  (py_in (py "dashboard") demo_answer = true
   /\ py_in (py "bonus") demo_answer = true)
  /\ link_relevance demo_question demo_answer link_b
       < link_relevance demo_question demo_answer link_a
  /\ rank_and_filter_links [link_a; link_b] demo_question demo_answer
     = [link_a; link_b].
Proof.
  split; [split; reflexivity|].
  pose proof (rank_and_filter_links_spec [link_a; link_b] demo_question demo_answer)
    as H.
  cbv zeta in H. destruct H as (_ & _ & _ & _ & _ & H & _).
  apply H; reflexivity.
Defined.

(** An answer in capitals mentions neither URL: link b scores 0 and is
    dropped, link a stays on the strength of its title. *)
Example rank_and_filter_links_drops_b :
  rank_and_filter_links [link_a; link_b] demo_question
    (py "SEE THE GRADER OUTPUT")
  = [link_a].
Proof. vm_compute. reflexivity. Qed.

(** C10.  In the 2-point bonus the URL is looked up in the answer as it is
    written and the title in lower case on both sides: a link whose URL
    occurs in the answer only in another letter case, and whose title does
    not occur, gets no bonus, while a title occurring in any letter case
    gets it. *)
Theorem mention_bonus_letter_case (question answer : str) (link : Link) :
  (py_in (lower (url link)) (lower answer) = true ->
   py_in (url link) answer = false ->
   py_in (lower (text link)) (lower answer) = false ->
   link_score (lower question) answer (lower answer) link
   = title_word_points question link)
  /\ (py_in (lower (text link)) (lower answer) = true ->
      link_score (lower question) answer (lower answer) link
      = title_word_points question link + 2)
  /\ (py_in (url link) answer = true ->
      link_score (lower question) answer (lower answer) link
      = title_word_points question link + 2).
Proof.
  rewrite link_score_eq. unfold link_relevance, mention_bonus, mentioned.
  split; [|split].
  - intros _ -> ->. cbn. lia.
  - intros ->. now rewrite orb_true_r.
  - intros ->. reflexivity.
Qed.

Lemma mention_bonus_letter_case_witness :
  (py_in (lower (url shouting_link)) (lower quiet_answer) = true
   /\ py_in (url shouting_link) quiet_answer = false
   /\ py_in (lower (text shouting_link)) (lower quiet_answer) = false)
  /\ link_score (lower demo_question) quiet_answer (lower quiet_answer) shouting_link
     = title_word_points demo_question shouting_link.
Proof.
  split; [repeat split; reflexivity|].
  apply (mention_bonus_letter_case demo_question quiet_answer shouting_link);
    reflexivity.
Defined.

(* ================================================================== *)
(** * The fallback answer *)
(* ================================================================== *)

Lemma simple_search_sound (db : Db) (question : str) (top_k : Z) (h : SearchHit) :
  In h (simple_search db question top_k) ->
  exists contents c,
    db = Ret contents /\ In c contents
    /\ h = mk_hit c (keyword_score question c) /\ 0 < keyword_score question c.
Proof.
  destruct db as [contents|e]; [|intros []].
  rewrite simple_search_ranked. intros H. apply slice_to_incl in H.
  apply ranked_hits_In in H as [[c [Hc ->]] Hpos].
  exists contents, c. cbn in Hpos. auto.
Qed.

Lemma simple_search_length (db : Db) (question : str) (top_k : Z) :
  0 <= top_k -> (length (simple_search db question top_k) <= Z.to_nat top_k)%nat.
Proof.
  intros Hk. destruct db as [contents|e]; [|cbn; lia].
  rewrite simple_search_ranked. now apply slice_to_length.
Qed.

Lemma fallback_loop (l : list (Z * SearchHit)) (parts : list str) (lks : list Link) :
  fold_left fallback_step l (parts, lks)
  = (parts ++ concat (map excerpt l), lks ++ map (fun ih => hit_link (snd ih)) l).
Proof.
  revert parts lks; induction l as [|[i h] t IH]; intros parts lks.
  - cbn. now rewrite !app_nil_r.
  - cbn [fold_left fallback_step]. rewrite IH. cbn [map concat excerpt fst snd].
    f_equal; rewrite <- !app_assoc; reflexivity.
Qed.

Lemma enumerate_snd {A : Type} (l : list A) (start : Z) :
  map snd (enumerate l start) = l.
Proof.
  revert start; induction l as [|a t IH]; intros start; cbn; [reflexivity|].
  now rewrite IH.
Qed.

Lemma enumerate_In {A : Type} (l : list A) (start : Z) (a : A) :
  In a l -> exists i, In (i, a) (enumerate l start).
Proof.
  intros H. rewrite <- (enumerate_snd l start) in H.
  apply in_map_iff in H as [[i a'] [E H]]. cbn in E. subst a'. now exists i.
Qed.

Lemma generate_fallback_answer_eq (db : Db) (question : str) (image_base64 : option str) :
  generate_fallback_answer db question image_base64
  = match simple_search db question 3 with
    | [] => {| answer := nothing_found; links := [] |}
    | hits => {| answer := join nl (fallback_lines hits image_base64);
                 links := map hit_link hits |}
    end.
Proof.
  unfold generate_fallback_answer.
  pose proof (simple_search_length db question 3 ltac:(lia)) as Hlen.
  destruct (simple_search db question 3) as [|h0 hs] eqn:E; [reflexivity|].
  set (hits := h0 :: hs) in *.
  rewrite slice_to_nonneg by lia.
  rewrite firstn_all2 by exact Hlen.
  rewrite fallback_loop. cbn [try_except]. unfold fallback_lines.
  rewrite <- (map_map snd hit_link), enumerate_snd.
  cbn [app]. destruct (truthy_opt image_base64);
    rewrite ?app_nil_r, <- ?app_assoc; reflexivity.
Qed.

(** C7, as the code has it.  With at least one hit the fallback answer is
    the header followed, in rank order, by the excerpts of the (at most 3)
    hits, each the hit's title and its text cut to 200 characters with an
    ellipsis when it is longer (whole otherwise), followed by the image
    disclaimer when an image was supplied; its links are the hits' links.
    With no hit the answer is the fixed message alone, image or not. *)
Theorem fallback_answer_composition (db : Db) (question : str) (image_base64 : option str) :
  let hits := simple_search db question 3 in
  let r := generate_fallback_answer db question image_base64 in
  (length hits <= 3)%nat
  /\ (hits = [] -> r = {| answer := nothing_found; links := [] |})
  /\ (hits <> [] ->
      answer r
      = join nl ([fallback_header]
                 ++ concat (map (fun ih : Z * SearchHit =>
                                   [ excerpt_heading (fst ih) (hit_title (snd ih));
                                     py "   " ++ content_snippet (hit_text (snd ih));
                                     [] ])
                                (enumerate hits 1))
                 ++ (if truthy_opt image_base64 then [image_disclaimer] else []))
      /\ links r = map hit_link hits)
  /\ (forall t, (200 < len t -> content_snippet t = firstn 200 t ++ py "...")
                /\ (len t <= 200 -> content_snippet t = t)).
Proof.
  intros hits r. split; [|split; [|split]].
  - apply (simple_search_length db question 3). lia.
  - intros E. unfold r. rewrite generate_fallback_answer_eq. fold hits. now rewrite E.
  - intros Hne. unfold r. rewrite generate_fallback_answer_eq. fold hits.
    destruct hits as [|h0 hs]; [contradiction|]. split; reflexivity.
  - intros t. unfold content_snippet. split; intros H.
    + destruct (Z.ltb_spec 200 (len t)); [|lia]. reflexivity.
    + destruct (Z.ltb_spec 200 (len t)); [lia|]. reflexivity.
Qed.

Lemma fallback_answer_composition_witness :
  simple_search (Ret [docker_guidelines; podman_notes]) container_question 3 <> []
  /\ answer (generate_fallback_answer (Ret [docker_guidelines; podman_notes])
               container_question None)
     = py "Based on the course materials I found:" ++ nl ++ nl
       ++ py "1. From 'Docker Guidelines':" ++ nl
       ++ py "   " ++ repeat "d"%char 200 ++ py "..." ++ nl
       ++ nl
       ++ py "2. From 'Podman Notes':" ++ nl
       ++ py "   " ++ repeat "p"%char 50 ++ nl.
Proof.
  split; [vm_compute; discriminate|].
  pose proof (fallback_answer_composition (Ret [docker_guidelines; podman_notes])
                container_question None) as H.
  cbv zeta in H. destruct H as (_ & _ & H & _).
  destruct H as [H _]; [vm_compute; discriminate|].
  rewrite H. vm_compute. reflexivity.
Defined.

(** Not every fallback answer to a request with an image carries the
    disclaimer: with no hit the answer is the fixed message, and the
    disclaimer is not in it. *)
Lemma fallback_disclaimer_needs_a_hit :
  ~ (forall (db : Db) (question : str) (image_base64 : option str),
       truthy_opt image_base64 = true ->
       py_in image_disclaimer
             (answer (generate_fallback_answer db question image_base64)) = true).
Proof.
  intros H.
  specialize (H (Ret [docker_guidelines; podman_notes]) (py "What is GA4?")
                (Some (py "aGVsbG8=")) eq_refl).
  vm_compute in H. discriminate H.
Qed.

(* ================================================================== *)
(** * The answering pipeline *)
(* ================================================================== *)

Lemma hit_link_backed (db : Db) (question : str) (top_k : Z) (h : SearchHit) :
  In h (simple_search db question top_k) -> keyword_backed db question (hit_link h).
Proof.
  intros H. apply simple_search_sound in H as (contents & c & -> & Hc & -> & Hpos).
  now exists contents, c.
Qed.

(** Every link of the fallback answer is named in the answer. *)
Lemma fallback_links_mentioned (db : Db) (question : str) (image_base64 : option str)
    (l : Link) :
  let r := generate_fallback_answer db question image_base64 in
  In l (links r) -> mentioned (answer r) l = true.
Proof.
  cbv zeta. rewrite generate_fallback_answer_eq.
  destruct (simple_search db question 3) as [|h0 hs]; [intros []|].
  set (hits := h0 :: hs). cbn [links answer]. intros Hl.
  apply in_map_iff in Hl as [h [<- Hh]].
  destruct (enumerate_In hits 1 h Hh) as [i Hi].
  assert (Hline : In (excerpt_heading i (hit_title h)) (fallback_lines hits image_base64)).
  { unfold fallback_lines. apply in_or_app. right. apply in_or_app. left.
    apply in_concat. exists (excerpt (i, h)). split.
    - apply in_map_iff. now exists (i, h).
    - now left. }
  destruct (join_contains nl _ _ Hline) as [pre [post E]].
  unfold mentioned. apply orb_true_iff. right. apply py_in_lower.
  apply py_in_spec. rewrite E. unfold excerpt_heading. cbn [hit_link text].
  exists (pre ++ str_of_int i ++ py ". From '"), (py "':" ++ post).
  now rewrite <- !app_assoc.
Qed.

Lemma fallback_links_sound (db : Db) (question : str) (image_base64 : option str) :
  let r := generate_fallback_answer db question image_base64 in
  (length (links r) <= 3)%nat
  /\ forall l, In l (links r) ->
       0 < link_relevance question (answer r) l /\ keyword_backed db question l.
Proof.
  cbv zeta. split.
  - rewrite generate_fallback_answer_eq.
    pose proof (simple_search_length db question 3 ltac:(lia)) as Hlen.
    destruct (simple_search db question 3) as [|h0 hs]; [cbn; lia|].
    cbn [links]. now rewrite length_map.
  - intros l Hl. split.
    + pose proof (fallback_links_mentioned db question image_base64 l Hl) as Hm.
      cbv zeta in Hm.
      pose proof (link_relevance_bounds question
                    (answer (generate_fallback_answer db question image_base64)) l)
        as [_ Hb].
      unfold mention_bonus in Hb. rewrite Hm in Hb. lia.
    + rewrite generate_fallback_answer_eq in Hl.
      destruct (simple_search db question 3) as [|h0 hs] eqn:E; [destruct Hl|].
      cbn [links] in Hl. apply in_map_iff in Hl as [h [<- Hh]].
      apply (hit_link_backed db question 3). now rewrite E.
Qed.

Lemma getitem_head {A : Type} (a : A) (l : list A) : getitem (a :: l) 0 = Ret a.
Proof.
  unfold getitem. cbn [length]. cbn [Z.ltb Z.compare Z.leb].
  destruct (Z.ltb_spec 0 (Z.of_nat (S (length l)))); [reflexivity | lia].
Qed.

Lemma answer_question_eq (openai_client : option OpenAI) (db : Db)
    (question : str) (image_base64 : option str) :
  Simple.answer_question openai_client db question image_base64
  = match generation_outcome openai_client db question image_base64 with
    | NotConfigured => generate_fallback_answer db question image_base64
    | Generated content => generated_answer db question content
    | GenerationFailed e =>
        if is_quota_error e
        then generate_fallback_answer db question image_base64
        else error_answer e
    end.
Proof.
  unfold Simple.answer_question, generation_outcome.
  destruct openai_client as [client|]; [|reflexivity].
  rewrite (keyword_context_loop (simple_search db question 5) [] []). cbn [app].
  unfold generation_request, generation_context. cbv beta iota zeta.
  match goal with |- context [client ?req] => destruct (client req) as [response|e] end;
    [|reflexivity].
  destruct response as [|content rest]; [reflexivity|].
  cbn [bind]. rewrite getitem_head. cbn [bind try_except].
  unfold generated_answer, candidate_links. now rewrite slice_to_nonneg by lia.
Qed.

Lemma vector_answer_question_eq
    (Vec : Type) (normalize_L2 : Vec -> Vec) (client : OpenAI)
    (vector_store : VectorStoreM.VectorStore Vec) (question : str)
    (image_base64 : option str) (hits : list (VectorStoreM.Document * Q)) :
  VectorStoreM.search Vec normalize_L2 vector_store question 5 = Ret hits ->
  let kept := filter (fun h => Vector.above_threshold (snd h)) hits in
  let request :=
    {| model := py "gpt-4o";
       messages := Vector.build_messages
                     (user_prompt question (join context_separator (map doc_entry kept)))
                     image_base64;
       max_tokens := 1000;
       temperature := 3602879701896397 # 36028797018963968 |} in
  Vector.answer_question Vec normalize_L2 (Some client) vector_store question image_base64
  = match client request with
    | Raise e => Vector.vector_error_answer e
    | Ret [] => Vector.vector_error_answer index_error
    | Ret (content :: _) =>
        match map doc_link kept, content with
        | [], _ => {| Vector.v_answer := content; Vector.v_links := [] |}
        | _ :: _, None => Vector.vector_error_answer none_has_no_lower
        | _ :: _, Some a =>
            {| Vector.v_answer := Some a;
               Vector.v_links :=
                 firstn 3 (rank_and_filter_links (map doc_link kept) question a) |}
        end
    end.
Proof.
  intros Hs. cbv zeta. unfold Vector.answer_question. rewrite Hs. cbn [bind].
  rewrite (vector_context_loop hits [] []). cbn [app]. cbv beta iota zeta.
  match goal with |- context [client ?req] => destruct (client req) as [response|e] end;
    [|reflexivity].
  destruct response as [|content rest]; [reflexivity|].
  cbn [bind]. rewrite getitem_head. cbn [bind].
  destruct (map doc_link (filter (fun h => Vector.above_threshold (snd h)) hits))
    as [|l0 ls]; [reflexivity|].
  destruct content as [a|]; [|reflexivity].
  cbn [Vector.rank_links_opt bind try_except]. now rewrite slice_to_nonneg by lia.
Qed.

(** Whatever path produced the answer: at most 3 links, each of positive
    relevance for the answer returned and each the link of a row the
    keyword search scored. *)
Lemma answer_links_sound (openai_client : option OpenAI) (db : Db)
    (question : str) (image_base64 : option str) :
  let r := Simple.answer_question openai_client db question image_base64 in
  (length (links r) <= 3)%nat
  /\ forall l, In l (links r) ->
       0 < link_relevance question (answer r) l /\ keyword_backed db question l.
Proof.
  cbv zeta. rewrite answer_question_eq.
  destruct (generation_outcome openai_client db question image_base64)
    as [|content|e].
  - apply fallback_links_sound.
  - unfold generated_answer. cbn [links answer]. split.
    + apply firstn_le_length.
    + intros l Hl. apply firstn_In, ranked_links_In in Hl as [Hin Hpos].
      split; [exact Hpos|].
      unfold candidate_links in Hin. apply in_map_iff in Hin as [h [<- Hh]].
      apply filter_In in Hh as [Hh _].
      now apply (hit_link_backed db question 5).
  - destruct (is_quota_error e).
    + apply fallback_links_sound.
    + cbn. split; [lia | intros l []].
Qed.

(** C1.  On every path (generative, fallback, error) the answer carries at
    most 3 links, and every link it carries has a positive score under the
    link ranker for the question and the answer returned; each is moreover
    the link of a corpus row with a positive keyword score. *)
Theorem answer_links_at_most_three_and_relevant
    (openai_client : option OpenAI) (db : Db) (question : str)
    (image_base64 : option str) :
  let r := Simple.answer_question openai_client db question image_base64 in
  (length (links r) <= 3)%nat
  /\ forall l, In l (links r) ->
       0 < link_score (lower question) (answer r) (lower (answer r)) l
       /\ exists contents c,
            db = Ret contents /\ In c contents
            /\ l = {| url := sc_url c; text := sc_title c |}
            /\ 0 < keyword_score question c.
Proof.
  cbv zeta.
  destruct (answer_links_sound openai_client db question image_base64) as [Hlen Hl].
  split; [exact Hlen|].
  intros l Hin. destruct (Hl l Hin) as [Hpos Hb]. rewrite link_score_eq. now split.
Qed.

Lemma answer_links_at_most_three_and_relevant_witness :
  In (content_link demo_ga4)
     (links (Simple.answer_question (Some ga4_client) (Ret [demo_docker; demo_ga4])
               demo_question None))
  /\ 0 < link_score (lower demo_question)
           (py "The GA4 dashboard adds the bonus.")
           (lower (py "The GA4 dashboard adds the bonus."))
           (content_link demo_ga4).
Proof.
  assert (Hin : In (content_link demo_ga4)
                   (links (Simple.answer_question (Some ga4_client)
                             (Ret [demo_docker; demo_ga4]) demo_question None))).
  { vm_compute. now left. }
  split; [exact Hin|].
  pose proof (answer_links_at_most_three_and_relevant (Some ga4_client)
                (Ret [demo_docker; demo_ga4]) demo_question None) as H.
  cbv zeta in H. destruct H as [_ H]. destruct (H _ Hin) as [Hpos _].
  exact Hpos.
Defined.

(** C2.  The answer is the fallback answer when no client is configured and
    when the generative call fails with a message that names a quota or an
    insufficiency; any other failure of the call gives the error answer,
    which carries the message and no links; a successful call gives the
    generated answer.  In each case the result is an answer with links. *)
Theorem fallback_on_absence_or_quota
    (openai_client : option OpenAI) (db : Db) (question : str)
    (image_base64 : option str) :
  let outcome := generation_outcome openai_client db question image_base64 in
  let r := Simple.answer_question openai_client db question image_base64 in
  (openai_client = None -> r = generate_fallback_answer db question image_base64)
  /\ (forall e, outcome = GenerationFailed e ->
        py_in (py "quota") (lower e) || py_in (py "insufficient") (lower e) = true ->
        r = generate_fallback_answer db question image_base64)
  /\ (forall e, outcome = GenerationFailed e ->
        py_in (py "quota") (lower e) || py_in (py "insufficient") (lower e) = false ->
        r = {| answer := error_prefix ++ e; links := [] |})
  /\ (forall content, outcome = Generated content ->
        r = {| answer := or_else content no_response;
               links := firstn 3 (rank_and_filter_links
                                    (candidate_links db question) question
                                    (or_else content no_response)) |}).
Proof.
  cbv zeta. rewrite answer_question_eq. split; [|split; [|split]].
  - intros ->. reflexivity.
  - intros e -> H. unfold is_quota_error. now rewrite H.
  - intros e -> H. unfold is_quota_error. now rewrite H.
  - intros content ->. reflexivity.
Qed.

Lemma fallback_on_absence_or_quota_witness :
  (generation_outcome (Some quota_client) (Ret [demo_docker; demo_ga4])
     demo_question None
   = GenerationFailed (py "Error code: 429 - You exceeded your current quota")
   /\ py_in (py "quota") (lower (py "Error code: 429 - You exceeded your current quota"))
      || py_in (py "insufficient")
               (lower (py "Error code: 429 - You exceeded your current quota")) = true)
  /\ Simple.answer_question (Some quota_client) (Ret [demo_docker; demo_ga4])
       demo_question None
     = generate_fallback_answer (Ret [demo_docker; demo_ga4]) demo_question None.
Proof.
  split; [split; reflexivity|].
  pose proof (fallback_on_absence_or_quota (Some quota_client)
                (Ret [demo_docker; demo_ga4]) demo_question None) as H.
  cbv zeta in H. destruct H as (_ & H & _).
  apply (H (py "Error code: 429 - You exceeded your current quota")); reflexivity.
Defined.

(** The other failure: the message reaches the user, no link does. *)
Example offline_client_error_answer :
  Simple.answer_question (Some offline_client) (Ret [demo_docker; demo_ga4])
    demo_question None
  = {| answer := py "Sorry, I encountered an error while processing your question: Connection error.";
       links := [] |}.
Proof. vm_compute. reflexivity. Qed.

(** A full run of the generative path. *)
Example generative_path_demo :
  Simple.answer_question
    (Some ga4_client) (Ret [demo_docker; demo_ga4]) demo_question None
  = {| answer := py "The GA4 dashboard adds the bonus.";
       links := [content_link demo_ga4] |}.
Proof. vm_compute. reflexivity. Qed.

(* ================================================================== *)
(** * The relevance threshold *)
(* ================================================================== *)




(* ================================================================== *)
(** * The vector search *)
(* ================================================================== *)

(** C8.  With no index loaded or an empty list of documents the search
    returns the empty list and raises nothing.  Otherwise it asks the
    index for [min(top_k, len(documents))] neighbours of the normalized
    query embedding and returns, in the order of the index's answer, the
    document at each returned position paired with the score returned
    beside it, the positions equal to -1 left out.  (That the neighbours
    are the nearest by inner product is the contract of the index, which
    lies outside the repository.) *)
Theorem vector_search_pairs_and_filters
    (Vec : Type) (normalize_L2 : Vec -> Vec)
    (self : VectorStoreM.VectorStore Vec) (query : str) (top_k : Z) :
  let docs := VectorStoreM.documents self in
  (VectorStoreM.index self = None \/ docs = [] ->
   VectorStoreM.search Vec normalize_L2 self query top_k = Ret [])
  /\ (forall idx v scores indices,
        VectorStoreM.index self = Some idx ->
        docs <> [] ->
        VectorStoreM.model_encode self query = Ret v ->
        VectorStoreM.index_search idx (normalize_L2 v)
          (Z.min top_k (Z.of_nat (length docs))) = Ret (scores, indices) ->
        Forall (fun i => i = -1 \/ 0 <= i < Z.of_nat (length docs)) indices ->
        exists hits,
          VectorStoreM.search Vec normalize_L2 self query top_k = Ret hits
          /\ map (fun h : VectorStoreM.Document * Q => (Some (fst h), snd h)) hits
             = map (fun si : Q * Z => (nth_error docs (Z.to_nat (snd si)), fst si))
                   (filter (fun si : Q * Z => negb (snd si =? -1))
                           (combine scores indices))).
Proof.
  cbv zeta. unfold VectorStoreM.search. split.
  - intros [-> | ->]; [reflexivity|].
    now destruct (VectorStoreM.index self).
  - intros idx v scores indices -> Hne -> Hs HF.
    destruct (VectorStoreM.documents self) as [|d0 ds] eqn:Ed; [contradiction|].
    cbn [bind]. rewrite Hs. cbn [bind].
    assert (HF' : Forall (fun si : Q * Z =>
                            VectorStoreM.index_in_range (d0 :: ds) (snd si))
                         (combine scores indices)).
    { apply Forall_forall. intros [s i] Hin. apply in_combine_r in Hin.
      rewrite Forall_forall in HF. exact (HF i Hin). }
    destruct (search_loop_in_range (d0 :: ds) (combine scores indices) [] HF')
      as [hits [E1 E2]].
    exists hits. split; [exact E1 | exact E2].
Qed.

Lemma vector_search_pairs_and_filters_witness :
  (VectorStoreM.index demo_store = Some demo_index
   /\ VectorStoreM.documents demo_store <> []
   /\ VectorStoreM.model_encode demo_store demo_question = Ret [1 # 1; 0 # 1]
   /\ VectorStoreM.index_search demo_index (unit_normalize [1 # 1; 0 # 1])
        (Z.min 5 (Z.of_nat (length (VectorStoreM.documents demo_store))))
      = Ret ([9 # 10; 1 # 5], [0; 1])
   /\ Forall (fun i => i = -1
                       \/ 0 <= i < Z.of_nat (length (VectorStoreM.documents demo_store)))
             [0; 1])
  /\ exists hits,
       VectorStoreM.search (list Q) unit_normalize demo_store demo_question 5 = Ret hits
       /\ map (fun h : VectorStoreM.Document * Q => (Some (fst h), snd h)) hits
          = [(Some (demo_doc demo_docker), 9 # 10); (Some (demo_doc demo_ga4), 1 # 5)].
Proof.
  assert (Hr : Forall (fun i => i = -1
                       \/ 0 <= i < Z.of_nat (length (VectorStoreM.documents demo_store)))
                      [0; 1]).
  { repeat (apply Forall_cons; [right; cbn; lia|]). apply Forall_nil. }
  split.
  - repeat split; try reflexivity; [discriminate | exact Hr].
  - pose proof (vector_search_pairs_and_filters (list Q) unit_normalize demo_store
                  demo_question 5) as H.
    cbv zeta in H. destruct H as [_ H].
    apply (H demo_index [1 # 1; 0 # 1] [9 # 10; 1 # 5] [0; 1]);
      try reflexivity; [discriminate | exact Hr].
Defined.

(** The search run on a store whose index is behind its documents: the
    position -1 is dropped. *)
Example vector_search_drops_no_match :
  VectorStoreM.search (list Q) unit_normalize
    {| VectorStoreM.model_encode := fun _ => Ret [1 # 1; 0 # 1];
       VectorStoreM.index :=
         Some {| VectorStoreM.index_search := fun _ _ => Ret ([9 # 10; 0 # 1], [1; -1]) |};
       VectorStoreM.documents := [demo_doc demo_docker; demo_doc demo_ga4] |}
    demo_question 5
  = Ret [(demo_doc demo_ga4, 9 # 10)].
Proof. vm_compute. reflexivity. Qed.

(* ================================================================== *)
(** * Which engine the endpoint uses *)
(* ================================================================== *)

(** The handler on a body that is an object. *)
Lemma handle_question_object {Vec : Type} (b64decode : str -> exc unit)
    (w : Api.World Vec) (request : Api.QuestionRequest) :
  Api.handle_question b64decode w (Some request)
  = if Api.no_data (Some request) then Api.Http400 (py "No JSON data provided")
    else
      let question := Api.strip (question_of request) in
      if negb (truthy question) then Api.Http400 (py "Question is required")
      else
        if (if truthy_opt (Api.req_image request)
            then match b64decode (match Api.req_image request with
                                  | Some b => b
                                  | None => []
                                  end) with
                 | Ret _ => true
                 | Raise _ => false
                 end
            else true)
        then Api.Http200 (Simple.answer_question (Api.openai_client w) (Api.db w)
                            question (Api.req_image request))
        else Api.Http400 (py "Invalid base64 image data").
Proof. destruct request as [[q|] img]; reflexivity. Qed.

(** C4, as the code has it.  The endpoint answers through the keyword
    assistant: its response does not depend on the vector store, available
    or not, and every link of a response is the link of a corpus row that
    the keyword search scored for the stripped question. *)
Theorem endpoint_retrieves_by_keywords
    (Vec : Type) (b64decode : str -> exc unit) (w : Api.World Vec)
    (data : option Api.QuestionRequest) :
  (forall vs, Api.handle_question b64decode (with_vector_store w vs) data
              = Api.handle_question b64decode w data)
  /\ (forall r, Api.handle_question b64decode w data = Api.Http200 r ->
        exists request question,
          data = Some request
          /\ question = Api.strip (match Api.req_question request with
                                   | Some q => q
                                   | None => []
                                   end)
          /\ r = Simple.answer_question (Api.openai_client w) (Api.db w) question
                   (Api.req_image request)
          /\ forall l, In l (links r) ->
               exists contents c,
                 Api.db w = Ret contents /\ In c contents
                 /\ l = {| url := sc_url c; text := sc_title c |}
                 /\ 0 < keyword_score question c).
Proof.
  split; [reflexivity|].
  intros r H. destruct data as [request|]; [|discriminate H].
  rewrite handle_question_object in H. cbv zeta in H. unfold question_of in H.
  exists request. eexists. split; [reflexivity|]. split; [reflexivity|].
  destruct (Api.no_data (Some request)); [discriminate H|].
  destruct (negb (truthy _)); [discriminate H|].
  match type of H with (if ?b then _ else _) = _ => destruct b end;
    [|discriminate H].
  injection H as <-. split; [reflexivity|].
  intros l Hl.
  now apply (answer_links_sound (Api.openai_client w) (Api.db w)) in Hl as [_ Hb].
Qed.

Lemma endpoint_retrieves_by_keywords_witness :
  exists r,
    Api.handle_question accept_base64 demo_world (Some demo_request) = Api.Http200 r
    /\ r = Simple.answer_question None (Ret [demo_docker; demo_ga4]) demo_question None
    /\ links r = [content_link demo_ga4].
Proof.
  pose proof (endpoint_retrieves_by_keywords (list Q) accept_base64 demo_world
                (Some demo_request)) as [_ H].
  eexists. split; [reflexivity|].
  destruct (H _ eq_refl) as (request & question & Hd & Hq & Hr & _).
  split; [|vm_compute; reflexivity].
  injection Hd as <-. rewrite Hr, Hq. vm_compute. reflexivity.
Defined.

(** The endpoint does not take its links from the vector search: here the
    vector store is loaded, its search answers with the Docker row above
    the threshold, and the endpoint returns the link of the GA4 row, which
    the keyword search found. *)
Lemma endpoint_ignores_vector_hits :
  ~ (forall (w : Api.World (list Q)) (question : str)
            (hits : list (VectorStoreM.Document * Q)) (r : AnswerResult),
       VectorStoreM.search (list Q) unit_normalize (Api.vector_store w) question 5
         = Ret hits ->
       Api.handle_question accept_base64 w
         (Some {| Api.req_question := Some question; Api.req_image := None |})
         = Api.Http200 r ->
       forall l, In l (links r) ->
         In l (map doc_link
                   (filter (fun h => Vector.above_threshold (snd h)) hits))).
Proof.
  intros H.
  specialize (H demo_world demo_question _ _ eq_refl eq_refl
                (content_link demo_ga4)).
  assert (Hin : In (content_link demo_ga4)
                   (links (Simple.answer_question None (Ret [demo_docker; demo_ga4])
                             (Api.strip demo_question) None))).
  { vm_compute. now left. }
  specialize (H Hin). vm_compute in H.
  destruct H as [H | []]. discriminate H.
Qed.

(* ================================================================== *)
(** * More on strings *)
(* ================================================================== *)

Lemma lower_char_idem (c : ascii) : lower_char (lower_char c) = lower_char c.
Proof.
  destruct c as [b0 b1 b2 b3 b4 b5 b6 b7].
  destruct b0, b1, b2, b3, b4, b5, b6, b7; reflexivity.
Qed.

Lemma lower_idem (s : str) : lower (lower s) = lower s.
Proof.
  unfold lower. rewrite map_map. apply map_ext. intros c. apply lower_char_idem.
Qed.

Lemma lstrip_blank (s : str) : Forall (fun c => isspace c = true) s -> Api.lstrip s = [].
Proof.
  induction 1 as [|c s Hc _ IH]; [reflexivity|]. cbn [Api.lstrip]. now rewrite Hc.
Qed.

Lemma lstrip_app_blank (ws r : str) :
  Forall (fun c => isspace c = true) ws -> Api.lstrip (ws ++ r) = Api.lstrip r.
Proof.
  induction 1 as [|c ws Hc _ IH]; [reflexivity|].
  cbn [app Api.lstrip]. now rewrite Hc.
Qed.

Lemma lstrip_app (q r : str) :
  Api.lstrip (q ++ r)
  = match Api.lstrip q with [] => Api.lstrip r | _ => Api.lstrip q ++ r end.
Proof.
  induction q as [|c q IH]; [cbn; now destruct (Api.lstrip r)|].
  cbn [app Api.lstrip]. destruct (isspace c); [exact IH | reflexivity].
Qed.

(** What [lstrip] removes is white space, and what it leaves does not
    start with white space. *)
Lemma lstrip_spec (s : str) :
  exists ws, s = ws ++ Api.lstrip s
             /\ Forall (fun c => isspace c = true) ws
             /\ match Api.lstrip s with
                | [] => True
                | c :: _ => isspace c = false
                end.
Proof.
  induction s as [|c s (ws & E & Hws & Hhd)].
  - exists []. repeat split. constructor.
  - cbn [Api.lstrip]. destruct (isspace c) eqn:Hc.
    + exists (c :: ws). split; [cbn; now rewrite <- E|]. split; [now constructor | exact Hhd].
    + exists []. repeat split; [constructor | exact Hc].
Qed.

Lemma Forall_rev_iff {A : Type} (P : A -> Prop) (l : list A) :
  Forall P l -> Forall P (rev l).
Proof.
  intros H. apply Forall_forall. intros x Hx. apply in_rev in Hx.
  rewrite Forall_forall in H. now apply H.
Qed.


Lemma strip_app_blank_l (ws q : str) :
  Forall (fun c => isspace c = true) ws -> Api.strip (ws ++ q) = Api.strip q.
Proof.
  intros H. unfold Api.strip. now rewrite lstrip_app_blank.
Qed.

Lemma strip_app_blank_r (q ws : str) :
  Forall (fun c => isspace c = true) ws -> Api.strip (q ++ ws) = Api.strip q.
Proof.
  intros H. unfold Api.strip. rewrite lstrip_app.
  destruct (Api.lstrip q) as [|c r] eqn:E.
  - now rewrite (lstrip_blank ws H).
  - rewrite rev_app_distr. rewrite lstrip_app_blank by now apply Forall_rev_iff.
    reflexivity.
Qed.

(** [strip] keeps a piece of its argument with white space on both sides
    of it, and the piece neither starts nor ends with white space. *)
Lemma strip_spec (s : str) :
  exists ws1 ws2,
    s = ws1 ++ Api.strip s ++ ws2
    /\ Forall (fun c => isspace c = true) ws1
    /\ Forall (fun c => isspace c = true) ws2
    /\ match Api.strip s with
       | [] => True
       | c :: _ => isspace c = false
       end
    /\ match rev (Api.strip s) with
       | [] => True
       | c :: _ => isspace c = false
       end.
Proof.
  unfold Api.strip.
  destruct (lstrip_spec s) as (ws1 & E1 & H1 & Hhd1).
  destruct (lstrip_spec (rev (Api.lstrip s))) as (ws2 & E2 & H2 & Hhd2).
  exists ws1, (rev ws2). rewrite rev_involutive.
  assert (E : Api.lstrip s = rev (Api.lstrip (rev (Api.lstrip s))) ++ rev ws2).
  { rewrite <- rev_app_distr, <- E2. now rewrite rev_involutive. }
  split; [now rewrite <- E|]. split; [exact H1|].
  split; [now apply Forall_rev_iff|]. split; [|exact Hhd2].
  destruct (rev (Api.lstrip (rev (Api.lstrip s)))) as [|c r] eqn:Er; [exact I|].
  rewrite E in Hhd1. exact Hhd1.
Qed.

Lemma strip_idem (s : str) : Api.strip (Api.strip s) = Api.strip s.
Proof.
  destruct (strip_spec s) as (_ & _ & _ & _ & _ & Hhd & Htl).
  unfold Api.strip at 1.
  assert (L : forall t, match t with [] => True | c :: _ => isspace c = false end ->
                        Api.lstrip t = t).
  { intros [|c t] H; [reflexivity|]. cbn. now rewrite H. }
  rewrite (L _ Hhd), (L _ Htl). apply rev_involutive.
Qed.

Lemma strip_incl (s : str) (c : ascii) : In c (Api.strip s) -> In c s.
Proof.
  destruct (strip_spec s) as (ws1 & ws2 & E & _). intros H. rewrite E.
  apply in_or_app. right. apply in_or_app. now left.
Qed.

Lemma strip_length (s : str) : (length (Api.strip s) <= length s)%nat.
Proof.
  destruct (strip_spec s) as (ws1 & ws2 & E & _).
  rewrite E at 2. rewrite !length_app. lia.
Qed.

(* ================================================================== *)
(** * The endpoint: which requests are answered *)
(* ================================================================== *)



(** X2.  A request is answered (status 200) exactly when its stripped
    question is not empty and its image, if it has a non-empty one,
    decodes; the body is then the assistant's answer to the stripped
    question. *)
Theorem answered_iff_question_and_image_ok
    (Vec : Type) (b64decode : str -> exc unit) (w : Api.World Vec)
    (request : Api.QuestionRequest) :
  let question := Api.strip (question_of request) in
  let image := Api.req_image request in
  ((exists r, Api.handle_question b64decode w (Some request) = Api.Http200 r)
   <-> question <> []
       /\ (forall b, image = Some b -> b <> [] -> exists u, b64decode b = Ret u))
  /\ (forall r, Api.handle_question b64decode w (Some request) = Api.Http200 r ->
        r = Simple.answer_question (Api.openai_client w) (Api.db w) question image).
Proof.
  cbv zeta. rewrite handle_question_object. cbv zeta.
  destruct (Api.strip (question_of request)) as [|c q] eqn:Eq; cbn [truthy negb].
  - assert (Hno : forall r, (if Api.no_data (Some request)
                             then Api.Http400 (py "No JSON data provided")
                             else Api.Http400 (py "Question is required"))
                            <> Api.Http200 r)
      by (intros r; destruct (Api.no_data (Some request)); discriminate).
    split; [|intros r H; now apply Hno in H]. split.
    + intros [r H]. now apply Hno in H.
    + intros [H _]. now contradiction H.
  - assert (Hn : Api.no_data (Some request) = false).
    { destruct request as [[q0|] img]; [reflexivity|]. discriminate Eq. }
    rewrite Hn.
    destruct (Api.req_image request) as [[|b0 b]|] eqn:Ei; cbn [truthy_opt].
    + split; [|intros r H; now injection H as <-]. split; [|intros _; eexists; reflexivity].
      intros _. split; [discriminate|]. intros b Hb Hne. injection Hb as <-.
      now contradiction Hne.
    + destruct (b64decode (b0 :: b)) as [u|e] eqn:Ed.
      * split; [|intros r H; now injection H as <-].
        split; [|intros _; eexists; reflexivity].
        intros _. split; [discriminate|]. intros b' Hb _. injection Hb as <-.
        now exists u.
      * split; [|intros r H; discriminate H]. split.
        -- intros [r H]. discriminate H.
        -- intros [_ H]. destruct (H (b0 :: b) eq_refl ltac:(discriminate)) as [u Hu].
           congruence.
    + split; [|intros r H; now injection H as <-]. split; [|intros _; eexists; reflexivity].
      intros _. split; [discriminate|]. intros b Hb. discriminate Hb.
Qed.

(** X3.  For a request that has a question, white space before and
    after the question does not change the response. *)
Theorem surrounding_space_is_immaterial
    (Vec : Type) (b64decode : str -> exc unit) (w : Api.World Vec)
    (q : str) (image : option str) (ws1 ws2 : str) :
  Forall (fun c => isspace c = true) ws1 ->
  Forall (fun c => isspace c = true) ws2 ->
  Api.handle_question b64decode w
    (Some {| Api.req_question := Some (ws1 ++ q ++ ws2); Api.req_image := image |})
  = Api.handle_question b64decode w
      (Some {| Api.req_question := Some q; Api.req_image := image |}).
Proof.
  intros H1 H2. rewrite !handle_question_object.
  cbn [Api.no_data Api.req_question Api.req_image]. cbv zeta.
  unfold question_of. cbn [Api.req_question].
  now rewrite strip_app_blank_l, strip_app_blank_r.
Qed.

Lemma surrounding_space_is_immaterial_witness :
  (Forall (fun c => isspace c = true) (py "  ")
   /\ Forall (fun c => isspace c = true) (py " "))
  /\ Api.handle_question accept_base64 demo_world
       (Some {| Api.req_question := Some (py "  " ++ demo_question ++ py " ");
                Api.req_image := None |})
     = Api.handle_question accept_base64 demo_world
         (Some {| Api.req_question := Some demo_question; Api.req_image := None |}).
Proof.
  assert (H1 : Forall (fun c => isspace c = true) (py "  ")).
  { repeat (apply Forall_cons; [reflexivity|]). apply Forall_nil. }
  assert (H2 : Forall (fun c => isspace c = true) (py " ")).
  { repeat (apply Forall_cons; [reflexivity|]). apply Forall_nil. }
  split; [split; assumption|].
  exact (surrounding_space_is_immaterial (list Q) accept_base64 demo_world
           demo_question None _ _ H1 H2).
Defined.

(** X4.  An image given as the empty string is no image: it is not
    decoded, and the assistant answers as it does without an image. *)
Theorem empty_image_is_no_image
    (Vec : Type) (b64decode b64decode' : str -> exc unit) (w : Api.World Vec)
    (question : str) :
  Api.handle_question b64decode w
    (Some {| Api.req_question := Some question; Api.req_image := Some [] |})
  = Api.handle_question b64decode' w
      (Some {| Api.req_question := Some question; Api.req_image := None |})
  /\ forall client db,
       Simple.answer_question client db question (Some [])
       = Simple.answer_question client db question None.
Proof.
  assert (H : forall client db q,
             Simple.answer_question client db q (Some [])
             = Simple.answer_question client db q None).
  { intros client db q. rewrite !answer_question_eq.
    assert (Ef : generate_fallback_answer db q (Some [])
                 = generate_fallback_answer db q None)
      by (now rewrite !generate_fallback_answer_eq).
    assert (Eo : generation_outcome client db q (Some [])
                 = generation_outcome client db q None) by reflexivity.
    now rewrite Eo, Ef. }
  split; [|intros client db; apply H].
  rewrite !handle_question_object.
  cbn [Api.no_data Api.req_question Api.req_image truthy_opt]. cbv zeta.
  unfold question_of. cbn [Api.req_question].
  destruct (negb (truthy (Api.strip question))); [reflexivity|].
  now rewrite H.
Qed.

(* ================================================================== *)
(** * More on the keyword search *)
(* ================================================================== *)

Lemma keyword_score_lower (q1 q2 : str) (c : ScrapedContent) :
  lower q1 = lower q2 -> keyword_score q1 c = keyword_score q2 c.
Proof.
  intros H. unfold keyword_score, phrase_bonus, word_occurrences, long_words.
  now rewrite H.
Qed.

Lemma ranked_hits_lower (contents : list ScrapedContent) (q1 q2 : str) :
  lower q1 = lower q2 -> ranked_hits contents q1 = ranked_hits contents q2.
Proof.
  intros H. unfold ranked_hits. do 2 f_equal. apply map_ext.
  intros c. now rewrite (keyword_score_lower q1 q2 c H).
Qed.

(** X5.  The search does not see the letter case of the question: two
    questions with the same lower-case form get the same hits, and so do a
    question and its lower-case form. *)
Theorem simple_search_ignores_question_case (db : Db) (q1 q2 : str) (top_k : Z) :
  (lower q1 = lower q2 -> simple_search db q1 top_k = simple_search db q2 top_k)
  /\ simple_search db (lower q1) top_k = simple_search db q1 top_k.
Proof.
  assert (H : forall a b, lower a = lower b ->
                          simple_search db a top_k = simple_search db b top_k).
  { intros a b E. destruct db as [contents|e]; [|reflexivity].
    now rewrite !simple_search_ranked, (ranked_hits_lower contents a b E). }
  split; [apply H|]. apply H, lower_idem.
Qed.

Lemma simple_search_ignores_question_case_witness :
  lower (py "DOCKER or podman?") = lower (py "Docker OR Podman?")
  /\ simple_search (Ret [demo_docker; demo_ga4]) (py "DOCKER or podman?") 5
     = simple_search (Ret [demo_docker; demo_ga4]) (py "Docker OR Podman?") 5.
Proof.
  split; [reflexivity|].
  exact (proj1 (simple_search_ignores_question_case (Ret [demo_docker; demo_ga4])
                  (py "DOCKER or podman?") (py "Docker OR Podman?") 5)
               eq_refl).
Defined.

Lemma simple_search_firstn (db : Db) (question : str) (k k' : Z) :
  0 <= k <= k' ->
  simple_search db question k
  = firstn (Z.to_nat k) (simple_search db question k').
Proof.
  intros Hk. destruct db as [contents|e]; [|cbn; now rewrite firstn_nil].
  rewrite !simple_search_ranked, !slice_to_nonneg by lia.
  rewrite firstn_firstn. f_equal. lia.
Qed.

(** X6.  Asking for fewer hits gives a prefix of what asking for more
    gives: for 0 <= k <= k' the hits for [k] are the first [k] of the hits
    for [k'].  The 3 hits of the fallback answer are thus the first 3 of
    the 5 hits of the generative path. *)
Theorem simple_search_prefix (db : Db) (question : str) (k k' : Z) :
  0 <= k <= k' ->
  simple_search db question k
  = firstn (Z.to_nat k) (simple_search db question k').
Proof. exact (simple_search_firstn db question k k'). Qed.

Lemma simple_search_prefix_witness :
  0 <= 3 <= 5
  /\ simple_search (Ret [demo_docker; demo_ga4]) demo_question 3
     = firstn (Z.to_nat 3) (simple_search (Ret [demo_docker; demo_ga4]) demo_question 5).
Proof.
  split; [lia|].
  exact (simple_search_prefix (Ret [demo_docker; demo_ga4]) demo_question 3 5
           ltac:(lia)).
Defined.

Lemma NoDup_map_filter (A B : Type) (key : A -> B) (keep : A -> bool)
    (rows : list A) (Hnd : NoDup (map key rows)) :
  NoDup (map key (filter keep rows)).
Proof.
  revert Hnd. induction rows as [|r rows IH]; cbn [map filter]; [trivial|].
  intros H. inversion H as [|? ? Hn Hd]; subst.
  destruct (keep r); [|now apply IH]. cbn [map]. constructor; [|now apply IH].
  intros Hin. apply Hn. apply in_map_iff in Hin as [x [E Hx]].
  apply filter_In in Hx as [Hx _]. apply in_map_iff. now exists x.
Qed.

Lemma NoDup_map_firstn {A B : Type} (f : A -> B) (n : nat) (l : list A) :
  NoDup (map f l) -> NoDup (map f (firstn n l)).
Proof.
  intros H. rewrite <- (firstn_skipn n l), map_app in H.
  now apply NoDup_app_remove_r in H.
Qed.

Lemma filter_length_le {A : Type} (p : A -> bool) (l : list A) :
  (length (filter p l) <= length l)%nat.
Proof.
  induction l as [|a l IH]; cbn [filter length]; [lia|].
  destruct (p a); cbn [length]; lia.
Qed.

(** X7.  The search returns at most [top_k] hits and at most one hit per
    row: no more hits than rows, and, over rows with distinct ids, hits
    with distinct ids. *)
Theorem simple_search_bounded_and_distinct
    (contents : list ScrapedContent) (question : str) (top_k : Z) :
  0 <= top_k ->
  let hits := simple_search (Ret contents) question top_k in
  (length hits <= Z.to_nat top_k)%nat
  /\ (length hits <= length contents)%nat
  /\ (NoDup (map sc_id contents) -> NoDup (map hit_id hits)).
Proof.
  intros Hk hits. split; [now apply simple_search_length|].
  unfold hits. rewrite simple_search_ranked, slice_to_nonneg by exact Hk.
  unfold ranked_hits. split.
  - rewrite length_firstn. etransitivity; [apply Nat.le_min_r|].
    rewrite sort_desc_length.
    etransitivity; [apply filter_length_le|]. now rewrite length_map.
  - intros Hnd. apply NoDup_map_firstn.
    apply (Permutation_NoDup
             (Permutation_map hit_id (sort_desc_perm hit_score _))).
    apply NoDup_map_filter. rewrite map_map. cbn [hit_id mk_hit]. exact Hnd.
Qed.

Lemma simple_search_bounded_and_distinct_witness :
  0 <= 5
  /\ NoDup (map sc_id [demo_docker; demo_ga4])
  /\ NoDup (map hit_id (simple_search (Ret [demo_docker; demo_ga4]) demo_question 5)).
Proof.
  assert (Hnd : NoDup (map sc_id [demo_docker; demo_ga4])).
  { cbn. repeat constructor; cbn; intuition discriminate. }
  split; [lia|]. split; [exact Hnd|].
  pose proof (simple_search_bounded_and_distinct [demo_docker; demo_ga4]
                demo_question 5 ltac:(lia)) as H.
  cbv zeta in H. destruct H as (_ & _ & H). exact (H Hnd).
Defined.

Lemma lower_char_space (c : ascii) : isspace c = true -> lower_char c = c.
Proof.
  destruct c as [b0 b1 b2 b3 b4 b5 b6 b7].
  destruct b0, b1, b2, b3, b4, b5, b6, b7; intros H; try reflexivity; discriminate H.
Qed.

Lemma lower_blank (s : str) : Forall (fun c => isspace c = true) s -> lower s = s.
Proof.
  induction 1 as [|c s Hc _ IH]; [reflexivity|].
  cbn [lower map]. fold (lower s). now rewrite IH, lower_char_space.
Qed.

Lemma split_blank (s : str) : Forall (fun c => isspace c = true) s -> split s = [].
Proof.
  unfold split. induction 1 as [|c s Hc _ IH]; [reflexivity|].
  cbn [split_aux]. now rewrite Hc.
Qed.

Lemma py_in_blank (p s : str) :
  Forall (fun c => isspace c = true) s ->
  match p with [] => False | c :: _ => isspace c = false end ->
  py_in p s = false.
Proof.
  intros Hs Hp. destruct (py_in p s) eqn:E; [|reflexivity].
  apply py_in_spec in E as (pre & post & ->).
  destruct p as [|c p]; [destruct Hp|].
  rewrite Forall_forall in Hs.
  assert (isspace c = true)
    by (apply Hs, in_or_app; right; now left).
  congruence.
Qed.

(** X8.  A question that is empty or white space only finds nothing,
    whatever the corpus holds. *)
Theorem blank_question_finds_nothing (db : Db) (question : str) (top_k : Z) :
  Forall (fun c => isspace c = true) question ->
  simple_search db question top_k = [].
Proof.
  intros H. destruct db as [contents|e]; [|reflexivity].
  apply simple_search_no_match. intros c _.
  unfold keyword_score, word_occurrences, long_words, phrase_bonus, phrase_lexicon.
  rewrite (lower_blank _ H), (split_blank _ H). cbn [py_set nodup filter map fst snd].
  rewrite !(py_in_blank _ question H) by reflexivity. reflexivity.
Qed.

Lemma blank_question_finds_nothing_witness :
  Forall (fun c => isspace c = true) (py "   ")
  /\ simple_search (Ret [demo_docker; demo_ga4]) (py "   ") 5 = [].
Proof.
  assert (H : Forall (fun c => isspace c = true) (py "   ")).
  { repeat (apply Forall_cons; [reflexivity|]). apply Forall_nil. }
  split; [exact H|].
  exact (blank_question_finds_nothing (Ret [demo_docker; demo_ga4]) (py "   ") 5 H).
Defined.

(* ================================================================== *)
(** * More on the link ranker *)
(* ================================================================== *)

Lemma insert_desc_map_fst {A : Type} (f : A -> Z) (x : A) (m : list (A * Z)) :
  Forall (fun az => snd az = f (fst az)) m ->
  map fst (insert_desc snd (x, f x) m) = insert_desc f x (map fst m).
Proof.
  induction 1 as [|[a z] m Ha _ IH]; [reflexivity|].
  cbn [insert_desc map fst snd] in *. subst z.
  destruct (f a <=? f x); cbn [map fst]; [reflexivity | now rewrite IH].
Qed.

Lemma sort_desc_map_fst {A : Type} (f : A -> Z) (l : list A) :
  map fst (sort_desc snd (map (fun a => (a, f a)) l)) = sort_desc f l
  /\ Forall (fun az => snd az = f (fst az))
            (sort_desc snd (map (fun a => (a, f a)) l)).
Proof.
  induction l as [|a l [IH1 IH2]]; [split; [reflexivity | constructor]|].
  cbn [map sort_desc]. split.
  - now rewrite insert_desc_map_fst, IH1.
  - apply (Permutation_Forall (insert_desc_perm snd _ _)). now constructor.
Qed.

Lemma map_fst_filter {A : Type} (f : A -> Z) (p : Z -> bool) (m : list (A * Z)) :
  Forall (fun az => snd az = f (fst az)) m ->
  map fst (filter (fun az => p (snd az)) m) = filter (fun a => p (f a)) (map fst m).
Proof.
  induction 1 as [|[a z] m Ha _ IH]; [reflexivity|].
  cbn [filter map fst snd] in *. subst z.
  destruct (p (f a)); cbn [map fst]; now rewrite IH.
Qed.

(** The ranker as one sort and one filter over the links themselves. *)
Lemma rank_and_filter_links_sorted (links : list Link) (question answer : str) :
  rank_and_filter_links links question answer
  = filter (fun l => 0 <? link_relevance question answer l)
           (sort_desc (link_relevance question answer) links).
Proof.
  rewrite rank_and_filter_links_eq. unfold ranked_links.
  destruct (sort_desc_map_fst (link_relevance question answer) links) as [E HF].
  rewrite (map_fst_filter (link_relevance question answer) (fun z => 0 <? z) _ HF).
  now rewrite E.
Qed.

Lemma sort_desc_sorted_id {A : Type} (key : A -> Z) (l : list A) :
  StronglySorted (ge_key key) l -> sort_desc key l = l.
Proof.
  intros H. apply (stable_sort_unique key); [apply sort_desc_sorted | exact H|].
  intros s. apply sort_desc_stable.
Qed.

Lemma filter_idem {A : Type} (p : A -> bool) (l : list A) :
  filter p (filter p l) = filter p l.
Proof.
  induction l as [|a l IH]; [reflexivity|]. cbn [filter].
  destruct (p a) eqn:E; cbn [filter]; rewrite ?E, IH; reflexivity.
Qed.

(** X9.  The ranker invents and repeats nothing: its result is a
    rearrangement of the input links of positive relevance (each as often
    as it was given), so it is no longer than its input; and ranking a
    ranked list again, for the same question and answer, changes
    nothing. *)
Theorem rank_and_filter_links_rearranges (links : list Link) (question answer : str) :
  let ranked := rank_and_filter_links links question answer in
  Permutation ranked
    (filter (fun l => 0 <? link_relevance question answer l) links)
  /\ (length ranked <= length links)%nat
  /\ rank_and_filter_links ranked question answer = ranked.
Proof.
  cbv zeta. rewrite !rank_and_filter_links_sorted.
  set (f := link_relevance question answer).
  assert (HP : Permutation (filter (fun l => 0 <? f l) (sort_desc f links))
                           (filter (fun l => 0 <? f l) links)).
  { apply filter_perm. symmetry. apply sort_desc_perm. }
  split; [exact HP|]. split.
  - rewrite (Permutation_length HP). apply filter_length_le.
  - rewrite sort_desc_sorted_id by (apply filter_sorted, sort_desc_sorted).
    apply filter_idem.
Qed.

(** X10.  A link with an empty title, or with an empty URL, counts as
    mentioned in every answer: it gets the 2-point bonus and is never
    dropped. *)
Theorem empty_title_or_url_is_always_kept (links : list Link) (question answer : str)
    (l : Link) :
  In l links ->
  text l = [] \/ url l = [] ->
  2 <= link_score (lower question) answer (lower answer) l
  /\ In l (rank_and_filter_links links question answer).
Proof.
  intros Hin He.
  assert (Hm : mentioned answer l = true).
  { unfold mentioned. destruct He as [-> | ->]; cbn [lower map];
      rewrite py_in_empty; [apply orb_true_r | reflexivity]. }
  assert (Hs : 2 <= link_relevance question answer l).
  { pose proof (link_relevance_bounds question answer l) as [_ Hb].
    unfold mention_bonus in Hb. now rewrite Hm in Hb. }
  rewrite link_score_eq. split; [exact Hs|].
  apply ranked_links_In. split; [exact Hin | lia].
Qed.

Lemma empty_title_or_url_is_always_kept_witness :
  (In untitled_link [link_a; untitled_link]
   /\ (text untitled_link = [] \/ url untitled_link = []))
  /\ In untitled_link
        (rank_and_filter_links [link_a; untitled_link] demo_question
           (py "SEE THE GRADER OUTPUT")).
Proof.
  assert (Hin : In untitled_link [link_a; untitled_link]) by (right; now left).
  split; [split; [exact Hin | now left]|].
  exact (proj2 (empty_title_or_url_is_always_kept [link_a; untitled_link]
                  demo_question (py "SEE THE GRADER OUTPUT") untitled_link
                  Hin (or_introl eq_refl))).
Defined.

(* ================================================================== *)
(** * More on the answers *)
(* ================================================================== *)

Lemma join_head (sep p : str) (rest : list str) (c : ascii) (p' : str) :
  p = c :: p' -> hd_error (join sep (p :: rest)) = Some c.
Proof. intros ->. destruct rest; reflexivity. Qed.

Lemma fallback_answer_head (db : Db) (question : str) (image_base64 : option str) :
  let a := answer (generate_fallback_answer db question image_base64) in
  a = nothing_found \/ hd_error a = Some "B"%char.
Proof.
  cbv zeta. rewrite generate_fallback_answer_eq.
  destruct (simple_search db question 3) as [|h0 hs]; [now left|].
  right. cbn [answer]. unfold fallback_lines. cbn [app].
  now apply (join_head nl fallback_header _ "B"%char
               (py "ased on the course materials I found:" ++ nl)).
Qed.

(** X11.  The fallback answer is never the "trouble accessing the course
    materials" message: when the database cannot be read the search has
    already turned the failure into no hits, and the user is told that
    nothing was found. *)
Theorem fallback_never_reports_trouble (db : Db) (question : str)
    (image_base64 : option str) :
  answer (generate_fallback_answer db question image_base64) <> materials_unreachable
  /\ forall e, generate_fallback_answer (Raise e) question image_base64
               = {| answer := nothing_found; links := [] |}.
Proof.
  split; [|reflexivity].
  destruct (fallback_answer_head db question image_base64) as [E | E]; intros H.
  - rewrite E in H. discriminate H.
  - rewrite H in E. discriminate E.
Qed.

Lemma simple_search_hits_positive (db : Db) (question : str) (top_k : Z) :
  filter (fun h => 0 <? hit_score h) (simple_search db question top_k)
  = simple_search db question top_k.
Proof.
  assert (H : forall h, In h (simple_search db question top_k) ->
                        (0 <? hit_score h) = true).
  { intros h Hh. apply simple_search_sound in Hh as (cs & c & _ & _ & -> & Hpos).
    now apply Z.ltb_lt. }
  induction (simple_search db question top_k) as [|h t IH]; [reflexivity|].
  cbn [filter]. rewrite (H h (or_introl eq_refl)). f_equal.
  apply IH. intros x Hx. apply H. now right.
Qed.

Lemma fallback_links_firstn (db : Db) (question : str)
    (image_base64 : option str) :
  links (generate_fallback_answer db question image_base64)
  = firstn 3 (candidate_links db question).
Proof.
  unfold candidate_links. rewrite simple_search_hits_positive, firstn_map.
  rewrite generate_fallback_answer_eq.
  rewrite (simple_search_firstn db question 3 5) by lia.
  change (Z.to_nat 3) with 3%nat.
  now destruct (firstn 3 (simple_search db question 5)).
Qed.

(** X12.  The links of the fallback answer are the first 3 of the links
    the generative path would hand to the ranker, in the same order. *)
Theorem fallback_links_are_first_candidates (db : Db) (question : str)
    (image_base64 : option str) :
  links (generate_fallback_answer db question image_base64)
  = firstn 3 (candidate_links db question).
Proof. exact (fallback_links_firstn db question image_base64). Qed.

(** X13.  When the search finds nothing (no row matches, the corpus is
    empty, or the database cannot be read) the answer has no links, on
    every path and whatever the model answers. *)
Theorem no_hits_no_links (openai_client : option OpenAI) (db : Db)
    (question : str) (image_base64 : option str) :
  simple_search db question 5 = [] ->
  links (Simple.answer_question openai_client db question image_base64) = [].
Proof.
  intros H.
  assert (Hf : links (generate_fallback_answer db question image_base64) = []).
  { rewrite fallback_links_firstn. unfold candidate_links.
    now rewrite H. }
  rewrite answer_question_eq.
  destruct (generation_outcome openai_client db question image_base64)
    as [|content|e].
  - exact Hf.
  - unfold generated_answer, candidate_links. rewrite H. reflexivity.
  - destruct (is_quota_error e); [exact Hf | reflexivity].
Qed.

Lemma no_hits_no_links_witness :
  simple_search (Raise (py "database is locked")) demo_question 5 = []
  /\ links (Simple.answer_question (Some ga4_client) (Raise (py "database is locked"))
              demo_question None) = [].
Proof.
  split; [reflexivity|].
  exact (no_hits_no_links (Some ga4_client) (Raise (py "database is locked"))
           demo_question None eq_refl).
Defined.

(** X14.  The answer text is never empty: on every path the caller gets
    some text. *)
Theorem answer_text_is_never_empty (openai_client : option OpenAI) (db : Db)
    (question : str) (image_base64 : option str) :
  answer (Simple.answer_question openai_client db question image_base64) <> [].
Proof.
  assert (Hf : answer (generate_fallback_answer db question image_base64) <> []).
  { destruct (fallback_answer_head db question image_base64) as [E | E]; intros H.
    - rewrite E in H. discriminate H.
    - rewrite H in E. discriminate E. }
  rewrite answer_question_eq.
  destruct (generation_outcome openai_client db question image_base64)
    as [|content|e]; [exact Hf | |].
  - unfold generated_answer. cbn [answer].
    destruct content as [[|c r]|]; discriminate.
  - destruct (is_quota_error e); [exact Hf | discriminate].
Qed.

(* ================================================================== *)
(** * The assistant over the vector store *)
(* ================================================================== *)

Lemma getitem_raises {A : Type} (l : list A) (i : Z) (e : str) :
  getitem l i = Raise e -> e = index_error.
Proof.
  unfold getitem. destruct (_ && _); [|now intros [= <-]].
  destruct (nth_error l _); [discriminate | now intros [= <-]].
Qed.

Lemma getitem_beyond {A : Type} (l : list A) (i : Z) :
  Z.of_nat (length l) <= i -> getitem l i = Raise index_error.
Proof.
  intros H. unfold getitem.
  destruct (Z.ltb_spec i 0); [lia|].
  destruct (Z.ltb_spec i (Z.of_nat (length l))); [lia|].
  now rewrite andb_false_r.
Qed.

Lemma search_loop_beyond (docs : list VectorStoreM.Document) (l : list (Q * Z))
    (acc : list (VectorStoreM.Document * Q)) :
  (exists si, In si l /\ Z.of_nat (length docs) <= snd si) ->
  fold_left (VectorStoreM.search_step docs) l (Ret acc) = Raise index_error.
Proof.
  revert acc; induction l as [|[s i] l IH]; intros acc [si [Hin Hb]]; [destruct Hin|].
  cbn [fold_left VectorStoreM.search_step bind].
  destruct (Z.eqb_spec i (-1)) as [->|Hne]; cbn [negb].
  - apply IH. destruct Hin as [<- | Hin]; [cbn in Hb; lia | now exists si].
  - destruct (getitem docs i) as [d|e] eqn:Eg; cbn [bind].
    + apply IH. destruct Hin as [<- | Hin]; [|now exists si].
      cbn [snd] in Hb. rewrite (getitem_beyond docs i Hb) in Eg. discriminate Eg.
    + rewrite (getitem_raises _ _ _ Eg). apply search_loop_raise.
Qed.

(** X15.  When index and documents have drifted apart and the index
    returns a position at or beyond the number of documents, the search
    raises IndexError ("list index out of range"): no hit is returned, not
    even those found before the bad position. *)
Theorem vector_search_raises_on_stale_index
    (Vec : Type) (normalize_L2 : Vec -> Vec)
    (self : VectorStoreM.VectorStore Vec) (query : str) (top_k : Z)
    (idx : VectorStoreM.FaissIndex Vec) (v : Vec)
    (scores : list Q) (indices : list Z) (i : Z) :
  VectorStoreM.index self = Some idx ->
  VectorStoreM.documents self <> [] ->
  VectorStoreM.model_encode self query = Ret v ->
  VectorStoreM.index_search idx (normalize_L2 v)
    (Z.min top_k (Z.of_nat (length (VectorStoreM.documents self))))
  = Ret (scores, indices) ->
  In i (map snd (combine scores indices)) ->
  Z.of_nat (length (VectorStoreM.documents self)) <= i ->
  VectorStoreM.search Vec normalize_L2 self query top_k = Raise index_error.
Proof.
  intros Hi Hd He Hs Hin Hb. unfold VectorStoreM.search. rewrite Hi.
  destruct (VectorStoreM.documents self) as [|d0 ds] eqn:Ed; [contradiction|].
  rewrite He. cbn [bind]. rewrite Hs. cbn [bind].
  apply search_loop_beyond. apply in_map_iff in Hin as [si [<- Hsi]].
  now exists si.
Qed.

Lemma vector_search_raises_on_stale_index_witness :
  VectorStoreM.search (list Q) unit_normalize stale_store demo_question 5
  = Raise index_error.
Proof.
  apply (vector_search_raises_on_stale_index (list Q) unit_normalize stale_store
           demo_question 5 stale_index [1 # 1; 0 # 1] [9 # 10; 1 # 2] [0; 2] 2).
  - reflexivity.
  - discriminate.
  - reflexivity.
  - reflexivity.
  - right. now left.
  - cbn. lia.
Defined.

(** X16.  The vector assistant returns at most 3 links; each belongs to a
    hit of the vector search whose similarity is above 0.3 and has a
    positive ranker score for the question and the returned answer, which
    is then a text. *)
Theorem vector_answer_links_sound
    (Vec : Type) (normalize_L2 : Vec -> Vec) (openai_client : option OpenAI)
    (vector_store : VectorStoreM.VectorStore Vec) (question : str)
    (image_base64 : option str) :
  let r := Vector.answer_question Vec normalize_L2 openai_client vector_store
             question image_base64 in
  (length (Vector.v_links r) <= 3)%nat
  /\ forall l, In l (Vector.v_links r) ->
       exists hits h a,
         VectorStoreM.search Vec normalize_L2 vector_store question 5 = Ret hits
         /\ In h hits /\ (float_0_30 < snd h)%Q /\ l = doc_link h
         /\ Vector.v_answer r = Some a
         /\ 0 < link_score (lower question) a (lower a) l.
Proof.
  cbv zeta. destruct openai_client as [client|]; [|cbn; split; [lia | intros l []]].
  destruct (VectorStoreM.search Vec normalize_L2 vector_store question 5)
    as [hits|e] eqn:Hs.
  2:{ unfold Vector.answer_question. rewrite Hs. cbn. split; [lia | intros l []]. }
  rewrite (vector_answer_question_eq Vec normalize_L2 client vector_store question
             image_base64 hits Hs).
  cbv zeta. match goal with |- context [client ?req] => destruct (client req) as [response|e] end;
    [|cbn; split; [lia | intros l []]].
  destruct response as [|content rest]; [cbn; split; [lia | intros l []]|].
  destruct (map doc_link (filter (fun h => Vector.above_threshold (snd h)) hits))
    as [|l0 ls] eqn:Ek; [cbn; split; [lia | intros l []]|].
  destruct content as [a|]; [|cbn; split; [lia | intros l []]].
  cbn [Vector.v_links Vector.v_answer]. split; [apply firstn_le_length|].
  intros l Hl. apply firstn_In, ranked_links_In in Hl as [Hin Hpos].
  rewrite <- Ek in Hin. apply in_map_iff in Hin as [h [<- Hh]].
  apply filter_In in Hh as [Hh Ha]. apply above_threshold_iff in Ha.
  exists hits, h, a. rewrite link_score_eq. repeat split; assumption.
Qed.

(** X17.  The vector assistant has no fallback.  Without a client it
    answers that no key is configured and does not search.  A failure of
    the search, of the model call (a quota failure included) or an empty
    list of choices gives the error answer carrying the message and no
    links. *)
Theorem vector_assistant_reports_failures
    (Vec : Type) (normalize_L2 : Vec -> Vec)
    (vector_store : VectorStoreM.VectorStore Vec) (question : str)
    (image_base64 : option str) :
  Vector.answer_question Vec normalize_L2 None vector_store question image_base64
    = {| Vector.v_answer := Some Vector.not_configured; Vector.v_links := [] |}
  /\ (forall client e,
        VectorStoreM.search Vec normalize_L2 vector_store question 5 = Raise e ->
        Vector.answer_question Vec normalize_L2 (Some client) vector_store
          question image_base64
        = {| Vector.v_answer := Some (error_prefix ++ e); Vector.v_links := [] |})
  /\ (forall hits e,
        VectorStoreM.search Vec normalize_L2 vector_store question 5 = Ret hits ->
        Vector.answer_question Vec normalize_L2 (Some (failing_client e)) vector_store
          question image_base64
        = {| Vector.v_answer := Some (error_prefix ++ e); Vector.v_links := [] |})
  /\ (forall hits,
        VectorStoreM.search Vec normalize_L2 vector_store question 5 = Ret hits ->
        Vector.answer_question Vec normalize_L2 (Some (answering_client []))
          vector_store question image_base64
        = {| Vector.v_answer := Some (error_prefix ++ index_error);
             Vector.v_links := [] |}).
Proof.
  split; [reflexivity|]. split; [|split].
  - intros client e Hs. unfold Vector.answer_question. now rewrite Hs.
  - intros hits e Hs.
    now rewrite (vector_answer_question_eq Vec normalize_L2 _ vector_store question
                   image_base64 hits Hs).
  - intros hits Hs.
    now rewrite (vector_answer_question_eq Vec normalize_L2 _ vector_store question
                   image_base64 hits Hs).
Qed.

Lemma vector_assistant_reports_failures_witness :
  VectorStoreM.search (list Q) unit_normalize demo_store demo_question 5
  = Ret [(demo_doc demo_docker, 9 # 10); (demo_doc demo_ga4, 1 # 5)]
  /\ Vector.answer_question (list Q) unit_normalize
       (Some (failing_client (py "You exceeded your current quota")))
       demo_store demo_question None
     = {| Vector.v_answer := Some (error_prefix ++ py "You exceeded your current quota");
          Vector.v_links := [] |}.
Proof.
  split; [reflexivity|].
  pose proof (vector_assistant_reports_failures (list Q) unit_normalize demo_store
                demo_question None) as (_ & _ & H & _).
  exact (H _ (py "You exceeded your current quota") eq_refl).
Defined.

(** X18.  When the model returns a choice without content: with no hit
    above the threshold the vector assistant returns a null answer and no
    links; with at least one such hit the ranker fails on the null answer
    and the caller gets the error answer. *)
Theorem vector_assistant_null_content
    (Vec : Type) (normalize_L2 : Vec -> Vec)
    (vector_store : VectorStoreM.VectorStore Vec) (question : str)
    (image_base64 : option str) (hits : list (VectorStoreM.Document * Q))
    (rest : ChatResponse) :
  VectorStoreM.search Vec normalize_L2 vector_store question 5 = Ret hits ->
  let r := Vector.answer_question Vec normalize_L2
             (Some (answering_client (None :: rest))) vector_store
             question image_base64 in
  ((forall h, In h hits -> (snd h <= float_0_30)%Q) ->
   r = {| Vector.v_answer := None; Vector.v_links := [] |})
  /\ ((exists h, In h hits /\ (float_0_30 < snd h)%Q) ->
      r = {| Vector.v_answer := Some (error_prefix ++ none_has_no_lower);
             Vector.v_links := [] |}).
Proof.
  intros Hs. cbv zeta.
  rewrite (vector_answer_question_eq Vec normalize_L2 _ vector_store question
             image_base64 hits Hs).
  cbv zeta. unfold answering_client.
  destruct (filter (fun h => Vector.above_threshold (snd h)) hits) as [|k ks] eqn:Ek.
  - split; [reflexivity|]. intros [h [Hh Ha]]. exfalso.
    assert (Hin : In h (filter (fun h => Vector.above_threshold (snd h)) hits))
      by (apply filter_In; split; [exact Hh | now apply above_threshold_iff]).
    now rewrite Ek in Hin.
  - split; [|reflexivity]. intros Hall. exfalso.
    assert (Hin : In k (filter (fun h => Vector.above_threshold (snd h)) hits))
      by (rewrite Ek; now left).
    apply filter_In in Hin as [Hk Ha]. apply above_threshold_iff in Ha.
    exact (Qlt_not_le _ _ Ha (Hall k Hk)).
Qed.

Lemma vector_assistant_null_content_witness :
  (VectorStoreM.search (list Q) unit_normalize demo_store demo_question 5
   = Ret [(demo_doc demo_docker, 9 # 10); (demo_doc demo_ga4, 1 # 5)]
   /\ exists h, In h [(demo_doc demo_docker, 9 # 10); (demo_doc demo_ga4, 1 # 5)]
                /\ (float_0_30 < snd h)%Q)
  /\ Vector.answer_question (list Q) unit_normalize
       (Some (answering_client [None])) demo_store demo_question None
     = {| Vector.v_answer := Some (error_prefix ++ none_has_no_lower);
          Vector.v_links := [] |}.
Proof.
  assert (Hh : exists h, In h [(demo_doc demo_docker, 9 # 10); (demo_doc demo_ga4, 1 # 5)]
                         /\ (float_0_30 < snd h)%Q).
  { exists (demo_doc demo_docker, 9 # 10). split; [now left | reflexivity]. }
  split; [split; [reflexivity | exact Hh]|].
  pose proof (vector_assistant_null_content (list Q) unit_normalize demo_store
                demo_question None _ [] eq_refl) as H.
  cbv zeta in H. exact (proj2 H Hh).
Defined.

(* ================================================================== *)
(** * Building, loading and extending the vector index *)
(* ================================================================== *)

Section LifecycleFacts.
Import VectorStoreM VectorStoreIO.
Variable Vec : Type.
Variable normalize_L2 : Vec -> Vec.
Variable IndexFlatIP : Z -> FaissIndex Vec.
Variable index_add : FaissIndex Vec -> Vec -> FaissIndex Vec.
Variable encode_texts : list str -> exc Vec.

Local Abbreviation create_index :=
  (create_index Vec normalize_L2 IndexFlatIP index_add encode_texts).
Local Abbreviation load_or_create_index :=
  (load_or_create_index Vec normalize_L2 IndexFlatIP index_add encode_texts).
Local Abbreviation add_document :=
  (add_document Vec normalize_L2 IndexFlatIP index_add encode_texts).

Lemma collect_loop (contents : list ScrapedContent) (texts : list str)
    (docs : list Document) :
  fold_left collect_step contents (texts, docs)
  = (texts ++ map text_of contents, docs ++ map document_of contents).
Proof.
  revert texts docs; induction contents as [|c cs IH]; intros texts docs.
  - cbn. now rewrite !app_nil_r.
  - cbn [fold_left collect_step]. rewrite IH. cbn [map]. now rewrite <- !app_assoc.
Qed.

(** The build over a corpus that is not empty, by the outcome of the
    encoding. *)
Lemma create_index_eq (c : ScrapedContent) (cs : list ScrapedContent)
    (self : VectorStore Vec) (fs : Files Vec) :
  let contents := c :: cs in
  create_index (Ret contents) self fs
  = match encode_texts (map text_of contents) with
    | Raise e =>
        {| result := Raise e;
           store := with_documents self (map document_of contents);
           files := fs |}
    | Ret embeddings =>
        let idx := index_add (IndexFlatIP dimension) (normalize_L2 embeddings) in
        {| result := Ret tt;
           store := {| model_encode := model_encode self;
                       index := Some idx;
                       documents := map document_of contents |};
           files := {| index_file := Some (Ret idx);
                       docs_file := Some (Ret (map document_of contents)) |} |}
    end.
Proof.
  cbv zeta. unfold VectorStoreIO.create_index.
  rewrite (collect_loop (c :: cs) [] []). cbn [app].
  now destruct (encode_texts (map text_of (c :: cs))).
Qed.

(** X19.  Built over an empty corpus the store has a new, empty index and
    no documents, and every search on it returns the empty list.  Nothing
    is written to the files, so that, when there was no index file, the
    next load builds again from the database. *)
Theorem create_index_on_empty_corpus (self self0 : VectorStore Vec) (fs : Files Vec)
    (db' : Db) (query : str) (top_k : Z) :
  let o := create_index (Ret []) self fs in
  result o = Ret tt
  /\ index (store o) = Some (IndexFlatIP dimension)
  /\ documents (store o) = []
  /\ files o = fs
  /\ search Vec normalize_L2 (store o) query top_k = Ret []
  /\ (index_file fs = None ->
      load_or_create_index db' self0 (files o) = create_index db' self0 fs).
Proof.
  cbv zeta. repeat split. intros Hf.
  change (files (create_index (Ret []) self fs)) with fs.
  unfold VectorStoreIO.load_or_create_index. now rewrite Hf.
Qed.

(** X20.  A successful build over a corpus that is not empty keeps one
    document per row, in table order, embeds the texts "title, newline,
    content" of the rows in that order, and writes to the files the index
    and the documents it holds in memory. *)
Theorem create_index_builds_and_persists
    (contents : list ScrapedContent) (self : VectorStore Vec) (fs : Files Vec)
    (embeddings : Vec) :
  contents <> [] ->
  encode_texts (map (fun c => sc_title c ++ Simple.nl ++ sc_content c) contents)
  = Ret embeddings ->
  let o := create_index (Ret contents) self fs in
  result o = Ret tt
  /\ documents (store o) = map document_of contents
  /\ length (documents (store o)) = length contents
  /\ index (store o)
     = Some (index_add (IndexFlatIP dimension) (normalize_L2 embeddings))
  /\ index_file (files o) = option_map Ret (index (store o))
  /\ docs_file (files o) = Some (Ret (documents (store o))).
Proof.
  intros Hne He. destruct contents as [|c cs]; [contradiction|].
  cbv zeta. rewrite create_index_eq. cbv zeta.
  change (map text_of (c :: cs))
    with (map (fun c => sc_title c ++ Simple.nl ++ sc_content c) (c :: cs)).
  rewrite He. cbn [result store files documents index index_file docs_file option_map].
  repeat split. now rewrite length_map.
Qed.

(** X21.  If the encoding fails during a build over a corpus that is not
    empty, the build raises with the store's documents already replaced by
    those of the corpus, while the index and the files are as before. *)
Theorem create_index_encoding_failure
    (contents : list ScrapedContent) (self : VectorStore Vec) (fs : Files Vec)
    (e : str) :
  contents <> [] ->
  encode_texts (map text_of contents) = Raise e ->
  let o := create_index (Ret contents) self fs in
  result o = Raise e
  /\ documents (store o) = map document_of contents
  /\ index (store o) = index self
  /\ files o = fs.
Proof.
  intros Hne He. destruct contents as [|c cs]; [contradiction|].
  cbv zeta. rewrite create_index_eq. cbv zeta. rewrite He. repeat split.
Qed.

Lemma load_persisted (db : Db) (self self0 : VectorStore Vec) (fs : Files Vec) :
  persisted self fs ->
  load_or_create_index db self0 fs
  = {| result := Ret tt;
       store := {| model_encode := model_encode self0;
                   index := index self;
                   documents := documents self |};
       files := fs |}.
Proof.
  intros (idx & Hi & Hf & Hd). unfold VectorStoreIO.load_or_create_index.
  rewrite Hf, Hd, Hi. reflexivity.
Qed.

(** X22.  Round trip: after a successful build over a corpus that is not
    empty, loading from the files written, into any store and whatever the
    database does by then, returns with the index and the documents of the
    build, and leaves the files as they are. *)
Theorem load_after_build_restores
    (contents : list ScrapedContent) (self self0 : VectorStore Vec)
    (fs : Files Vec) (db' : Db) :
  contents <> [] ->
  let built := create_index (Ret contents) self fs in
  result built = Ret tt ->
  let loaded := load_or_create_index db' self0 (files built) in
  result loaded = Ret tt
  /\ index (store loaded) = index (store built)
  /\ documents (store loaded) = documents (store built)
  /\ files loaded = files built.
Proof.
  intros Hne built Hr loaded.
  assert (Hp : persisted (store built) (files built)).
  { unfold built in *. destruct contents as [|c cs]; [contradiction|].
    rewrite create_index_eq in *. cbv zeta in *.
    destruct (encode_texts (map text_of (c :: cs))) as [emb|e]; [|discriminate Hr].
    eexists. repeat split. }
  unfold loaded. rewrite (load_persisted db' (store built) self0 (files built) Hp).
  repeat split.
Qed.

(** X23.  A load that returns leaves the store with an index: from the
    files when both are there and readable, from a build otherwise. *)
Theorem load_gives_an_index (db : Db) (self : VectorStore Vec) (fs : Files Vec) :
  let o := load_or_create_index db self fs in
  result o = Ret tt -> index (store o) <> None.
Proof.
  cbv zeta.
  assert (Hc : forall s, result (create_index db s fs) = Ret tt ->
                         index (store (create_index db s fs)) <> None).
  { intros s. destruct db as [[|c cs]|e]; [discriminate | | discriminate].
    rewrite create_index_eq. cbv zeta.
    destruct (encode_texts (map text_of (c :: cs))); discriminate. }
  unfold VectorStoreIO.load_or_create_index.
  destruct (index_file fs) as [[idx|e]|], (docs_file fs) as [[docs|e']|];
    try apply Hc.
  discriminate.
Qed.

(** X24.  Adding a row to a store that has an index: if the encoding of
    the row's text succeeds, the document is appended behind those already
    kept, the embedding is added to the index, and the files are written
    to match; if it fails, the call raises and store and files are as
    before. *)
Theorem add_document_appends_and_persists
    (content : ScrapedContent) (db : Db) (self : VectorStore Vec)
    (fs : Files Vec) (idx : FaissIndex Vec) :
  index self = Some idx ->
  let o := add_document content db self fs in
  (forall embedding,
     model_encode self (sc_title content ++ Simple.nl ++ sc_content content)
     = Ret embedding ->
     result o = Ret tt
     /\ documents (store o) = documents self ++ [document_of content]
     /\ index (store o) = Some (index_add idx (normalize_L2 embedding))
     /\ persisted (store o) (files o))
  /\ (forall e,
        model_encode self (sc_title content ++ Simple.nl ++ sc_content content)
        = Raise e ->
        o = {| result := Raise e; store := self; files := fs |}).
Proof.
  intros Hi. cbv zeta. unfold VectorStoreIO.add_document. rewrite Hi.
  cbn [result store files]. fold (text_of content). rewrite Hi. split.
  - intros embedding ->. repeat split.
    eexists. repeat split.
  - intros e ->. reflexivity.
Qed.

(** X25.  Adding a row to a store without index, with no files to load
    and a corpus that is not empty: the index is first built over the whole
    corpus, then the row is appended, so the store ends with one document
    per corpus row followed by the row's document. *)
Theorem add_document_builds_first
    (content : ScrapedContent) (contents : list ScrapedContent)
    (self : VectorStore Vec) (fs : Files Vec) (embeddings embedding : Vec) :
  index self = None ->
  index_file fs = None ->
  contents <> [] ->
  encode_texts (map text_of contents) = Ret embeddings ->
  model_encode self (text_of content) = Ret embedding ->
  let o := add_document content (Ret contents) self fs in
  result o = Ret tt
  /\ documents (store o) = map document_of contents ++ [document_of content]
  /\ persisted (store o) (files o).
Proof.
  intros Hi Hf Hne He Hm. destruct contents as [|c cs]; [contradiction|].
  cbv zeta. unfold VectorStoreIO.add_document. rewrite Hi.
  unfold VectorStoreIO.load_or_create_index. rewrite Hf.
  rewrite create_index_eq. cbv zeta. rewrite He.
  cbn [result store files model_encode index documents]. rewrite Hm.
  repeat split. eexists. repeat split.
Qed.

End LifecycleFacts.

Lemma create_index_builds_and_persists_witness :
  VectorStoreIO.result demo_built = Ret tt
  /\ VectorStoreM.documents (VectorStoreIO.store demo_built)
     = [VectorStoreIO.document_of demo_docker; VectorStoreIO.document_of demo_ga4].
Proof.
  pose proof (create_index_builds_and_persists (list Q) unit_normalize toy_flat_ip
                toy_add toy_encode [demo_docker; demo_ga4] empty_store no_files
                [1 # 1; 0 # 1] ltac:(discriminate) eq_refl) as H.
  cbv zeta in H. destruct H as (H1 & H2 & _). split; [exact H1 | exact H2].
Defined.

Lemma create_index_encoding_failure_witness :
  VectorStoreIO.result
    (VectorStoreIO.create_index (list Q) unit_normalize toy_flat_ip toy_add
       failing_encode (Ret [demo_docker; demo_ga4]) demo_store no_files)
  = Raise (py "CUDA out of memory")
  /\ VectorStoreM.index
       (VectorStoreIO.store
          (VectorStoreIO.create_index (list Q) unit_normalize toy_flat_ip toy_add
             failing_encode (Ret [demo_docker; demo_ga4]) demo_store no_files))
     = Some demo_index.
Proof.
  pose proof (create_index_encoding_failure (list Q) unit_normalize toy_flat_ip
                toy_add failing_encode [demo_docker; demo_ga4] demo_store no_files
                (py "CUDA out of memory") ltac:(discriminate) eq_refl) as H.
  cbv zeta in H. destruct H as (H1 & _ & H3 & _). split; [exact H1 | exact H3].
Defined.

Lemma load_after_build_restores_witness :
  VectorStoreM.documents
    (VectorStoreIO.store
       (VectorStoreIO.load_or_create_index (list Q) unit_normalize toy_flat_ip
          toy_add failing_encode (Raise (py "database is locked")) empty_store
          (VectorStoreIO.files demo_built)))
  = VectorStoreM.documents (VectorStoreIO.store demo_built).
Proof.
  pose proof (load_after_build_restores (list Q) unit_normalize toy_flat_ip toy_add
                toy_encode [demo_docker; demo_ga4] empty_store empty_store no_files
                (Raise (py "database is locked")) ltac:(discriminate) eq_refl) as H.
  cbv zeta in H. destruct H as (_ & _ & H & _). exact H.
Defined.

Lemma load_gives_an_index_witness :
  VectorStoreM.index
    (VectorStoreIO.store
       (VectorStoreIO.load_or_create_index (list Q) unit_normalize toy_flat_ip
          toy_add toy_encode (Ret [demo_docker; demo_ga4]) empty_store no_files))
  <> None.
Proof.
  exact (load_gives_an_index (list Q) unit_normalize toy_flat_ip toy_add toy_encode
           (Ret [demo_docker; demo_ga4]) empty_store no_files eq_refl).
Defined.

Lemma add_document_appends_and_persists_witness :
  VectorStoreM.documents
    (VectorStoreIO.store
       (VectorStoreIO.add_document (list Q) unit_normalize toy_flat_ip toy_add
          toy_encode docker_guidelines (Ret []) demo_store no_files))
  = VectorStoreM.documents demo_store ++ [VectorStoreIO.document_of docker_guidelines].
Proof.
  pose proof (add_document_appends_and_persists (list Q) unit_normalize toy_flat_ip
                toy_add toy_encode docker_guidelines (Ret []) demo_store no_files
                demo_index eq_refl) as H.
  cbv zeta in H. destruct H as [H _].
  destruct (H [1 # 1; 0 # 1] eq_refl) as (_ & H2 & _). exact H2.
Defined.

Lemma add_document_builds_first_witness :
  VectorStoreM.documents
    (VectorStoreIO.store
       (VectorStoreIO.add_document (list Q) unit_normalize toy_flat_ip toy_add
          toy_encode docker_guidelines (Ret [demo_docker; demo_ga4]) empty_store
          no_files))
  = [VectorStoreIO.document_of demo_docker; VectorStoreIO.document_of demo_ga4;
     VectorStoreIO.document_of docker_guidelines].
Proof.
  pose proof (add_document_builds_first (list Q) unit_normalize toy_flat_ip toy_add
                toy_encode docker_guidelines [demo_docker; demo_ga4] empty_store
                no_files [1 # 1; 0 # 1] [1 # 1; 0 # 1] eq_refl eq_refl
                ltac:(discriminate) eq_refl eq_refl) as H.
  cbv zeta in H. destruct H as (_ & H & _). exact H.
Defined.

(* ================================================================== *)
(** * The scraper *)
(* ================================================================== *)

Lemma split_on_aux_no_sep (sep : ascii) (s cur piece : str) :
  ~ In sep cur ->
  In piece (Scraper.split_on_aux sep cur s) -> ~ In sep piece.
Proof.
  revert cur; induction s as [|c s IH]; intros cur Hcur; cbn [Scraper.split_on_aux].
  - intros [<- | []]. now rewrite <- in_rev.
  - destruct (Ascii.eqb_spec c sep) as [->|Hne].
    + intros [<- | H]; [now rewrite <- in_rev | now apply (IH [])].
    + apply IH. intros [E | H]; [now apply Hne | now apply Hcur].
Qed.

Lemma split_on_no_sep (sep : ascii) (s piece : str) :
  In piece (Scraper.split_on sep s) -> ~ In sep piece.
Proof. apply split_on_aux_no_sep. intros []. Qed.

Lemma first_title_cases (lines : list str) :
  Scraper.first_title lines = py "Untitled"
  \/ exists line, In line lines
                  /\ Scraper.first_title lines = Api.strip line
                  /\ Api.strip line <> []
                  /\ len (Api.strip line) < 100.
Proof.
  induction lines as [|l rest IH]; [now left|]. cbn [Scraper.first_title].
  destruct (truthy (Api.strip l)) eqn:Ht; cbn [andb].
  - destruct (Z.ltb_spec (len (Api.strip l)) 100).
    + right. exists l. repeat split; [now left | | assumption].
      intros E. rewrite E in Ht. discriminate Ht.
    + destruct IH as [IH | (line & Hin & IH)]; [now left|].
      right. exists line. split; [now right | exact IH].
  - destruct IH as [IH | (line & Hin & IH)]; [now left|].
    right. exists line. split; [now right | exact IH].
Qed.

Lemma extracted_title_facts (content url : str) :
  let title := Scraper.extract_title_from_content content in
  title <> []
  /\ len title < 100
  /\ ~ In Scraper.newline title
  /\ (exists c t, title = c :: t /\ isspace c = false)
  /\ (exists c t, rev title = c :: t /\ isspace c = false)
  /\ Scraper.scraped_title content url = title.
Proof.
  cbv zeta. unfold Scraper.scraped_title, Scraper.extract_title_from_content.
  destruct (first_title_cases (Scraper.split_on Scraper.newline content))
    as [E | (line & Hin & E & Hne & Hlen)]; rewrite E.
  - split; [discriminate|]. split; [reflexivity|]. split.
    + cbn. intuition discriminate.
    + split; [|split]; [eexists; eexists; split; reflexivity ..| reflexivity].
  - split; [exact Hne|]. split; [exact Hlen|]. split.
    + intros H. apply strip_incl in H. now apply (split_on_no_sep _ _ _ Hin).
    + destruct (strip_spec line) as (_ & _ & _ & _ & _ & Hhd & Htl).
      destruct (Api.strip line) as [|c t] eqn:Es; [now contradiction Hne|].
      split; [now exists c, t|]. split; [|reflexivity].
      destruct (rev (c :: t)) as [|c' t'] eqn:Er; [|now exists c', t'].
      apply (f_equal (@length ascii)) in Er. rewrite length_rev in Er. discriminate Er.
Qed.

(** X26.  The title taken from a scraped text is never empty, is shorter
    than 100 characters, holds no newline and neither starts nor ends with
    white space; so the last piece of the URL, kept as a replacement for
    an empty title, is never used. *)
Theorem extracted_title_is_well_formed (content url : str) :
  let title := Scraper.extract_title_from_content content in
  title <> []
  /\ len title < 100
  /\ ~ In Scraper.newline title
  /\ (exists c t, title = c :: t /\ isspace c = false)
  /\ (exists c t, rev title = c :: t /\ isspace c = false)
  /\ Scraper.scraped_title content url = title.
Proof. exact (extracted_title_facts content url). Qed.

Lemma str_eqb_eq (a b : str) : str_eqb a b = true <-> a = b.
Proof. unfold str_eqb. destruct (list_eq_dec ascii_dec a b); split; congruence. Qed.

Lemma already_scraped_iff (table : list ScrapedContent) (url : str) :
  Scraper.already_scraped table url = true <-> In url (map sc_url table).
Proof.
  unfold Scraper.already_scraped. rewrite existsb_exists, in_map_iff.
  split; intros [r [H1 H2]]; exists r.
  - apply str_eqb_eq in H2. tauto.
  - split; [exact H2 | now apply str_eqb_eq].
Qed.

Section ScrapeFacts.
Variable fetch_url : str -> exc (option str).
Variable extract : str -> exc (option str).
Variable next_id : list ScrapedContent -> Z.

Local Abbreviation get_text := (Scraper.get_website_text_content fetch_url extract).
Local Abbreviation scrape_step := (Scraper.scrape_step fetch_url extract next_id).
Local Abbreviation scrape_urls := (Scraper.scrape_urls fetch_url extract next_id).

(** A round either leaves the table or appends one row for the URL. *)
Lemma scrape_step_cases (content_type : str) (table : list ScrapedContent) (url : str) :
  scrape_step content_type table url = table
  \/ (~ In url (map sc_url table)
      /\ get_text url <> []
      /\ scrape_step content_type table url
         = table ++ [ {| sc_id := next_id table;
                         sc_url := url;
                         sc_title := Scraper.scraped_title (get_text url) url;
                         sc_content := get_text url;
                         sc_content_type := content_type |} ]).
Proof.
  unfold Scraper.scrape_step.
  destruct (Scraper.already_scraped table url) eqn:Ea; [now left|].
  destruct (get_text url) as [|c t] eqn:Et; [now left|]. right.
  split; [|split; [discriminate | reflexivity]].
  intros H. apply already_scraped_iff in H. congruence.
Qed.

Lemma scrape_urls_appends (content_type : str) (urls : list str)
    (table : list ScrapedContent) :
  exists added,
    scrape_urls content_type urls table = table ++ added
    /\ Forall (scraped_row content_type urls) added
    /\ (forall row, In row added -> ~ In (sc_url row) (map sc_url table))
    /\ (NoDup (map sc_url table) ->
        NoDup (map sc_url (scrape_urls content_type urls table))).
Proof.
  unfold Scraper.scrape_urls. revert table.
  induction urls as [|url urls IH]; intros table.
  - exists []. cbn. rewrite app_nil_r. repeat split; [constructor | intros _ [] | trivial].
  - cbn [fold_left].
    assert (Hw : forall added, Forall (scraped_row content_type urls) added ->
                               Forall (scraped_row content_type (url :: urls)) added).
    { intros added. apply Forall_impl. intros r (H1 & H2). split; [now right | exact H2]. }
    destruct (scrape_step_cases content_type table url) as [E | (Hfresh & Hc & E)];
      rewrite E.
    + destruct (IH table) as (added & E1 & HF & Hn & Hd).
      exists added. repeat split; [exact E1 | now apply Hw | exact Hn | exact Hd].
    + set (row := {| sc_id := next_id table; sc_url := url;
                     sc_title := Scraper.scraped_title (get_text url) url;
                     sc_content := get_text url;
                     sc_content_type := content_type |}) in *.
      destruct (IH (table ++ [row])) as (added & E1 & HF & Hn & Hd).
      exists (row :: added). split; [now rewrite E1, <- app_assoc|].
      pose proof (extracted_title_facts (get_text url) url) as Ht.
      cbv zeta in Ht. destruct Ht as (Ht1 & Ht2 & _ & _ & _ & Ht3).
      split; [|split].
      * constructor; [|now apply Hw].
        unfold scraped_row, row. cbn [sc_url sc_content sc_content_type sc_title].
        rewrite Ht3. repeat split; [now left | exact Hc | exact Ht1 | exact Ht2].
      * intros r [<- | Hr]; [exact Hfresh|].
        intros H. apply (Hn r Hr). rewrite map_app. apply in_or_app. now left.
      * intros Hnd. apply Hd. rewrite map_app. cbn [map].
        apply NoDup_app; [exact Hnd | repeat constructor; intros [] |].
        intros u Hu [<- | []]. now apply Hfresh.
Qed.

(** X27.  A scraping run only appends rows: the rows already in the table
    stay, in place.  Every row it adds is for one of the URLs of the run
    and for a URL that was not in the table, has a text that is not
    empty, the content type of the run and a title that is not empty and
    shorter than 100 characters.  If no two rows of the table shared a URL
    before the run, none do after it. *)
Theorem scrape_appends_fresh_rows (content_type : str) (urls : list str)
    (table : list ScrapedContent) :
  exists added,
    scrape_urls content_type urls table = table ++ added
    /\ Forall (scraped_row content_type urls) added
    /\ (forall row, In row added -> ~ In (sc_url row) (map sc_url table))
    /\ (NoDup (map sc_url table) ->
        NoDup (map sc_url (scrape_urls content_type urls table))).
Proof. exact (scrape_urls_appends content_type urls table). Qed.

Lemma scrape_urls_grows (content_type : str) (urls : list str)
    (table : list ScrapedContent) (u : str) :
  In u (map sc_url table) ->
  In u (map sc_url (scrape_urls content_type urls table)).
Proof.
  intros H. destruct (scrape_urls_appends content_type urls table)
    as (added & -> & _).
  rewrite map_app. apply in_or_app. now left.
Qed.

(** After a run every URL of the run is in the table or has no text. *)
Lemma scrape_urls_settles (content_type : str) (urls : list str)
    (table : list ScrapedContent) (u : str) :
  In u urls ->
  In u (map sc_url (scrape_urls content_type urls table)) \/ get_text u = [].
Proof.
  unfold Scraper.scrape_urls. revert table.
  induction urls as [|url urls IH]; intros table; [intros []|].
  cbn [fold_left]. intros [-> | Hin]; [|now apply IH].
  destruct (get_text u) as [|c t] eqn:Et; [now right|]. left.
  apply (scrape_urls_grows content_type urls). unfold Scraper.scrape_step.
  destruct (Scraper.already_scraped table u) eqn:Ea.
  - now apply already_scraped_iff.
  - rewrite Et. cbn [truthy]. rewrite map_app. apply in_or_app. right. now left.
Qed.

(** X28.  With the pages unchanged, a second scraping run over the same
    URLs adds nothing. *)
Theorem scrape_again_adds_nothing (content_type : str) (urls : list str)
    (table : list ScrapedContent) :
  scrape_urls content_type urls (scrape_urls content_type urls table)
  = scrape_urls content_type urls table.
Proof.
  set (t' := scrape_urls content_type urls table).
  assert (H : forall u, In u urls -> scrape_step content_type t' u = t').
  { intros u Hu. unfold Scraper.scrape_step.
    destruct (scrape_urls_settles content_type urls table u Hu) as [Hin | He].
    - apply already_scraped_iff in Hin. fold t' in Hin. now rewrite Hin.
    - rewrite He. now destruct (Scraper.already_scraped t' u). }
  unfold Scraper.scrape_urls at 1. clearbody t'.
  induction urls as [|u urls IH]; [reflexivity|].
  cbn [fold_left]. rewrite (H u (or_introl eq_refl)).
  apply IH. intros v Hv. apply H. now right.
Qed.

End ScrapeFacts.

(* ================================================================== *)
(** * The Discourse scraper *)
(* ================================================================== *)

Section DiscourseFacts.
Import DiscourseScraper.
Variable base_url : str.
Variable session_get : str -> exc Response.
Variable soup_text : str -> str.
Variable get_category_topics : str -> list (option Z).
Variable next_id : list ScrapedContent -> Z.

Local Abbreviation get_topic_content := (get_topic_content base_url session_get soup_text).
Local Abbreviation topic_step := (topic_step base_url session_get soup_text next_id).
Local Abbreviation scrape_tds_course_posts :=
  (scrape_tds_course_posts base_url session_get soup_text get_category_topics next_id).

Lemma post_loop (posts : list (option str)) (parts : list str) :
  fold_left (post_step soup_text) posts parts
  = parts ++ map (fun cooked => soup_text (match cooked with Some h => h | None => [] end))
                 (filter truthy_opt posts).
Proof.
  revert parts; induction posts as [|p posts IH]; intros parts; cbn [fold_left filter].
  - cbn. now rewrite app_nil_r.
  - rewrite IH. unfold post_step. destruct (truthy_opt p); [|reflexivity].
    cbn [map]. now rewrite <- app_assoc.
Qed.

(** X29.  [get_topic_content] returns nothing when the request raises,
    when the status is not 200 and when the body is not the expected
    JSON.  Otherwise it returns the topic's URL (the base URL, "/t/" and
    the id), the title (or "Untitled" without one) and, as content, the
    texts of the posts that have HTML, in post order, joined by a rule;
    posts without HTML leave no trace, and a topic with none gives the
    empty content. *)
Theorem get_topic_content_cases (topic_id : Z) :
  let url := topic_url base_url topic_id in
  (forall e, session_get (url ++ py ".json") = Raise e ->
             get_topic_content topic_id = None)
  /\ (forall response, session_get (url ++ py ".json") = Ret response ->
        status_code response <> 200 -> get_topic_content topic_id = None)
  /\ (forall response e, session_get (url ++ py ".json") = Ret response ->
        status_code response = 200 -> json response = Raise e ->
        get_topic_content topic_id = None)
  /\ (forall response data, session_get (url ++ py ".json") = Ret response ->
        status_code response = 200 -> json response = Ret data ->
        get_topic_content topic_id
        = Some {| td_title := match topic_title data with
                              | Some t => t
                              | None => py "Untitled"
                              end;
                  td_content :=
                    join Simple.context_separator
                         (map soup_text
                              (concat (map (fun cooked : option str =>
                                              match cooked with
                                              | Some (c :: h) => [c :: h]
                                              | _ => []
                                              end)
                                           (topic_posts data))));
                  td_url := url |}).
Proof.
  cbv zeta. unfold DiscourseScraper.get_topic_content.
  split; [|split; [|split]].
  - intros e ->. reflexivity.
  - intros response -> Hs. cbn [bind].
    destruct (Z.eqb_spec (status_code response) 200); [contradiction | reflexivity].
  - intros response e -> Hs He. cbn [bind]. rewrite Hs, He. reflexivity.
  - intros response data -> Hs Hd. cbn [bind]. rewrite Hs, Hd.
    change (negb (200 =? 200)) with false. cbn [bind try_except].
    rewrite post_loop. cbn [app]. do 3 f_equal.
    induction (topic_posts data) as [|[[|c h]|] posts IH];
      cbn [filter truthy_opt map concat app]; [reflexivity | exact IH | | exact IH].
    now rewrite IH.
Qed.

Lemma get_topic_content_url (topic_id : Z) (topic_data : TopicData) :
  get_topic_content topic_id = Some topic_data ->
  td_url topic_data = topic_url base_url topic_id.
Proof.
  unfold DiscourseScraper.get_topic_content.
  destruct (session_get _) as [response|e]; [|discriminate]. cbn [bind].
  destruct (negb _); [discriminate|].
  destruct (json response) as [data|e]; [|discriminate].
  cbn. now intros [= <-].
Qed.

Lemma topic_loop (topics : list (option Z)) (table : list ScrapedContent) (n : Z) :
  exists added,
    fold_left topic_step topics (table, n)
    = (table ++ added, n + Z.of_nat (length added))
    /\ (forall row, In row added ->
          sc_content_type row = py "discourse"
          /\ (exists topic_id, In (Some topic_id) topics
                               /\ sc_url row = topic_url base_url topic_id)
          /\ ~ In (sc_url row) (map sc_url table))
    /\ (NoDup (map sc_url table) -> NoDup (map sc_url (table ++ added))).
Proof.
  revert table n. induction topics as [|topic topics IH]; intros table n.
  - exists []. rewrite app_nil_r. cbn [fold_left length].
    split; [f_equal; lia|]. split; [intros row [] | trivial].
  - assert (Hkeep : topic_step (table, n) topic = (table, n) ->
              exists added,
                fold_left topic_step (topic :: topics) (table, n)
                = (table ++ added, n + Z.of_nat (length added))
                /\ (forall row, In row added ->
                      sc_content_type row = py "discourse"
                      /\ (exists topic_id, In (Some topic_id) (topic :: topics)
                                           /\ sc_url row = topic_url base_url topic_id)
                      /\ ~ In (sc_url row) (map sc_url table))
                /\ (NoDup (map sc_url table) -> NoDup (map sc_url (table ++ added)))).
    { intros E. cbn [fold_left]. rewrite E.
      destruct (IH table n) as (added & E1 & Hr & Hd).
      exists added. split; [exact E1|]. split; [|exact Hd].
      intros row Hrow. destruct (Hr row Hrow) as (H1 & (tid & H2 & H3) & H4).
      split; [exact H1|]. split; [|exact H4].
      exists tid. split; [now right | exact H3]. }
    destruct topic as [topic_id|]; [|now apply Hkeep].
    destruct (Scraper.already_scraped table (topic_url base_url topic_id)) eqn:Ea;
      [apply Hkeep; cbn [DiscourseScraper.topic_step]; now rewrite Ea|].
    destruct (get_topic_content topic_id) as [td|] eqn:Eg;
      [|apply Hkeep; cbn [DiscourseScraper.topic_step]; now rewrite Ea, Eg].
    clear Hkeep.
    pose proof (get_topic_content_url topic_id td Eg) as Eu.
    set (row := {| sc_id := next_id table; sc_url := td_url td;
                   sc_title := td_title td; sc_content := td_content td;
                   sc_content_type := py "discourse" |}).
    assert (Hfresh : ~ In (sc_url row) (map sc_url table)).
    { unfold row. cbn [sc_url]. rewrite Eu. intros Hin.
      apply already_scraped_iff in Hin. congruence. }
    destruct (IH (table ++ [row]) (n + 1)) as (added & E1 & Hr & Hd).
    exists (row :: added). split; [|split].
    + cbn [fold_left DiscourseScraper.topic_step]. rewrite Ea, Eg. fold row.
      rewrite E1, <- app_assoc. cbn [app length]. f_equal. lia.
    + intros r [<- | Hin].
      * split; [reflexivity|]. split; [|exact Hfresh].
        exists topic_id. split; [now left | exact Eu].
      * destruct (Hr r Hin) as (H1 & (tid & H2 & H3) & H4).
        split; [exact H1|]. split; [exists tid; split; [now right | exact H3]|].
        intros Hc. apply H4. rewrite map_app. apply in_or_app. now left.
    + intros Hnd. change (table ++ row :: added) with (table ++ [row] ++ added).
      rewrite app_assoc. apply Hd. rewrite map_app. cbn [map].
      apply NoDup_app; [exact Hnd | repeat constructor; intros [] |].
      intros u Hu [<- | []]. now apply Hfresh.
Qed.

(** X30.  The count [scrape_tds_course_posts] returns is the number of
    rows it added.  It only appends rows; every row it adds is a
    "discourse" row whose URL is the topic URL of one of the topics
    found and was not in the table; and rows that had distinct URLs before
    have distinct URLs after. *)
Theorem discourse_scrape_counts_what_it_adds (category_url : option str)
    (table : list ScrapedContent) :
  exists added,
    scrape_tds_course_posts category_url table
    = (table ++ added, Z.of_nat (length added))
    /\ (forall row, In row added ->
          sc_content_type row = py "discourse"
          /\ (exists topic_id,
                In (Some topic_id)
                   (get_category_topics (category_id_of category_url))
                /\ sc_url row = topic_url base_url topic_id)
          /\ ~ In (sc_url row) (map sc_url table))
    /\ (NoDup (map sc_url table) -> NoDup (map sc_url (table ++ added))).
Proof.
  unfold DiscourseScraper.scrape_tds_course_posts.
  destruct (topic_loop (get_category_topics (category_id_of category_url)) table 0)
    as (added & E & Hr & Hd).
  exists added. split; [exact E|]. split; [exact Hr | exact Hd].
Qed.

End DiscourseFacts.

(* ================================================================== *)
(** * Runs *)
(* ================================================================== *)

Lemma answered_iff_question_and_image_ok_witness :
  exists r,
    Api.handle_question accept_base64 demo_world (Some demo_request) = Api.Http200 r
    /\ r = Simple.answer_question None (Ret [demo_docker; demo_ga4])
             (Api.strip (question_of demo_request)) None.
Proof.
  pose proof (answered_iff_question_and_image_ok (list Q) accept_base64 demo_world
                demo_request) as H.
  cbv zeta in H. destruct H as [[_ H1] H2].
  destruct H1 as [r Hr].
  - split; [vm_compute; discriminate|]. intros b Hb. discriminate Hb.
  - exists r. split; [exact Hr | exact (H2 r Hr)].
Defined.

Lemma vector_answer_links_sound_witness :
  In (content_link demo_docker)
     (Vector.v_links
        (Vector.answer_question (list Q) unit_normalize (Some docker_client)
           demo_store demo_question None))
  /\ exists hits h,
       VectorStoreM.search (list Q) unit_normalize demo_store demo_question 5 = Ret hits
       /\ In h hits /\ (float_0_30 < snd h)%Q /\ content_link demo_docker = doc_link h.
Proof.
  assert (Hin : In (content_link demo_docker)
                   (Vector.v_links
                      (Vector.answer_question (list Q) unit_normalize
                         (Some docker_client) demo_store demo_question None))).
  { vm_compute. now left. }
  split; [exact Hin|].
  pose proof (vector_answer_links_sound (list Q) unit_normalize (Some docker_client)
                demo_store demo_question None) as H.
  cbv zeta in H. destruct H as [_ H].
  destruct (H _ Hin) as (hits & h & a & Hs & Hh & Ht & Hl & _).
  exists hits, h. repeat split; assumption.
Defined.

Lemma create_index_on_empty_corpus_witness :
  VectorStoreIO.load_or_create_index (list Q) unit_normalize toy_flat_ip toy_add
    toy_encode (Ret [demo_docker])
    empty_store
    (VectorStoreIO.files
       (VectorStoreIO.create_index (list Q) unit_normalize toy_flat_ip toy_add
          toy_encode (Ret []) empty_store no_files))
  = VectorStoreIO.create_index (list Q) unit_normalize toy_flat_ip toy_add
      toy_encode (Ret [demo_docker]) empty_store no_files.
Proof.
  pose proof (create_index_on_empty_corpus (list Q) unit_normalize toy_flat_ip
                toy_add toy_encode empty_store empty_store no_files
                (Ret [demo_docker]) demo_question 5) as H.
  cbv zeta in H. destruct H as (_ & _ & _ & _ & _ & H). exact (H eq_refl).
Defined.

Lemma scrape_appends_fresh_rows_witness :
  NoDup (map sc_url (@nil ScrapedContent))
  /\ NoDup (map sc_url
              (Scraper.scrape_urls toy_fetch toy_extract toy_next_id (py "course")
                 toy_urls [])).
Proof.
  assert (H0 : NoDup (map sc_url (@nil ScrapedContent))) by constructor.
  split; [exact H0|].
  destruct (scrape_appends_fresh_rows toy_fetch toy_extract toy_next_id (py "course")
              toy_urls []) as (added & _ & _ & _ & Hd).
  exact (Hd H0).
Defined.

(** The run itself: two rows, the repeated URL scraped once, the title
    stripped. *)
Example scrape_urls_demo :
  map (fun r => (sc_id r, sc_url r, sc_title r))
      (Scraper.scrape_urls toy_fetch toy_extract toy_next_id (py "course") toy_urls [])
  = [ (1, py "https://tds.example/week1", py "Week notes");
      (2, py "https://tds.example/week2", py "Week notes") ].
Proof. vm_compute. reflexivity. Qed.

Lemma get_topic_content_cases_witness :
  DiscourseScraper.get_topic_content toy_base toy_session_get toy_soup_text 8 = None.
Proof.
  pose proof (get_topic_content_cases toy_base toy_session_get toy_soup_text 8) as H.
  cbv zeta in H. destruct H as (_ & H & _).
  apply (H {| DiscourseScraper.status_code := 404;
              DiscourseScraper.json := Raise (py "Expecting value") |}).
  - reflexivity.
  - discriminate.
Defined.

Lemma discourse_scrape_counts_what_it_adds_witness :
  exists added,
    DiscourseScraper.scrape_tds_course_posts toy_base toy_session_get toy_soup_text
      toy_topics toy_next_id None []
    = ([] ++ added, Z.of_nat (length added))
    /\ NoDup (map sc_url ([] ++ added)).
Proof.
  destruct (discourse_scrape_counts_what_it_adds toy_base toy_session_get
              toy_soup_text toy_topics toy_next_id None [])
    as (added & E & _ & Hd).
  exists added. split; [exact E | apply Hd; constructor].
Defined.

(** The run itself: of the four topics found only topic 7 yields a row,
    once, and the count is 1. *)
Example discourse_scrape_demo :
  let '(table, n) :=
    DiscourseScraper.scrape_tds_course_posts toy_base toy_session_get toy_soup_text
      toy_topics toy_next_id None [] in
  (map (fun r => (sc_url r, sc_title r, sc_content r)) table, n)
  = ([ (py "https://forum.example/t/7", py "GA4 bonus",
        py "<p>first</p>" ++ Simple.context_separator ++ py "<p>second</p>") ], 1).
Proof. vm_compute. reflexivity. Qed.

(** Titles: the first line that is not blank wins, stripped; a text
    without such a line is "Untitled". *)
Example extract_title_demo :
  Scraper.extract_title_from_content
    ([Scraper.newline] ++ py "   " ++ [Scraper.newline] ++ py "  Docker vs Podman  "
     ++ [Scraper.newline] ++ py "body")
  = py "Docker vs Podman"
  /\ Scraper.extract_title_from_content [Scraper.newline; " "%char] = py "Untitled".
Proof. split; vm_compute; reflexivity. Qed.
